(** * libsigrok: the asix-sigma and scpi-dmm drivers

    A shallow embedding of the driver entry points of
    [src/hardware/asix-sigma/api.c] and [src/hardware/scpi-dmm/api.c],
    with the properties their specification states about them.

    Conventions.  C integers are [Z] with the wrap-around of their type
    written out ([uint8], [uint64]).  Status codes are the enumerators of
    [enum sr_error_code].  A function that returns a status and updates
    the device instance returns a pair.  Hardware register writes and SCPI
    commands are recorded, in program order, in a log carried by the
    device instance, so that "what was written" is a statement about a
    value.  Functions and constants which the drivers use but which live
    in other translation units ([protocol.c], [protocol.h], the libsigrok
    core) are fields of a class the driver model is parameterised by. *)

From Stdlib Require Import ZArith List Bool Lia.
From Stdlib Require Import Floats.SpecFloat.
From stdpp Require Import gmap strings list pretty.

Open Scope Z_scope.

(** ** libsigrok core: status codes, configuration keys, event sources *)

Inductive sr_error_code :=
| SR_OK | SR_ERR | SR_ERR_ARG | SR_ERR_BUG | SR_ERR_NA | SR_ERR_DATA
| SR_ERR_IO.

#[global] Instance sr_error_code_eq_dec : EqDecision sr_error_code.
Proof. solve_decision. Defined.

Inductive sr_configkey :=
| SR_CONF_CONN | SR_CONF_SERIALCOMM | SR_CONF_SAMPLERATE
| SR_CONF_LIMIT_MSEC | SR_CONF_LIMIT_SAMPLES | SR_CONF_CAPTURE_RATIO
| SR_CONF_TRIGGER_MATCH | SR_CONF_CONTINUOUS | SR_CONF_MEASURED_QUANTITY
| SR_CONF_RANGE | SR_CONF_AVERAGING | SR_CONF_AVG_SAMPLES
| SR_CONF_ADC_POWERLINE_CYCLES | SR_CONF_SCAN_OPTIONS
| SR_CONF_DEVICE_OPTIONS.

(** The receive routines the two drivers hand to the session. *)
Inductive receive_callback := sigma_receive_data | scpi_dmm_receive_data.

#[global] Instance receive_callback_eq_dec : EqDecision receive_callback.
Proof. solve_decision. Defined.

(** Modelled from the spec: the Event Dispatcher's [register_source] and
    [deregister_source] (libsigrok's [sr_session_source_add] and
    [sr_session_source_remove], which are not part of the two drivers).
    The session keeps its event sources in a table keyed by the handle the
    driver passes; registering binds the key to the callback and
    deregistering drops the key. *)
Definition sr_session_source_add (fd : Z) (cb : receive_callback)
    (sources : gmap Z receive_callback) : gmap Z receive_callback :=
  <[fd := cb]> sources.

Definition sr_session_source_remove (fd : Z)
    (sources : gmap Z receive_callback) : gmap Z receive_callback :=
  delete fd sources.

(** Fixed-width unsigned integers. *)
Definition uint8 (z : Z) : Z := z mod 2 ^ 8.
Definition uint64 (z : Z) : Z := z mod 2 ^ 64.

(** [SR_MHZ(n)] of libsigrok.h. *)
Definition SR_MHZ (n : Z) : Z := n * 1000000.

(** ** The register-protocol driver (asix-sigma) *)

Module Sigma.

(** The acquisition states the driver names. *)
Inductive sigma_state := SIGMA_IDLE | SIGMA_CAPTURE | SIGMA_STOPPING.

#[global] Instance sigma_state_eq_dec : EqDecision sigma_state.
Proof. solve_decision. Defined.

(** [devc->trigger]: one bit per channel in each mask. *)
Record sigma_trigger := {
  risingmask : Z;
  fallingmask : Z;
}.

Record sr_sw_limits := {
  limit_samples : Z;
  limit_msec : Z;
}.

(** The fields of [struct dev_context] that api.c reads or writes after
    the scan. *)
Record dev_context := {
  samplerate : Z;             (* uint64_t *)
  cfg_limits : sr_sw_limits;
  capture_ratio : Z;          (* uint64_t *)
  trigger : sigma_trigger;
  state : sigma_state;        (* devc->state.state *)
}.

Definition set_samplerate (v : Z) (d : dev_context) : dev_context :=
  {| samplerate := v; cfg_limits := cfg_limits d;
     capture_ratio := capture_ratio d; trigger := trigger d;
     state := state d |}.

Definition set_cfg_limits (v : sr_sw_limits) (d : dev_context) : dev_context :=
  {| samplerate := samplerate d; cfg_limits := v;
     capture_ratio := capture_ratio d; trigger := trigger d;
     state := state d |}.

Definition set_capture_ratio (v : Z) (d : dev_context) : dev_context :=
  {| samplerate := samplerate d; cfg_limits := cfg_limits d;
     capture_ratio := v; trigger := trigger d; state := state d |}.

Definition set_trigger (v : sigma_trigger) (d : dev_context) : dev_context :=
  {| samplerate := samplerate d; cfg_limits := cfg_limits d;
     capture_ratio := capture_ratio d; trigger := v; state := state d |}.

Definition set_state (v : sigma_state) (d : dev_context) : dev_context :=
  {| samplerate := samplerate d; cfg_limits := cfg_limits d;
     capture_ratio := capture_ratio d; trigger := trigger d; state := v |}.

(** The registers api.c writes. *)
Inductive sigma_register :=
| WRITE_TRIGGER_SELECT2 | WRITE_TRIGGER_OPTION | WRITE_CLOCK_SELECT
| WRITE_POST_TRIGGER | WRITE_MODE.

#[global] Instance sigma_register_eq_dec : EqDecision sigma_register.
Proof. solve_decision. Defined.

(** [struct triggerinout] after the [memset]: the two members the driver
    sets; every other member is zero. *)
Record triggerinout := {
  trgout_bytrigger : Z;
  trgout_enable : Z;
}.

(** [struct clockselect_50], as the driver fills it. *)
Record clockselect_50 := {
  async : Z;
  fraction : Z;
  disabled_channels : Z;
}.

(** What protocol.h and protocol.c of the driver provide to api.c. *)
Class protocol := {
  LEDSEL0 : Z;
  LEDSEL1 : Z;
  WMR_TRGRES : Z;
  WMR_SDRAMWRITEEN : Z;
  WMR_TRGEN : Z;
  ASIX_SIGMA_WITH_TRIGGER : bool;
  triggerlut : Type;
  (* returns the status and the rate stored through [have_rate] *)
  sigma_normalize_samplerate : Z -> sr_error_code * Z;
  sigma_set_samplerate : dev_context -> sr_error_code;
  sigma_set_acquire_timeout : dev_context -> sr_error_code;
  (* returns the status and the masks it leaves in [devc->trigger] *)
  sigma_convert_trigger : dev_context -> sr_error_code * sigma_trigger;
  sigma_build_basic_trigger : dev_context -> triggerlut;
  sr_sw_limits_config_set :
    sr_sw_limits -> sr_configkey -> Z -> sr_error_code * sr_sw_limits;
}.

Section Driver.
Context {P : protocol}.

(** One entry of the log of what the driver sent to the device and to the
    session's data feed. *)
Inductive hw_op :=
| set_register (reg : sigma_register) (value : Z)
| write_register (reg : sigma_register) (data : list Z)
| write_trigger_option (conf : triggerinout)
| write_trigger_lut (lut : triggerlut)
| send_df_header.

(** [struct sr_dev_inst]: the device context, the session's event
    sources and the log. *)
Record sr_dev_inst := {
  priv : dev_context;
  session : gmap Z receive_callback;
  hw : list hw_op;
}.

Definition with_priv (d : dev_context) (sdi : sr_dev_inst) : sr_dev_inst :=
  {| priv := d; session := session sdi; hw := hw sdi |}.

Definition with_session (s : gmap Z receive_callback) (sdi : sr_dev_inst)
    : sr_dev_inst :=
  {| priv := priv sdi; session := s; hw := hw sdi |}.

Definition emit (ops : list hw_op) (sdi : sr_dev_inst) : sr_dev_inst :=
  {| priv := priv sdi; session := session sdi; hw := hw sdi ++ ops |}.

(** *** config_set *)

Definition config_set (key : sr_configkey) (data : Z) (sdi : sr_dev_inst)
    : sr_error_code * sr_dev_inst :=
  let devc := priv sdi in
  match key with
  | SR_CONF_SAMPLERATE =>
      let want_rate := data in
      let '(ret, have_rate) := sigma_normalize_samplerate want_rate in
      if decide (ret = SR_OK)
      then (SR_OK, with_priv (set_samplerate have_rate devc) sdi)
      else (ret, sdi)
  | SR_CONF_LIMIT_MSEC | SR_CONF_LIMIT_SAMPLES =>
      let '(ret, limits) := sr_sw_limits_config_set (cfg_limits devc) key data in
      (ret, with_priv (set_cfg_limits limits devc) sdi)
  | SR_CONF_CAPTURE_RATIO =>
      if ASIX_SIGMA_WITH_TRIGGER
      then (SR_OK, with_priv (set_capture_ratio data devc) sdi)
      else (SR_ERR_NA, sdi)
  | _ => (SR_ERR_NA, sdi)
  end.

(** *** dev_acquisition_start *)

(** The loop that finds the pin to trigger on: [triggerpin] counts up
    from [pin] for at most [n] rounds and stops at the first bit of
    [mask] that is set. *)
Fixpoint scan_triggerpin (n : nat) (pin mask : Z) : Z :=
  match n with
  | O => pin
  | S n' =>
      if Z.land mask (Z.shiftl 1 pin) =? 0
      then scan_triggerpin n' (pin + 1) mask
      else pin
  end.

(** The trigger block, from the entry into trigger programming mode to
    the write that leaves it.  [triggerselect] is a byte. *)
Definition trigger_ops (devc : dev_context) : list hw_op :=
  let ops := [set_register WRITE_TRIGGER_SELECT2 0x20] in
  let triggerselect := 0 in
  let '(triggerselect, ops) :=
    if SR_MHZ 100 <=? samplerate devc then
      let ops := ops ++ [set_register WRITE_TRIGGER_SELECT2 0x81] in
      let triggerpin :=
        scan_triggerpin 8 0
          (Z.lor (risingmask (trigger devc)) (fallingmask (trigger devc))) in
      let triggerselect :=
        uint8 (Z.lor (Z.shiftl 1 LEDSEL1) (Z.land triggerpin 7)) in
      let triggerselect :=
        if fallingmask (trigger devc) =? 0 then triggerselect
        else uint8 (Z.lor triggerselect (Z.shiftl 1 3)) in
      (triggerselect, ops)
    else if samplerate devc <=? SR_MHZ 50 then
      let lut := sigma_build_basic_trigger devc in
      let ops := ops ++ [write_trigger_lut lut] in
      (uint8 (Z.lor (Z.shiftl 1 LEDSEL1) (Z.shiftl 1 LEDSEL0)), ops)
    else (triggerselect, ops) in
  ops
  ++ [write_trigger_option {| trgout_bytrigger := 1; trgout_enable := 1 |};
      set_register WRITE_TRIGGER_SELECT2 triggerselect].

(** The clock select structure.  The 50 MHz branch divides by the sample
    rate in 64-bit unsigned arithmetic; a division by zero has no defined
    result, which is [None].  The members are narrowed to bytes when they
    are copied to [clock_bytes]. *)
Definition clockselect_of (devc : dev_context) : option clockselect_50 :=
  if samplerate devc =? SR_MHZ 200 then
    Some {| async := 0; fraction := 1 - 1; disabled_channels := 0xf0ff |}
  else if samplerate devc =? SR_MHZ 100 then
    Some {| async := 0; fraction := 1 - 1; disabled_channels := 0x00ff |}
  else if samplerate devc =? 0 then None
  else
    Some {| async := 0;
            fraction := uint64 (SR_MHZ 50 / samplerate devc - 1);
            disabled_channels := 0x0000 |}.

(** The [clock_bytes] array, in index order. *)
Definition clock_bytes (c : clockselect_50) : list Z :=
  [uint8 (async c);
   uint8 (fraction c);
   uint8 (Z.land (disabled_channels c) 0xff);
   uint8 (Z.shiftr (disabled_channels c) 8)].

(** The argument of the write to the post trigger register. *)
Definition post_trigger_of (devc : dev_context) : Z :=
  uint8 (uint64 (capture_ratio devc * 255) / 100).

(** The value written to the mode register. *)
Definition mode_of : Z :=
  let regval := uint8 (Z.lor WMR_TRGRES WMR_SDRAMWRITEEN) in
  if ASIX_SIGMA_WITH_TRIGGER then uint8 (Z.lor regval WMR_TRGEN) else regval.

(** [None] is the run that divides by zero. *)
Definition dev_acquisition_start (sdi : sr_dev_inst)
    : option (sr_error_code * sr_dev_inst) :=
  let devc := priv sdi in
  let ret := sigma_set_samplerate devc in
  if decide (ret ≠ SR_OK) then Some (ret, sdi) else
  let ret := sigma_set_acquire_timeout devc in
  if decide (ret ≠ SR_OK) then Some (ret, sdi) else
  let '(ret, trg) := sigma_convert_trigger devc in
  let devc := set_trigger trg devc in
  let sdi := with_priv devc sdi in
  if decide (ret ≠ SR_OK) then Some (SR_ERR, sdi) else
  let sdi := emit (trigger_ops devc) sdi in
  match clockselect_of devc with
  | None => None
  | Some clockselect =>
      let sdi :=
        emit [write_register WRITE_CLOCK_SELECT (clock_bytes clockselect);
              set_register WRITE_POST_TRIGGER (post_trigger_of devc);
              set_register WRITE_MODE mode_of;
              send_df_header] sdi in
      let sdi :=
        with_session
          (sr_session_source_add (-1) sigma_receive_data (session sdi)) sdi in
      Some (SR_OK, with_priv (set_state SIGMA_CAPTURE (priv sdi)) sdi)
  end.

(** *** dev_acquisition_stop *)

Definition dev_acquisition_stop (sdi : sr_dev_inst)
    : sr_error_code * sr_dev_inst :=
  let devc := priv sdi in
  if decide (state devc = SIGMA_CAPTURE) then
    (SR_OK, with_priv (set_state SIGMA_STOPPING devc) sdi)
  else
    let sdi := with_priv (set_state SIGMA_IDLE devc) sdi in
    (SR_OK, with_session (sr_session_source_remove (-1) (session sdi)) sdi).

(** *** Vocabulary of the properties *)

(** Bit [k] is the lowest bit of [mask] that is set. *)
Definition lowest_set_bit (mask k : Z) : Prop :=
  Z.testbit mask k = true /\ forall j, 0 <= j < k -> Z.testbit mask j = false.



(** The byte strings the [set_register] and [write_register] operations
    of [ops] store in register [reg], in program order.  (The trigger
    option structure and the trigger table go out in a layout which
    protocol.h and protocol.c fix; they are logged as such.) *)
Fixpoint register_writes (reg : sigma_register) (ops : list hw_op)
    : list (list Z) :=
  match ops with
  | [] => []
  | set_register r value :: rest =>
      if decide (r = reg) then [value] :: register_writes reg rest
      else register_writes reg rest
  | write_register r data :: rest =>
      if decide (r = reg) then data :: register_writes reg rest
      else register_writes reg rest
  | _ :: rest => register_writes reg rest
  end.

(** What a run of [dev_acquisition_start] that reaches its end appends to
    the log. *)
Definition start_ops (devc : dev_context) (c : clockselect_50) : list hw_op :=
  trigger_ops devc
  ++ [write_register WRITE_CLOCK_SELECT (clock_bytes c);
      set_register WRITE_POST_TRIGGER (post_trigger_of devc);
      set_register WRITE_MODE mode_of;
      send_df_header].

(** The set-up calls that precede the register writes all succeed. *)
Definition setup_succeeds (sdi : sr_dev_inst) : Prop :=
  sigma_set_samplerate (priv sdi) = SR_OK /\
  sigma_set_acquire_timeout (priv sdi) = SR_OK /\
  (sigma_convert_trigger (priv sdi)).1 = SR_OK.

(** The device context once [sigma_convert_trigger] has run. *)
Definition converted (sdi : sr_dev_inst) : dev_context :=
  set_trigger (sigma_convert_trigger (priv sdi)).2 (priv sdi).

(** The register image the sentence "divider byte, then mask-low,
    mask-high, the async flag within the first byte" describes, for the
    flag at bit [b] of the first byte. *)
Definition divider_first_layout (b : Z) (c : clockselect_50)
    (bytes : list Z) : Prop :=
  length bytes = 4%nat /\
  bytes !! 0%nat = Some (uint8 (Z.lor (fraction c) (Z.shiftl (async c) b))) /\
  bytes !! 1%nat = Some (uint8 (Z.land (disabled_channels c) 0xff)) /\
  bytes !! 2%nat = Some (uint8 (Z.shiftr (disabled_channels c) 8)).

End Driver.

(** *** A bench set-up for the examples

    The LED select bits are the two top bits of the byte and each mode
    flag is a bit of its own; the set-up calls succeed and leave the
    trigger masks alone. *)
Definition bench (with_trigger : bool) : protocol := {|
  LEDSEL0 := 6;
  LEDSEL1 := 7;
  WMR_TRGRES := Z.shiftl 1 2;
  WMR_SDRAMWRITEEN := Z.shiftl 1 0;
  WMR_TRGEN := Z.shiftl 1 3;
  ASIX_SIGMA_WITH_TRIGGER := with_trigger;
  triggerlut := unit;
  sigma_normalize_samplerate := fun want_rate => (SR_OK, want_rate);
  sigma_set_samplerate := fun _ => SR_OK;
  sigma_set_acquire_timeout := fun _ => SR_OK;
  sigma_convert_trigger := fun devc => (SR_OK, trigger devc);
  sigma_build_basic_trigger := fun _ => tt;
  sr_sw_limits_config_set := fun limits key data =>
    match key with
    | SR_CONF_LIMIT_SAMPLES =>
        (SR_OK, {| limit_samples := data; limit_msec := limit_msec limits |})
    | SR_CONF_LIMIT_MSEC =>
        (SR_OK, {| limit_samples := limit_samples limits; limit_msec := data |})
    | _ => (SR_ERR_NA, limits)
    end;
|}.

(** A device as [scan] leaves it, at the rate and with the trigger masks
    given. *)
Definition bench_devc (rate rising falling : Z) : dev_context := {|
  samplerate := rate;
  cfg_limits := {| limit_samples := 0; limit_msec := 0 |};
  capture_ratio := 50;
  trigger := {| risingmask := rising; fallingmask := falling |};
  state := SIGMA_IDLE;
|}.

Definition bench_sdi (with_trigger : bool) (devc : dev_context)
    : sr_dev_inst (P := bench with_trigger) :=
  {| priv := devc; session := ∅; hw := [] |}.

(** *** Discovery and opening

    [scan] walks the USB device list.  What libusb answers for a device
    is part of the device's description here; what libsigrok's helpers
    and libftdi answer, and the constants of protocol.h, are fields of
    the class [host]. *)

#[global] Instance sr_configkey_eq_dec : EqDecision sr_configkey.
Proof. solve_decision. Defined.

Inductive asix_device_type := ASIX_TYPE_NONE | ASIX_TYPE_SIGMA | ASIX_TYPE_OMEGA.

#[global] Instance asix_device_type_eq_dec : EqDecision asix_device_type.
Proof. solve_decision. Defined.

(** A device of the list [libusb_get_device_list] returns, with what the
    libusb calls of [scan] return for it. *)
Record usb_device := {
  bus_number : Z;               (* libusb_get_bus_number *)
  device_address : Z;           (* libusb_get_device_address *)
  idVendor : Z;                 (* the device descriptor *)
  idProduct : Z;
  iSerialNumber : Z;
  open_ret : Z;                 (* libusb_open *)
  serno_ret : Z;                (* libusb_get_string_descriptor_ascii *)
  serno_txt : string;
}.

(** [devc->id] *)
Record device_id := {
  vid : Z;
  pid : Z;
  serno : Z;
  prefix : Z;
  type : asix_device_type;
}.

(** A device instance as [scan] creates it: the members of [sdi] and of
    [devc] that [scan] sets. *)
Record scanned := {
  scan_status_initializing : bool;    (* sdi->status = SR_ST_INITIALIZING *)
  scan_vendor : string;
  scan_model : string;
  scan_serial_num : string;
  scan_connection_id : string;
  scan_channels : list (Z * string);  (* index and name, all enabled *)
  scan_id : device_id;
  scan_samplerate : Z;
  scan_cur_firmware : Z;
  scan_capture_ratio : Z;
  scan_use_triggers : Z;
}.

Class host := {
  USB_VENDOR_ASIX : Z;
  USB_PRODUCT_SIGMA : Z;
  USB_PRODUCT_OMEGA : Z;
  ASIX_WITH_OMEGA : bool;
  (* samplerates[0] *)
  samplerates_first : Z;
  (* the (bus, address) pairs of the devices a connection spec matches *)
  sr_usb_find : string -> list (Z * Z);
  (* [sr_atol_base(text, &num, &end, base)]: the status, the number, and
     the text [end] points to, [None] for a null [end] *)
  sr_atol_base : string -> Z -> sr_error_code * Z * option string;
  ftdi_init : scanned -> Z;
  ftdi_usb_open_desc_index : Z -> Z -> string -> Z;
  (* the status and the value stored through [data] *)
  sr_sw_limits_config_get : sr_sw_limits -> sr_configkey -> sr_error_code * Z;
}.

Definition channel_names : list string := [
  "1"; "2"; "3"; "4"; "5"; "6"; "7"; "8";
  "9"; "10"; "11"; "12"; "13"; "14"; "15"; "16"
].

Section Discovery.
Context {H : host}.

Fixpoint bus_addr_in_devices (bus addr : Z) (devs : list (Z * Z)) : bool :=
  match devs with
  | [] => false
  | usb :: devs =>
      if bool_decide (usb.1 = bus) && bool_decide (usb.2 = addr) then true
      else bus_addr_in_devices bus addr devs
  end.

Definition known_vid_pid (des : usb_device) : bool :=
  if bool_decide (idVendor des ≠ USB_VENDOR_ASIX) then false
  else if bool_decide (idProduct des ≠ USB_PRODUCT_SIGMA)
          && bool_decide (idProduct des ≠ USB_PRODUCT_OMEGA) then false
  else true.

(** The [conn] of the option loop: the string of the last
    [SR_CONF_CONN] option, [None] without one. *)
Fixpoint scan_conn (options : list (sr_configkey * string))
    (conn : option string) : option string :=
  match options with
  | [] => conn
  | src :: l =>
      match src.1 with
      | SR_CONF_CONN => scan_conn l (Some src.2)
      | _ => scan_conn l conn
      end
  end.

(** The [switch] on the serial number prefix: the device type and the
    model text, [None] where the loop continues with the next device. *)
Definition serno_type (serno_pre : Z) : option (asix_device_type * string) :=
  if serno_pre =? 0xa601 then Some (ASIX_TYPE_SIGMA, "SIGMA")
  else if serno_pre =? 0xa602 then Some (ASIX_TYPE_SIGMA, "SIGMA2")
  else if serno_pre =? 0xa603 then
    if ASIX_WITH_OMEGA then Some (ASIX_TYPE_OMEGA, "OMEGA") else None
  else None.

(** The channels the loop over [channel_names] creates, from index
    [chidx] on. *)
Fixpoint scan_channels_from (chidx : Z) (names : list string)
    : list (Z * string) :=
  match names with
  | [] => []
  | name :: names => (chidx, name) :: scan_channels_from (chidx + 1) names
  end.

(** The body of the loop over the device list: the instance added to the
    result, [None] where the body ends in [continue]. *)
Definition scan_device (conn : option string) (conn_devices : list (Z * Z))
    (devitem : usb_device) : option scanned :=
  let bus := bus_number devitem in
  let addr := device_address devitem in
  if bool_decide (conn ≠ None) && negb (bus_addr_in_devices bus addr conn_devices)
  then None else
  let conn_id := pretty bus +:+ "." +:+ pretty addr in
  if negb (known_vid_pid devitem) then None else
  if iSerialNumber devitem =? 0 then None else
  if open_ret devitem <? 0 then None else
  if serno_ret devitem <? 0 then None else
  let '(ret, serno_num, end_) := sr_atol_base (serno_txt devitem) 16 in
  if bool_decide (ret ≠ SR_OK) || bool_decide (end_ ≠ Some "") then None else
  let serno_pre := Z.shiftr serno_num 16 in
  match serno_type serno_pre with
  | None => None
  | Some (dev_type, dev_text) =>
      Some {| scan_status_initializing := true;
              scan_vendor := "ASIX";
              scan_model := dev_text;
              scan_serial_num := serno_txt devitem;
              scan_connection_id := conn_id;
              scan_channels := scan_channels_from 0 channel_names;
              scan_id := {| vid := idVendor devitem;
                            pid := idProduct devitem;
                            serno := serno_num;
                            prefix := serno_pre;
                            type := dev_type |};
              scan_samplerate := samplerates_first;
              scan_cur_firmware := -1;
              scan_capture_ratio := 50;
              scan_use_triggers := 0 |}
  end.

(** [scan], for the options and the device list libusb returns. *)
Definition scan (options : list (sr_configkey * string))
    (devlist : list usb_device) : list scanned :=
  let conn := scan_conn options None in
  let conn_devices :=
    match conn with
    | Some c => sr_usb_find c
    | None => []
    end in
  if bool_decide (conn ≠ None) && bool_decide (conn_devices = []) then []
  else omap (scan_device conn conn_devices) devlist.

Definition dev_open (sdi : scanned) : sr_error_code :=
  if bool_decide (type (scan_id sdi) = ASIX_TYPE_OMEGA) && negb ASIX_WITH_OMEGA
  then SR_ERR_NA else
  if ftdi_init sdi <? 0 then SR_ERR_IO else
  if ftdi_usb_open_desc_index (vid (scan_id sdi)) (pid (scan_id sdi))
       (scan_serial_num sdi) <? 0
  then SR_ERR_IO
  else SR_OK.

End Discovery.

(** *** config_get and config_list *)

Inductive gvariant :=
| gv_string (s : string)
| gv_uint64 (z : Z).

Inductive trigger_match :=
| SR_TRIGGER_ZERO | SR_TRIGGER_ONE | SR_TRIGGER_RISING | SR_TRIGGER_FALLING.

Definition trigger_matches : list trigger_match :=
  [SR_TRIGGER_ZERO; SR_TRIGGER_ONE; SR_TRIGGER_RISING; SR_TRIGGER_FALLING].

(** How [config_list] ends: with an error status of its own; with the
    status and data of [STD_CONFIG_LIST] for the three option tables;
    with [SR_OK] and the rate table; or with [SR_OK] and the trigger
    matches. *)
Inductive list_reply :=
| list_error (ret : sr_error_code)
| list_std_options
| list_samplerates
| list_trigger_matches (l : list trigger_match).

(** A row of an option table: the key and the operations or-ed to it. *)
Record devopt := {
  opt_key : sr_configkey;
  opt_get : bool;
  opt_set : bool;
  opt_list : bool;
}.

Section Config.
Context {P : protocol} {H : host}.

Definition devopts : list devopt :=
  [ {| opt_key := SR_CONF_LIMIT_MSEC;
       opt_get := true; opt_set := true; opt_list := false |};
    {| opt_key := SR_CONF_LIMIT_SAMPLES;
       opt_get := true; opt_set := true; opt_list := false |};
    {| opt_key := SR_CONF_CONN;
       opt_get := true; opt_set := false; opt_list := false |};
    {| opt_key := SR_CONF_SAMPLERATE;
       opt_get := true; opt_set := true; opt_list := true |} ]
  ++ (if ASIX_SIGMA_WITH_TRIGGER then
        [ {| opt_key := SR_CONF_TRIGGER_MATCH;
             opt_get := false; opt_set := false; opt_list := true |};
          {| opt_key := SR_CONF_CAPTURE_RATIO;
             opt_get := true; opt_set := true; opt_list := false |} ]
      else []).

(** A device instance together with the connection id [scan] gave it. *)
Record identified := {
  connection_id : string;
  inst : sr_dev_inst;
}.

(** [sdi] is [None] for a null pointer.  Returns the status and, on
    success, the value stored through [data]. *)
Definition config_get (key : sr_configkey) (sdi : option identified)
    : sr_error_code * option gvariant :=
  match sdi with
  | None => (SR_ERR, None)
  | Some sdi =>
      let devc := priv (inst sdi) in
      match key with
      | SR_CONF_CONN => (SR_OK, Some (gv_string (connection_id sdi)))
      | SR_CONF_SAMPLERATE => (SR_OK, Some (gv_uint64 (samplerate devc)))
      | SR_CONF_LIMIT_MSEC | SR_CONF_LIMIT_SAMPLES =>
          let '(ret, v) := sr_sw_limits_config_get (cfg_limits devc) key in
          (ret, if decide (ret = SR_OK) then Some (gv_uint64 v) else None)
      | SR_CONF_CAPTURE_RATIO =>
          if ASIX_SIGMA_WITH_TRIGGER
          then (SR_OK, Some (gv_uint64 (capture_ratio devc)))
          else (SR_ERR_NA, None)
      | _ => (SR_ERR_NA, None)
      end
  end.

(** [cg] tells whether a channel group was given. *)
Definition config_list (key : sr_configkey) (cg : bool) : list_reply :=
  match key with
  | SR_CONF_SCAN_OPTIONS | SR_CONF_DEVICE_OPTIONS =>
      if cg then list_error SR_ERR_NA else list_std_options
  | SR_CONF_SAMPLERATE => list_samplerates
  | SR_CONF_TRIGGER_MATCH =>
      if ASIX_SIGMA_WITH_TRIGGER
      then list_trigger_matches trigger_matches
      else list_error SR_ERR_NA
  | _ => list_error SR_ERR_NA
  end.


End Config.

(** A host for the examples: a vendor and two product ids, a serial
    number parser that knows a few texts, and transports that open. *)
Definition bench_host (with_omega : bool) : host := {|
  USB_VENDOR_ASIX := 0xa600;
  USB_PRODUCT_SIGMA := 0xa000;
  USB_PRODUCT_OMEGA := 0xa004;
  ASIX_WITH_OMEGA := with_omega;
  samplerates_first := 200000;
  sr_usb_find := fun conn =>
    if decide (conn = "1.5") then [(1, 5)] else [];
  sr_atol_base := fun text base =>
    if decide (text = "A6010123") then (SR_OK, 0xA6010123, Some "")
    else if decide (text = "A6020456") then (SR_OK, 0xA6020456, Some "")
    else if decide (text = "A6030789") then (SR_OK, 0xA6030789, Some "")
    else if decide (text = "A601xyz") then (SR_OK, 0xA601, Some "xyz")
    else (SR_ERR, 0, None);
  ftdi_init := fun _ => 0;
  ftdi_usb_open_desc_index := fun _ _ _ => 0;
  sr_sw_limits_config_get := fun limits key =>
    match key with
    | SR_CONF_LIMIT_SAMPLES => (SR_OK, limit_samples limits)
    | SR_CONF_LIMIT_MSEC => (SR_OK, limit_msec limits)
    | _ => (SR_ERR_NA, 0)
    end;
|}.

Definition bench_usb (bus addr : Z) (product : Z) (serial : string)
    : usb_device :=
  {| bus_number := bus; device_address := addr;
     idVendor := 0xa600; idProduct := product; iSerialNumber := 3;
     open_ret := 0; serno_ret := 8; serno_txt := serial |}.

(** A bench set-up whose acquisition time-out cannot be set. *)
Definition bench_timeout_fails : protocol := {|
  LEDSEL0 := 6;
  LEDSEL1 := 7;
  WMR_TRGRES := Z.shiftl 1 2;
  WMR_SDRAMWRITEEN := Z.shiftl 1 0;
  WMR_TRGEN := Z.shiftl 1 3;
  ASIX_SIGMA_WITH_TRIGGER := true;
  triggerlut := unit;
  sigma_normalize_samplerate := fun want_rate => (SR_OK, want_rate);
  sigma_set_samplerate := fun _ => SR_OK;
  sigma_set_acquire_timeout := fun _ => SR_ERR_IO;
  sigma_convert_trigger := fun devc => (SR_OK, trigger devc);
  sigma_build_basic_trigger := fun _ => tt;
  sr_sw_limits_config_set := fun limits _ _ => (SR_ERR_NA, limits);
|}.

(** Two devices on the bus for the examples: a SIGMA with a readable
    serial number and one whose serial number does not parse. *)
Definition two_candidates : list usb_device :=
  [bench_usb 1 5 0xa000 "A6010123"; bench_usb 2 7 0xa000 "A601xyz"].

End Sigma.

(** ** The command-set driver (scpi-dmm) *)

Module Dmm.

(** IEEE 754 values.  A C [double] is a [spec_float] of binary64, a C
    [float] one of binary32; the conversion from [double] to [float]
    rounds to nearest, ties to even. *)
Definition double_of_Z (z : Z) : spec_float := binary_normalize 53 1024 z 0 false.

(** The [double] a decimal constant [num/den] denotes. *)
Definition double_lit (num den : Z) : spec_float :=
  SFdiv 53 1024 (double_of_Z num) (double_of_Z den).

Definition float_of_double (d : spec_float) : spec_float :=
  match d with
  | S754_finite s m e => binary_normalize 24 128 (cond_Zopp s (Zpos m)) e s
  | _ => d
  end.

(** [a <= b] and [a >= b] on [float]. *)
Definition float_le (a b : spec_float) : bool := SFleb a b.
Definition float_ge (a b : spec_float) : bool := SFleb b a.

Inductive scpi_dmm_cmdcode :=
| DMM_CMD_SETUP_REMOTE | DMM_CMD_SETUP_FUNC | DMM_CMD_QUERY_FUNC
| DMM_CMD_START_ACQ | DMM_CMD_STOP_ACQ | DMM_CMD_QUERY_VALUE
| DMM_CMD_QUERY_PREC | DMM_CMD_SETUP_LOCAL | DMM_CMD_QUERY_RANGE
| DMM_CMD_QUERY_RANGE_AUTO | DMM_CMD_SETUP_RANGE | DMM_CMD_SETUP_RANGE_AUTO
| DMM_CMD_QUERY_NPLC | DMM_CMD_SETUP_NPLC | DMM_CMD_SETUP_AVG_COUNT
| DMM_CMD_QUERY_AVG_COUNT | DMM_CMD_SETUP_AVG | DMM_CMD_QUERY_AVG.

#[global] Instance scpi_dmm_cmdcode_eq_dec : EqDecision scpi_dmm_cmdcode.
Proof. solve_decision. Defined.

(** The measured quantities the tables name. *)
Inductive sr_mq :=
| SR_MQ_VOLTAGE | SR_MQ_CURRENT | SR_MQ_RESISTANCE | SR_MQ_CAPACITANCE
| SR_MQ_TEMPERATURE | SR_MQ_FREQUENCY | SR_MQ_CONTINUITY | SR_MQ_TIME.

#[global] Instance sr_mq_eq_dec : EqDecision sr_mq.
Proof. solve_decision. Defined.

(** [enum sr_mqflag] gives each flag a bit of its own, and a flag word is
    the bitwise or of its flags.  A flag word is modelled as the set of
    its flags: or is union, the word 0 is the empty set, and two words
    are equal when they have the same flags.  These are the flags the
    tables name. *)
Inductive mqflag_bit := AC | DC | DIODE | FOUR_WIRE.

#[global] Instance mqflag_bit_eq_dec : EqDecision mqflag_bit.
Proof. solve_decision. Defined.

#[global] Instance mqflag_bit_countable : Countable mqflag_bit.
Proof.
  refine (inj_countable'
            (fun b => match b with
                      | AC => 0 | DC => 1 | DIODE => 2 | FOUR_WIRE => 3
                      end)%nat
            (fun n => match n with
                      | 0 => AC | 1 => DC | 2 => DIODE | _ => FOUR_WIRE
                      end)%nat _).
  intros []; reflexivity.
Defined.

Abbreviation sr_mqflag := (gset mqflag_bit).

Definition SR_MQFLAG_AC : sr_mqflag := {[ AC ]}.
Definition SR_MQFLAG_DC : sr_mqflag := {[ DC ]}.
Definition SR_MQFLAG_DIODE : sr_mqflag := {[ DIODE ]}.
Definition SR_MQFLAG_FOUR_WIRE : sr_mqflag := {[ FOUR_WIRE ]}.

(** [enum sr_dev_inst_status], whose enumerators libsigrok.h numbers in this
    order from 10000 on. *)
Definition SR_ST_NOT_FOUND : Z := 10000.
Definition SR_ST_INITIALIZING : Z := 10001.
Definition SR_ST_INACTIVE : Z := 10002.
Definition SR_ST_ACTIVE : Z := 10003.
Definition SR_ST_STOPPING : Z := 10004.

(** One row of a command table.  A table is the list of its rows; the
    [ALL_ZERO] row that ends the C array is the end of the list. *)
Record scpi_command := {
  command : scpi_dmm_cmdcode;
  cmd_string : string;
}.

Definition newline : string := String (Ascii.ascii_of_nat 10) EmptyString.
Definition dquote : string := String (Ascii.ascii_of_nat 34) EmptyString.

Definition cmd (c : scpi_dmm_cmdcode) (s : string) : scpi_command :=
  {| command := c; cmd_string := s |}.

Definition cmdset_agilent : list scpi_command := [
  cmd DMM_CMD_SETUP_REMOTE newline;
  cmd DMM_CMD_SETUP_FUNC "CONF:%s";
  cmd DMM_CMD_QUERY_FUNC "CONF?";
  cmd DMM_CMD_START_ACQ "MEAS";
  cmd DMM_CMD_STOP_ACQ "ABORT";
  cmd DMM_CMD_QUERY_VALUE "READ?";
  cmd DMM_CMD_QUERY_PREC "CONF?"
].

Definition cmdset_hp : list scpi_command := [
  cmd DMM_CMD_SETUP_REMOTE newline;
  cmd DMM_CMD_SETUP_FUNC "CONF:%s";
  cmd DMM_CMD_QUERY_FUNC "CONF?";
  cmd DMM_CMD_START_ACQ "INIT";
  cmd DMM_CMD_STOP_ACQ "ABORT";
  cmd DMM_CMD_QUERY_VALUE "READ?";
  cmd DMM_CMD_QUERY_PREC "CONF?"
].

Definition cmdset_gwinstek : list scpi_command := [
  cmd DMM_CMD_SETUP_REMOTE "SYST:REM";
  cmd DMM_CMD_SETUP_LOCAL "SYST:LOC";
  cmd DMM_CMD_SETUP_FUNC "CONF:%s";
  cmd DMM_CMD_QUERY_FUNC "CONF:STAT:FUNC?";
  cmd DMM_CMD_START_ACQ "*CLS;SYST:REM";
  cmd DMM_CMD_QUERY_VALUE "VAL1?";
  cmd DMM_CMD_QUERY_PREC "SENS:DET:RATE?"
].

Definition cmdset_gwinstek_906x : list scpi_command := [
  cmd DMM_CMD_SETUP_REMOTE "SYST:REM";
  cmd DMM_CMD_SETUP_LOCAL "SYST:LOC";
  cmd DMM_CMD_SETUP_FUNC "CONF:%s";
  cmd DMM_CMD_QUERY_FUNC "CONF?";
  cmd DMM_CMD_START_ACQ "INIT";
  cmd DMM_CMD_STOP_ACQ "ABORT";
  cmd DMM_CMD_QUERY_VALUE "VAL1?";
  cmd DMM_CMD_QUERY_PREC "SENS:DET:RATE?"
].

Definition cmdset_owon : list scpi_command := [
  cmd DMM_CMD_SETUP_REMOTE "SYST:REM";
  cmd DMM_CMD_SETUP_LOCAL "SYST:LOC";
  cmd DMM_CMD_SETUP_FUNC "CONF:%s";
  cmd DMM_CMD_QUERY_FUNC "FUNC?";
  cmd DMM_CMD_QUERY_VALUE "MEAS1?"
].

Definition cmdset_keithley : list scpi_command := [
  cmd DMM_CMD_SETUP_REMOTE newline;
  cmd DMM_CMD_SETUP_FUNC (":FUNC " +:+ dquote +:+ "%s" +:+ dquote);
  cmd DMM_CMD_QUERY_FUNC "FUNC?";
  cmd DMM_CMD_QUERY_VALUE "READ?";
  cmd DMM_CMD_QUERY_RANGE "%s:RANGE?";
  cmd DMM_CMD_QUERY_RANGE_AUTO "%s:RANGE:AUTO?";
  cmd DMM_CMD_SETUP_RANGE "%s:RANGE %s";
  cmd DMM_CMD_SETUP_RANGE_AUTO "%s:RANGE:AUTO 1";
  cmd DMM_CMD_SETUP_NPLC "%s:NPLC %2.4f";
  cmd DMM_CMD_QUERY_NPLC "%s:NPLC?";
  cmd DMM_CMD_SETUP_AVG_COUNT "%s:AVER:COUN %d";
  cmd DMM_CMD_QUERY_AVG_COUNT "%s:AVER:COUN?";
  cmd DMM_CMD_SETUP_AVG "%s:AVER %d";
  cmd DMM_CMD_QUERY_AVG "%s:AVER?"
].

(** Modelled from the spec: [get_command(code) -> template string | absent]
    (libsigrok's [sr_scpi_cmd_get], which lives in the SCPI core and not
    in this driver).  The table is an ordered mapping from command code to
    template; the first row with the code answers, and a table without
    the code answers "absent". *)
Fixpoint sr_scpi_cmd_get (cmdtable : list scpi_command)
    (code : scpi_dmm_cmdcode) : option string :=
  match cmdtable with
  | [] => None
  | row :: rest =>
      if decide (command row = code) then Some (cmd_string row)
      else sr_scpi_cmd_get rest code
  end.

(** [command && *command] *)
Definition usable (c : option string) : option string :=
  match c with
  | Some s => if decide (s = "") then None else Some s
  | None => None
  end.

(** *** The option tables *)

Record mqopt_item := {
  mq : sr_mq;
  mqflag : sr_mqflag;
  scpi_func_setup : string;
  scpi_func_query : string;
  default_precision : Z;
}.

Definition NO_DFLT_PREC : Z := -99.

Definition mqopt (q : sr_mq) (f : sr_mqflag) (setup query : string) (prec : Z)
    : mqopt_item :=
  {| mq := q; mqflag := f; scpi_func_setup := setup;
     scpi_func_query := query; default_precision := prec |}.

Definition mqopts_agilent_34405a : list mqopt_item := [
  mqopt SR_MQ_VOLTAGE SR_MQFLAG_DC "VOLT:DC" "VOLT " NO_DFLT_PREC;
  mqopt SR_MQ_VOLTAGE SR_MQFLAG_AC "VOLT:AC" "VOLT:AC " NO_DFLT_PREC;
  mqopt SR_MQ_CURRENT SR_MQFLAG_DC "CURR:DC" "CURR " NO_DFLT_PREC;
  mqopt SR_MQ_CURRENT SR_MQFLAG_AC "CURR:AC" "CURR:AC " NO_DFLT_PREC;
  mqopt SR_MQ_RESISTANCE ∅ "RES" "RES " NO_DFLT_PREC;
  mqopt SR_MQ_CONTINUITY ∅ "CONT" "CONT" (-1);
  mqopt SR_MQ_CAPACITANCE ∅ "CAP" "CAP " NO_DFLT_PREC;
  mqopt SR_MQ_VOLTAGE (SR_MQFLAG_DC ∪ SR_MQFLAG_DIODE) "DIOD" "DIOD" (-4);
  mqopt SR_MQ_TEMPERATURE ∅ "TEMP" "TEMP " NO_DFLT_PREC;
  mqopt SR_MQ_FREQUENCY ∅ "FREQ" "FREQ " NO_DFLT_PREC
].

Definition mqopts_agilent_34401a : list mqopt_item := [
  mqopt SR_MQ_VOLTAGE SR_MQFLAG_DC "VOLT:DC" "VOLT " NO_DFLT_PREC;
  mqopt SR_MQ_VOLTAGE SR_MQFLAG_AC "VOLT:AC" "VOLT:AC " NO_DFLT_PREC;
  mqopt SR_MQ_CURRENT SR_MQFLAG_DC "CURR:DC" "CURR " NO_DFLT_PREC;
  mqopt SR_MQ_CURRENT SR_MQFLAG_AC "CURR:AC" "CURR:AC " NO_DFLT_PREC;
  mqopt SR_MQ_RESISTANCE ∅ "RES" "RES " NO_DFLT_PREC;
  mqopt SR_MQ_RESISTANCE SR_MQFLAG_FOUR_WIRE "FRES" "FRES " NO_DFLT_PREC;
  mqopt SR_MQ_CONTINUITY ∅ "CONT" "CONT" (-1);
  mqopt SR_MQ_VOLTAGE (SR_MQFLAG_DC ∪ SR_MQFLAG_DIODE) "DIOD" "DIOD" (-4);
  mqopt SR_MQ_FREQUENCY ∅ "FREQ" "FREQ " NO_DFLT_PREC;
  mqopt SR_MQ_TIME ∅ "PER" "PER " NO_DFLT_PREC
].

Definition mqopts_gwinstek_gdm8200a : list mqopt_item := [
  mqopt SR_MQ_VOLTAGE SR_MQFLAG_DC "VOLT:DC" "01" NO_DFLT_PREC;
  mqopt SR_MQ_VOLTAGE SR_MQFLAG_AC "VOLT:AC" "02" NO_DFLT_PREC;
  mqopt SR_MQ_CURRENT SR_MQFLAG_DC "CURR:DC" "03" NO_DFLT_PREC;
  mqopt SR_MQ_CURRENT SR_MQFLAG_AC "CURR:AC" "04" NO_DFLT_PREC;
  mqopt SR_MQ_CURRENT SR_MQFLAG_DC "CURR:DC" "05" NO_DFLT_PREC; (* mA *)
  mqopt SR_MQ_CURRENT SR_MQFLAG_AC "CURR:AC" "06" NO_DFLT_PREC; (* mA *)
  mqopt SR_MQ_RESISTANCE ∅ "RES" "07" NO_DFLT_PREC;
  mqopt SR_MQ_RESISTANCE SR_MQFLAG_FOUR_WIRE "FRES" "16" NO_DFLT_PREC;
  mqopt SR_MQ_CONTINUITY ∅ "CONT" "13" (-1);
  mqopt SR_MQ_VOLTAGE (SR_MQFLAG_DC ∪ SR_MQFLAG_DIODE) "DIOD" "17" (-4);
  mqopt SR_MQ_TEMPERATURE ∅ "TEMP" "09" NO_DFLT_PREC; (* Celsius *)
  mqopt SR_MQ_TEMPERATURE ∅ "TEMP" "15" NO_DFLT_PREC; (* Fahrenheit *)
  mqopt SR_MQ_FREQUENCY ∅ "FREQ" "08" NO_DFLT_PREC;
  mqopt SR_MQ_TIME ∅ "PER" "14" NO_DFLT_PREC
].

Definition mqopts_gwinstek_gdm906x : list mqopt_item := [
  mqopt SR_MQ_VOLTAGE SR_MQFLAG_DC "VOLT:DC" "VOLT " NO_DFLT_PREC;
  mqopt SR_MQ_VOLTAGE SR_MQFLAG_AC "VOLT:AC" "VOLT:AC" NO_DFLT_PREC;
  mqopt SR_MQ_CURRENT SR_MQFLAG_DC "CURR:DC" "CURR " NO_DFLT_PREC;
  mqopt SR_MQ_CURRENT SR_MQFLAG_AC "CURR:AC" "CURR:AC" NO_DFLT_PREC;
  mqopt SR_MQ_RESISTANCE ∅ "RES" "RES" NO_DFLT_PREC;
  mqopt SR_MQ_RESISTANCE SR_MQFLAG_FOUR_WIRE "FRES" "FRES" NO_DFLT_PREC;
  mqopt SR_MQ_CONTINUITY ∅ "CONT" "CONT" (-1);
  mqopt SR_MQ_VOLTAGE (SR_MQFLAG_DC ∪ SR_MQFLAG_DIODE) "DIOD" "DIOD" (-4);
  mqopt SR_MQ_TEMPERATURE ∅ "TEMP" "TEMP" NO_DFLT_PREC;
  mqopt SR_MQ_FREQUENCY ∅ "FREQ" "FREQ" NO_DFLT_PREC;
  mqopt SR_MQ_TIME ∅ "PER" "PER" NO_DFLT_PREC;
  mqopt SR_MQ_CAPACITANCE ∅ "CAP" "CAP" NO_DFLT_PREC
].

Definition mqopts_owon_xdm2041 : list mqopt_item := [
  mqopt SR_MQ_VOLTAGE SR_MQFLAG_AC "VOLT:AC" "VOLT AC" NO_DFLT_PREC;
  mqopt SR_MQ_VOLTAGE SR_MQFLAG_DC "VOLT:DC" "VOLT" NO_DFLT_PREC;
  mqopt SR_MQ_CURRENT SR_MQFLAG_AC "CURR:AC" "CURR AC" NO_DFLT_PREC;
  mqopt SR_MQ_CURRENT SR_MQFLAG_DC "CURR:DC" "CURR" NO_DFLT_PREC;
  mqopt SR_MQ_RESISTANCE ∅ "RES" "RES" NO_DFLT_PREC;
  mqopt SR_MQ_RESISTANCE SR_MQFLAG_FOUR_WIRE "FRES" "FRES" NO_DFLT_PREC;
  mqopt SR_MQ_CONTINUITY ∅ "CONT" "CONT" (-1);
  mqopt SR_MQ_VOLTAGE (SR_MQFLAG_DC ∪ SR_MQFLAG_DIODE) "DIOD" "DIOD" (-4);
  mqopt SR_MQ_TEMPERATURE ∅ "TEMP" "TEMP" NO_DFLT_PREC;
  mqopt SR_MQ_FREQUENCY ∅ "FREQ" "FREQ" NO_DFLT_PREC;
  mqopt SR_MQ_CAPACITANCE ∅ "CAP" "CAP" NO_DFLT_PREC
].

Definition mqopts_keithley_dmm6500 : list mqopt_item := [
  mqopt SR_MQ_VOLTAGE SR_MQFLAG_DC "VOLT:DC" "VOLT:DC" NO_DFLT_PREC;
  mqopt SR_MQ_VOLTAGE SR_MQFLAG_AC "VOLT:AC" "VOLT:AC" NO_DFLT_PREC;
  mqopt SR_MQ_CURRENT SR_MQFLAG_DC "CURR:DC" "CURR:DC" NO_DFLT_PREC;
  mqopt SR_MQ_CURRENT SR_MQFLAG_AC "CURR:AC" "CURR:AC" NO_DFLT_PREC;
  mqopt SR_MQ_RESISTANCE ∅ "RES" "RES" NO_DFLT_PREC;
  mqopt SR_MQ_RESISTANCE SR_MQFLAG_FOUR_WIRE "FRES" "FRES" NO_DFLT_PREC;
  mqopt SR_MQ_CONTINUITY ∅ "CONT" "CONT" (-1);
  mqopt SR_MQ_VOLTAGE (SR_MQFLAG_DC ∪ SR_MQFLAG_DIODE) "DIOD" "DIOD" (-4);
  mqopt SR_MQ_TEMPERATURE ∅ "TEMP" "TEMP" NO_DFLT_PREC; (* Celsius *)
  mqopt SR_MQ_FREQUENCY ∅ "FREQ" "FREQ" NO_DFLT_PREC;
  mqopt SR_MQ_TIME ∅ "PER" "PER" NO_DFLT_PREC;
  mqopt SR_MQ_CAPACITANCE ∅ "CAP" "CAP" NO_DFLT_PREC
].

Record scpi_dmm_rangeopts := {
  range_mq : sr_mq;
  range_mqflag : sr_mqflag;
  scpi_range : string;
  range_str : string;
}.

Definition rangeopt (q : sr_mq) (f : sr_mqflag) (wire label : string)
    : scpi_dmm_rangeopts :=
  {| range_mq := q; range_mqflag := f; scpi_range := wire;
     range_str := label |}.

Definition rangeopts_keithley_dmm6500 : list scpi_dmm_rangeopts := [
  (* VOLT:DC. *)
  rangeopt SR_MQ_VOLTAGE SR_MQFLAG_DC "AUTO" "Auto";
  rangeopt SR_MQ_VOLTAGE SR_MQFLAG_DC "0.1" "100mV";
  rangeopt SR_MQ_VOLTAGE SR_MQFLAG_DC "1" "1V";
  rangeopt SR_MQ_VOLTAGE SR_MQFLAG_DC "10" "10V";
  rangeopt SR_MQ_VOLTAGE SR_MQFLAG_DC "100" "100V";
  rangeopt SR_MQ_VOLTAGE SR_MQFLAG_DC "1000" "1000V";
  (* VOLT:AC. *)
  rangeopt SR_MQ_VOLTAGE SR_MQFLAG_AC "AUTO" "Auto";
  rangeopt SR_MQ_VOLTAGE SR_MQFLAG_AC "0.1" "100mV";
  rangeopt SR_MQ_VOLTAGE SR_MQFLAG_AC "1" "1V";
  rangeopt SR_MQ_VOLTAGE SR_MQFLAG_AC "10" "10V";
  rangeopt SR_MQ_VOLTAGE SR_MQFLAG_AC "100" "100V";
  rangeopt SR_MQ_VOLTAGE SR_MQFLAG_AC "750" "750V";
  (* CUR:DC *)
  rangeopt SR_MQ_CURRENT SR_MQFLAG_DC "AUTO" "Auto";
  rangeopt SR_MQ_CURRENT SR_MQFLAG_DC "1E-05" "10uA";
  rangeopt SR_MQ_CURRENT SR_MQFLAG_DC "0.0001" "100uA";
  rangeopt SR_MQ_CURRENT SR_MQFLAG_DC "0.001" "1mA";
  rangeopt SR_MQ_CURRENT SR_MQFLAG_DC "0.01" "10mA";
  rangeopt SR_MQ_CURRENT SR_MQFLAG_DC "0.1" "100mA";
  rangeopt SR_MQ_CURRENT SR_MQFLAG_DC "1" "1A";
  rangeopt SR_MQ_CURRENT SR_MQFLAG_DC "3" "3A";
  rangeopt SR_MQ_CURRENT SR_MQFLAG_DC "10" "10A";
  (* CUR:AC *)
  rangeopt SR_MQ_CURRENT SR_MQFLAG_AC "AUTO" "Auto";
  rangeopt SR_MQ_CURRENT SR_MQFLAG_AC "0.001" "1mA";
  rangeopt SR_MQ_CURRENT SR_MQFLAG_AC "0.01" "10mA";
  rangeopt SR_MQ_CURRENT SR_MQFLAG_AC "0.1" "100mA";
  rangeopt SR_MQ_CURRENT SR_MQFLAG_AC "1" "1A";
  rangeopt SR_MQ_CURRENT SR_MQFLAG_AC "3" "3A";
  (* RES *)
  rangeopt SR_MQ_RESISTANCE ∅ "AUTO" "Auto";
  rangeopt SR_MQ_RESISTANCE ∅ "10" "10";
  rangeopt SR_MQ_RESISTANCE ∅ "100" "100";
  rangeopt SR_MQ_RESISTANCE ∅ "1000" "1k";
  rangeopt SR_MQ_RESISTANCE ∅ "10000" "10k";
  rangeopt SR_MQ_RESISTANCE ∅ "100000" "100k";
  rangeopt SR_MQ_RESISTANCE ∅ "1E+06" "1M";
  rangeopt SR_MQ_RESISTANCE ∅ "1E+07" "10M";
  rangeopt SR_MQ_RESISTANCE ∅ "1E+08" "100M";
  (* FRES *)
  rangeopt SR_MQ_RESISTANCE SR_MQFLAG_FOUR_WIRE "AUTO" "Auto";
  rangeopt SR_MQ_RESISTANCE SR_MQFLAG_FOUR_WIRE "1" "1";
  rangeopt SR_MQ_RESISTANCE SR_MQFLAG_FOUR_WIRE "10" "10";
  rangeopt SR_MQ_RESISTANCE SR_MQFLAG_FOUR_WIRE "100" "100";
  rangeopt SR_MQ_RESISTANCE SR_MQFLAG_FOUR_WIRE "1000" "1k";
  rangeopt SR_MQ_RESISTANCE SR_MQFLAG_FOUR_WIRE "10000" "10k";
  rangeopt SR_MQ_RESISTANCE SR_MQFLAG_FOUR_WIRE "100000" "100k";
  rangeopt SR_MQ_RESISTANCE SR_MQFLAG_FOUR_WIRE "1E+06" "1M";
  rangeopt SR_MQ_RESISTANCE SR_MQFLAG_FOUR_WIRE "1E+07" "10M";
  rangeopt SR_MQ_RESISTANCE SR_MQFLAG_FOUR_WIRE "1E+08" "100M";
  (* DIOD *)
  rangeopt SR_MQ_VOLTAGE (SR_MQFLAG_DC ∪ SR_MQFLAG_DIODE) "" "10V"; (* Fixed *)
  (* CAP *)
  rangeopt SR_MQ_CAPACITANCE ∅ "AUTO" "Auto";
  rangeopt SR_MQ_CAPACITANCE ∅ "1E-09" "1nF";
  rangeopt SR_MQ_CAPACITANCE ∅ "1E-08" "10nF";
  rangeopt SR_MQ_CAPACITANCE ∅ "1E-07" "100nF";
  rangeopt SR_MQ_CAPACITANCE ∅ "1E-06" "1uF";
  rangeopt SR_MQ_CAPACITANCE ∅ "1E-05" "10uF";
  rangeopt SR_MQ_CAPACITANCE ∅ "0.0001" "100uF";
  (* CONT *)
  rangeopt SR_MQ_CONTINUITY ∅ "" "1k"; (* Fixed *)
  (* TEMP *)
  rangeopt SR_MQ_TEMPERATURE ∅ "" "Auto"; (* Fixed *)
  (* FREQ *)
  rangeopt SR_MQ_FREQUENCY ∅ "" "Auto"; (* Fixed *)
  (* PER *)
  rangeopt SR_MQ_TIME ∅ "" "Auto" (* Fixed *)
].

Record scpi_dmm_nplcopts := {
  nplc_mq : sr_mq;
  nplc_mqflag : sr_mqflag;
  nplc_min : spec_float;    (* const float *)
  nplc_max : spec_float;    (* const float *)
}.

(** A row whose bounds are the decimal constants [lo_num/lo_den] and
    [hi_num/hi_den], converted to [float] as the initialiser does. *)
Definition nplcopt (q : sr_mq) (f : sr_mqflag) (lo_num lo_den hi_num hi_den : Z)
    : scpi_dmm_nplcopts :=
  {| nplc_mq := q; nplc_mqflag := f;
     nplc_min := float_of_double (double_lit lo_num lo_den);
     nplc_max := float_of_double (double_lit hi_num hi_den) |}.

Definition nplcopts_keithley_dmm6500 : list scpi_dmm_nplcopts := [
  nplcopt SR_MQ_VOLTAGE SR_MQFLAG_DC 5 10000 12 1;
  nplcopt SR_MQ_CURRENT SR_MQFLAG_DC 5 10000 12 1;
  nplcopt SR_MQ_RESISTANCE ∅ 5 10000 12 1;
  nplcopt SR_MQ_RESISTANCE SR_MQFLAG_FOUR_WIRE 5 10000 12 1;
  nplcopt SR_MQ_VOLTAGE (SR_MQFLAG_DC ∪ SR_MQFLAG_DIODE) 5 10000 12 1
].

(** *** The model table *)

Inductive get_measurement_fn :=
| scpi_dmm_get_meas_agilent
| scpi_dmm_get_meas_gwinstek
| scpi_dmm_get_meas_keithley.

Inductive devopts_table := devopts_generic | devopts_keithley.

(** [struct scpi_dmm_model].  An array member and its size member are one
    list; a null array of size zero is the empty list. *)
Record scpi_dmm_model := {
  vendor : string;
  model_name : string;          (* the member [model] *)
  num_channels : Z;
  digits : Z;
  cmdset : list scpi_command;
  mqopts : list mqopt_item;
  get_measurement : get_measurement_fn;
  devopts : devopts_table;
  read_timeout_us : Z;
  infinity_limit : spec_float;  (* float *)
  rangeopts : list scpi_dmm_rangeopts;
  nplcopts : list scpi_dmm_nplcopts;
  avg_min : Z;
  avg_max : Z;
}.

Definition float_of_Z (z : Z) : spec_float := float_of_double (double_of_Z z).

Definition models : list scpi_dmm_model := [
  {| vendor := "Agilent"; model_name := "34405A";
     num_channels := 1; digits := 5; cmdset := cmdset_agilent;
     mqopts := mqopts_agilent_34405a;
     get_measurement := scpi_dmm_get_meas_agilent;
     devopts := devopts_generic;
     read_timeout_us := 0; infinity_limit := float_of_Z 0;
     rangeopts := []; nplcopts := []; avg_min := 0; avg_max := 0 |};
  {| vendor := "Agilent"; model_name := "34410A";
     num_channels := 1; digits := 6; cmdset := cmdset_hp;
     mqopts := mqopts_agilent_34405a;
     get_measurement := scpi_dmm_get_meas_agilent;
     devopts := devopts_generic;
     read_timeout_us := 0; infinity_limit := float_of_Z 0;
     rangeopts := []; nplcopts := []; avg_min := 0; avg_max := 0 |};
  {| vendor := "GW"; model_name := "GDM8251A";
     num_channels := 1; digits := 6; cmdset := cmdset_gwinstek;
     mqopts := mqopts_gwinstek_gdm8200a;
     get_measurement := scpi_dmm_get_meas_gwinstek;
     devopts := devopts_generic;
     read_timeout_us := 1000 * 2500; infinity_limit := float_of_Z 0;
     rangeopts := []; nplcopts := []; avg_min := 0; avg_max := 0 |};
  {| vendor := "GW"; model_name := "GDM8255A";
     num_channels := 1; digits := 6; cmdset := cmdset_gwinstek;
     mqopts := mqopts_gwinstek_gdm8200a;
     get_measurement := scpi_dmm_get_meas_gwinstek;
     devopts := devopts_generic;
     read_timeout_us := 1000 * 2500; infinity_limit := float_of_Z 0;
     rangeopts := []; nplcopts := []; avg_min := 0; avg_max := 0 |};
  {| vendor := "GWInstek"; model_name := "GDM9060";
     num_channels := 1; digits := 6; cmdset := cmdset_gwinstek_906x;
     mqopts := mqopts_gwinstek_gdm906x;
     get_measurement := scpi_dmm_get_meas_agilent;
     devopts := devopts_generic;
     read_timeout_us := 0; infinity_limit := float_of_Z 0;
     rangeopts := []; nplcopts := []; avg_min := 0; avg_max := 0 |};
  {| vendor := "GWInstek"; model_name := "GDM9061";
     num_channels := 1; digits := 6; cmdset := cmdset_gwinstek_906x;
     mqopts := mqopts_gwinstek_gdm906x;
     get_measurement := scpi_dmm_get_meas_agilent;
     devopts := devopts_generic;
     read_timeout_us := 0; infinity_limit := float_of_Z 0;
     rangeopts := []; nplcopts := []; avg_min := 0; avg_max := 0 |};
  {| vendor := "HP"; model_name := "34401A";
     num_channels := 1; digits := 6; cmdset := cmdset_hp;
     mqopts := mqopts_agilent_34401a;
     get_measurement := scpi_dmm_get_meas_agilent;
     devopts := devopts_generic;
     read_timeout_us := 1000 * 1500; infinity_limit := float_of_Z 0;
     rangeopts := []; nplcopts := []; avg_min := 0; avg_max := 0 |};
  {| vendor := "KEITHLEY INSTRUMENTS INC."; model_name := "34401A";
     num_channels := 1; digits := 6; cmdset := cmdset_hp;
     mqopts := mqopts_agilent_34401a;
     get_measurement := scpi_dmm_get_meas_agilent;
     devopts := devopts_generic;
     read_timeout_us := 1000 * 1500; infinity_limit := float_of_Z 0;
     rangeopts := []; nplcopts := []; avg_min := 0; avg_max := 0 |};
  {| vendor := "KEITHLEY INSTRUMENTS"; model_name := "MODEL DMM6500";
     num_channels := 1; digits := 5; cmdset := cmdset_keithley;
     mqopts := mqopts_keithley_dmm6500;
     get_measurement := scpi_dmm_get_meas_keithley;
     devopts := devopts_keithley;
     read_timeout_us := 0; infinity_limit := float_of_Z 0;
     rangeopts := rangeopts_keithley_dmm6500;
     nplcopts := nplcopts_keithley_dmm6500;
     avg_min := 1; avg_max := 100 |};
  {| vendor := "Keysight"; model_name := "34465A";
     num_channels := 1; digits := 5; cmdset := cmdset_agilent;
     mqopts := mqopts_agilent_34405a;
     get_measurement := scpi_dmm_get_meas_agilent;
     devopts := devopts_generic;
     read_timeout_us := 0; infinity_limit := float_of_Z 0;
     rangeopts := []; nplcopts := []; avg_min := 0; avg_max := 0 |};
  {| vendor := "OWON"; model_name := "XDM2041";
     num_channels := 1; digits := 5; cmdset := cmdset_owon;
     mqopts := mqopts_owon_xdm2041;
     get_measurement := scpi_dmm_get_meas_gwinstek;
     devopts := devopts_generic;
     read_timeout_us := 0; infinity_limit := float_of_Z 1000000000;
     rangeopts := []; nplcopts := []; avg_min := 0; avg_max := 0 |}
].

(** The first row of [models] with this vendor and model string. *)
Fixpoint is_compatible_from (table : list scpi_dmm_model)
    (vendor_ model_ : string) : option scpi_dmm_model :=
  match table with
  | [] => None
  | entry :: rest =>
      if decide (vendor_ = vendor entry) then
        if decide (model_ = model_name entry) then Some entry
        else is_compatible_from rest vendor_ model_
      else is_compatible_from rest vendor_ model_
  end.

Definition is_compatible (vendor_ model_ : string) : option scpi_dmm_model :=
  is_compatible_from models vendor_ model_.

(** *** Device instances *)

Record sr_scpi_hw_info := {
  manufacturer : string;
  hw_model : string;            (* the member [model] *)
  firmware_version : string;
  serial_number : string;
}.

(** [struct sr_scpi_dev_inst]: the members the driver touches, the key
    under which the SCPI layer registers the connection's event source,
    and the log of the commands handed to [sr_scpi_send]. *)
Record sr_scpi_dev_inst := {
  source_key : Z;
  no_opc_command : bool;
  scpi_read_timeout_us : Z;
  sent : list string;
}.

Definition set_no_opc_command (b : bool) (scpi : sr_scpi_dev_inst) :=
  {| source_key := source_key scpi; no_opc_command := b;
     scpi_read_timeout_us := scpi_read_timeout_us scpi; sent := sent scpi |}.

Definition set_read_timeout_us (t : Z) (scpi : sr_scpi_dev_inst) :=
  {| source_key := source_key scpi; no_opc_command := no_opc_command scpi;
     scpi_read_timeout_us := t; sent := sent scpi |}.

(** [sr_scpi_send(scpi, command)]: the command goes on the log. *)
Definition sr_scpi_send (command_ : string) (scpi : sr_scpi_dev_inst) :=
  {| source_key := source_key scpi; no_opc_command := no_opc_command scpi;
     scpi_read_timeout_us := scpi_read_timeout_us scpi;
     sent := sent scpi ++ [command_] |}.

(** [struct dev_context] of the driver. *)
Record dev_context := {
  devc_num_channels : Z;
  devc_cmdset : list scpi_command;
  devc_model : scpi_dmm_model;
  start_acq_mq : option (sr_mq * sr_mqflag);   (* curr_mq, curr_mqflag *)
  limits_started : bool;
  precision : option string;
}.

Inductive datafeed_packet := SR_DF_HEADER | SR_DF_END.

Record sr_dev_inst := {
  sdi_vendor : string;
  sdi_model : string;
  version : string;
  serial_num : string;
  connection_id : option string;
  conn : option sr_scpi_dev_inst;
  status : Z;
  channels : list (Z * string);
  priv : dev_context;
  session : gmap Z receive_callback;
  datafeed : list datafeed_packet;
}.

Definition with_conn (scpi : sr_scpi_dev_inst) (sdi : sr_dev_inst) :=
  {| sdi_vendor := sdi_vendor sdi; sdi_model := sdi_model sdi;
     version := version sdi; serial_num := serial_num sdi;
     connection_id := connection_id sdi; conn := Some scpi;
     status := status sdi; channels := channels sdi; priv := priv sdi;
     session := session sdi; datafeed := datafeed sdi |}.

Definition with_priv (devc : dev_context) (sdi : sr_dev_inst) :=
  {| sdi_vendor := sdi_vendor sdi; sdi_model := sdi_model sdi;
     version := version sdi; serial_num := serial_num sdi;
     connection_id := connection_id sdi; conn := conn sdi;
     status := status sdi; channels := channels sdi; priv := devc;
     session := session sdi; datafeed := datafeed sdi |}.

Definition with_session (s : gmap Z receive_callback) (sdi : sr_dev_inst) :=
  {| sdi_vendor := sdi_vendor sdi; sdi_model := sdi_model sdi;
     version := version sdi; serial_num := serial_num sdi;
     connection_id := connection_id sdi; conn := conn sdi;
     status := status sdi; channels := channels sdi; priv := priv sdi;
     session := s; datafeed := datafeed sdi |}.

Definition feed (p : datafeed_packet) (sdi : sr_dev_inst) :=
  {| sdi_vendor := sdi_vendor sdi; sdi_model := sdi_model sdi;
     version := version sdi; serial_num := serial_num sdi;
     connection_id := connection_id sdi; conn := conn sdi;
     status := status sdi; channels := channels sdi; priv := priv sdi;
     session := session sdi; datafeed := datafeed sdi ++ [p] |}.

Definition set_start_acq_mq (q : sr_mq) (f : sr_mqflag) (d : dev_context) :=
  {| devc_num_channels := devc_num_channels d; devc_cmdset := devc_cmdset d;
     devc_model := devc_model d; start_acq_mq := Some (q, f);
     limits_started := limits_started d; precision := precision d |}.

Definition set_limits_started (d : dev_context) :=
  {| devc_num_channels := devc_num_channels d; devc_cmdset := devc_cmdset d;
     devc_model := devc_model d; start_acq_mq := start_acq_mq d;
     limits_started := true; precision := precision d |}.

Definition set_precision (p : option string) (d : dev_context) :=
  {| devc_num_channels := devc_num_channels d; devc_cmdset := devc_cmdset d;
     devc_model := devc_model d; start_acq_mq := start_acq_mq d;
     limits_started := limits_started d; precision := p |}.

(** What the SCPI core, glib and protocol.c of the driver provide to
    api.c: the status of each call and what it hands back, as the meter
    and the transport decide them. *)
Class environment := {
  (* [sr_scpi_get_data(scpi, SCPI_CMD_OPC, &response)] *)
  sr_scpi_get_data_opc : sr_scpi_dev_inst -> sr_error_code;
  sr_scpi_get_hw_id : sr_scpi_dev_inst -> sr_error_code * sr_scpi_hw_info;
  sr_vendor_alias : string -> string;
  sr_scpi_connection_id : sr_scpi_dev_inst -> sr_error_code * option string;
  (* the status [sr_scpi_send] returns *)
  sr_scpi_send_status : sr_scpi_dev_inst -> string -> sr_error_code;
  sr_scpi_get_string : sr_scpi_dev_inst -> string -> sr_error_code * string;
  sr_scpi_close : sr_scpi_dev_inst -> sr_error_code;
  sr_scpi_source_add_status : sr_dev_inst -> sr_error_code;
  std_session_send_df_header_status : sr_dev_inst -> sr_error_code;
  g_strstrip : string -> string;
  (* the status, and on success the current quantity and flags *)
  scpi_dmm_get_mq : sr_dev_inst -> sr_error_code * sr_mq * sr_mqflag;
  (* the status and the string left in [*range], [None] for a null one *)
  scpi_dmm_get_range_auto :
    sr_dev_inst -> sr_mq -> sr_mqflag -> sr_error_code * option string;
  scpi_dmm_get_range :
    sr_dev_inst -> sr_mq -> sr_mqflag -> sr_error_code * option string;
  scpi_dmm_set_nplc : sr_dev_inst -> sr_mq -> sr_mqflag -> spec_float -> sr_error_code;
}.

Section Driver.
Context {E : environment}.

(** *** probe_device *)

Definition probe_opc_support (scpi : sr_scpi_dev_inst) : bool :=
  if decide (sr_scpi_get_data_opc scpi ≠ SR_OK) then false else true.

(** The channels [P1] ... [Pn], each created with index 0. *)
Definition probe_channels (n : Z) : list (Z * string) :=
  map (fun i : nat => (0, "P" +:+ pretty (i + 1)%nat)) (seq 0 (Z.to_nat n)).

(** The connection after the operation-complete probe. *)
Definition opc_probed (scpi : sr_scpi_dev_inst) : sr_scpi_dev_inst :=
  if probe_opc_support scpi then scpi else set_no_opc_command true scpi.

(** Returns the connection as the probe leaves it and the device
    instance, [None] for a null one.  The instance's [conn] is that
    connection.  The command delays are not modelled. *)
Definition probe_device (scpi : sr_scpi_dev_inst)
    : sr_scpi_dev_inst * option sr_dev_inst :=
  let scpi := opc_probed scpi in
  let '(ret, hw_info) := sr_scpi_get_hw_id scpi in
  if decide (ret ≠ SR_OK) then (scpi, None) else
  let vendor_ := sr_vendor_alias (manufacturer hw_info) in
  match is_compatible vendor_ (hw_model hw_info) with
  | None => (scpi, None)
  | Some model =>
      let '(ret, id) := sr_scpi_connection_id scpi in
      let id := if decide (ret ≠ SR_OK) then None else id in
      let scpi :=
        if decide (read_timeout_us model ≠ 0)
        then set_read_timeout_us (read_timeout_us model) scpi else scpi in
      let devc :=
        {| devc_num_channels := num_channels model;
           devc_cmdset := cmdset model;
           devc_model := model;
           start_acq_mq := None; limits_started := false;
           precision := None |} in
      let scpi :=
        match usable (sr_scpi_cmd_get (devc_cmdset devc) DMM_CMD_SETUP_LOCAL) with
        | Some command_ => sr_scpi_send command_ scpi
        | None => scpi
        end in
      (scpi,
       Some {| sdi_vendor := manufacturer hw_info;
               sdi_model := hw_model hw_info;
               version := firmware_version hw_info;
               serial_num := serial_number hw_info;
               connection_id := id;
               conn := Some scpi;
               status := 0;
               channels := probe_channels (devc_num_channels devc);
               priv := devc;
               session := ∅;
               datafeed := [] |})
  end.

(** *** dev_close *)

Definition dev_close (sdi : sr_dev_inst) : sr_error_code * sr_dev_inst :=
  let devc := priv sdi in
  match conn sdi with
  | None => (SR_ERR_BUG, sdi)
  | Some scpi =>
      if status sdi <=? SR_ST_INACTIVE then (SR_OK, sdi) else
      let scpi :=
        match usable (sr_scpi_cmd_get (devc_cmdset devc) DMM_CMD_SETUP_LOCAL) with
        | Some command_ => sr_scpi_send command_ scpi
        | None => scpi
        end in
      (sr_scpi_close scpi, with_conn scpi sdi)
  end.

(** *** config_get, the case SR_CONF_RANGE *)

(** How the case ends: with an error status; with [SR_OK] and the label
    stored through [data]; or with [SR_OK] after building [*data] from
    [range_str] while no statement has assigned [range_str]. *)
Inductive range_reply :=
| range_error (ret : sr_error_code)
| range_label (label : string)
| range_uninitialised.

(** The first loop: a row for the quantity whose wire token is empty. *)
Fixpoint fixed_range (opts : list scpi_dmm_rangeopts) (q : sr_mq) (f : sr_mqflag)
    : option string :=
  match opts with
  | [] => None
  | o :: rest =>
      if bool_decide (range_mq o = q) && bool_decide (range_mqflag o = f)
         && bool_decide (scpi_range o = "")
      then Some (range_str o)
      else fixed_range rest q f
  end.

(** The second loop: a row for the quantity whose wire token is the
    reply.  [None] when the loop ends without assigning [range_str]. *)
Fixpoint match_range (opts : list scpi_dmm_rangeopts) (q : sr_mq) (f : sr_mqflag)
    (range_query : option string) : option string :=
  match opts with
  | [] => None
  | o :: rest =>
      if bool_decide (range_mq o = q) && bool_decide (range_mqflag o = f)
         && bool_decide (Some (scpi_range o) = range_query)
      then Some (range_str o)
      else match_range rest q f range_query
  end.

Definition config_get_range (sdi : sr_dev_inst) : range_reply :=
  let devc := priv sdi in
  let '(ret, q, f) := scpi_dmm_get_mq sdi in
  if decide (ret ≠ SR_OK) then range_error ret else
  match fixed_range (rangeopts (devc_model devc)) q f with
  | Some range_str_ => range_label range_str_
  | None =>
      let '(ret, range_query) := scpi_dmm_get_range_auto sdi q f in
      if decide (ret ≠ SR_OK) then range_error ret else
      let '(ret, range_query) :=
        match range_query with
        | None => scpi_dmm_get_range sdi q f
        | Some _ => (ret, range_query)
        end in
      if decide (ret ≠ SR_OK) then range_error ret else
      match match_range (rangeopts (devc_model devc)) q f range_query with
      | Some range_str_ => range_label range_str_
      | None => range_uninitialised
      end
  end.

(** *** config_set, the case SR_CONF_ADC_POWERLINE_CYCLES *)

(** The loop over the bounds table, for the [float] value [nplc]. *)
Fixpoint set_nplc_checked (opts : list scpi_dmm_nplcopts)
    (sdi : sr_dev_inst) (q : sr_mq) (f : sr_mqflag) (nplc : spec_float)
    : sr_error_code :=
  match opts with
  | [] => SR_ERR_NA
  | o :: rest =>
      if bool_decide (nplc_mq o = q) && bool_decide (nplc_mqflag o = f) then
        if float_le (nplc_min o) nplc && float_ge (nplc_max o) nplc
        then scpi_dmm_set_nplc sdi q f nplc
        else SR_ERR_DATA
      else set_nplc_checked rest sdi q f nplc
  end.

(** [data] is the [double] the variant holds. *)
Definition config_set_nplc (data : spec_float) (sdi : sr_dev_inst)
    : sr_error_code :=
  let devc := priv sdi in
  let '(ret, q, f) := scpi_dmm_get_mq sdi in
  if decide (ret ≠ SR_OK) then ret else
  let nplc := float_of_double data in
  set_nplc_checked (nplcopts (devc_model devc)) sdi q f nplc.

(** *** dev_acquisition_start and dev_acquisition_stop *)

(** The end of [dev_acquisition_start], from the start of the software
    limits on. *)
Definition start_feed_and_source (scpi : sr_scpi_dev_inst) (sdi : sr_dev_inst)
    : sr_error_code * sr_dev_inst :=
  let sdi := with_priv (set_limits_started (priv sdi)) sdi in
  let ret := std_session_send_df_header_status sdi in
  if decide (ret ≠ SR_OK) then (ret, sdi) else
  let sdi := feed SR_DF_HEADER sdi in
  let ret := sr_scpi_source_add_status sdi in
  if decide (ret ≠ SR_OK) then (ret, sdi) else
  (SR_OK,
   with_session
     (sr_session_source_add (source_key scpi) scpi_dmm_receive_data
        (session sdi)) sdi).

(** Both functions use [sdi->conn] without a test; [None] is the run with
    a null connection.  A query is logged like a command. *)
Definition dev_acquisition_start (sdi : sr_dev_inst)
    : option (sr_error_code * sr_dev_inst) :=
  match conn sdi with
  | None => None
  | Some scpi =>
      let devc := priv sdi in
      let '(ret, q, f) := scpi_dmm_get_mq sdi in
      if decide (ret ≠ SR_OK) then Some (ret, sdi) else
      let devc := set_start_acq_mq q f devc in
      let '(scpi, devc) :=
        match usable (sr_scpi_cmd_get (devc_cmdset devc) DMM_CMD_QUERY_PREC) with
        | Some command_ =>
            let '(ret, response) := sr_scpi_get_string scpi command_ in
            (sr_scpi_send command_ scpi,
             if decide (ret = SR_OK)
             then set_precision (Some (g_strstrip response)) devc
             else devc)
        | None => (scpi, devc)
        end in
      let sdi := with_conn scpi (with_priv devc sdi) in
      match usable (sr_scpi_cmd_get (devc_cmdset devc) DMM_CMD_START_ACQ) with
      | Some command_ =>
          let ret := sr_scpi_send_status scpi command_ in
          let scpi := sr_scpi_send command_ scpi in
          let sdi := with_conn scpi sdi in
          if decide (ret ≠ SR_OK) then Some (ret, sdi) else
          Some (start_feed_and_source scpi sdi)
      | None => Some (start_feed_and_source scpi sdi)
      end
  end.

Definition dev_acquisition_stop (sdi : sr_dev_inst)
    : option (sr_error_code * sr_dev_inst) :=
  match conn sdi with
  | None => None
  | Some scpi =>
      let devc := priv sdi in
      let scpi :=
        match usable (sr_scpi_cmd_get (devc_cmdset devc) DMM_CMD_STOP_ACQ) with
        | Some command_ => sr_scpi_send command_ scpi
        | None => scpi
        end in
      let sdi := with_conn scpi sdi in
      let sdi :=
        with_session
          (sr_session_source_remove (source_key scpi) (session sdi)) sdi in
      let sdi := feed SR_DF_END sdi in
      Some (SR_OK, with_priv (set_precision None (priv sdi)) sdi)
  end.

End Driver.

(** *** Vocabulary of the properties *)

(** The (quantity, flag) key of each row of a table, in table order. *)
Definition mq_keys (opts : list mqopt_item) : list (sr_mq * sr_mqflag) :=
  map (fun o => (mq o, mqflag o)) opts.

(** The same with the query token the meter answers with. *)
Definition mq_query_keys (opts : list mqopt_item) : list (sr_mq * sr_mqflag * string) :=
  map (fun o => (mq o, mqflag o, scpi_func_query o)) opts.

Definition nplc_keys (opts : list scpi_dmm_nplcopts) : list (sr_mq * sr_mqflag) :=
  map (fun o => (nplc_mq o, nplc_mqflag o)) opts.

(** *** A bench set-up for the examples

    A meter that identifies as [idn], measures quantity [q] with flags
    [f], answers the auto-range query with [range_auto] and the range
    query with [range]; every transfer succeeds. *)
Definition bench (idn : sr_scpi_hw_info) (q : sr_mq) (f : sr_mqflag)
    (range_auto range : option string) : environment := {|
  sr_scpi_get_data_opc := fun _ => SR_OK;
  sr_scpi_get_hw_id := fun _ => (SR_OK, idn);
  sr_vendor_alias := fun s => s;
  sr_scpi_connection_id := fun _ => (SR_OK, Some "bench");
  sr_scpi_send_status := fun _ _ => SR_OK;
  sr_scpi_get_string := fun _ _ => (SR_OK, "");
  sr_scpi_close := fun _ => SR_OK;
  sr_scpi_source_add_status := fun _ => SR_OK;
  std_session_send_df_header_status := fun _ => SR_OK;
  g_strstrip := fun s => s;
  scpi_dmm_get_mq := fun _ => (SR_OK, q, f);
  scpi_dmm_get_range_auto := fun _ _ _ => (SR_OK, range_auto);
  scpi_dmm_get_range := fun _ _ _ => (SR_OK, range);
  scpi_dmm_set_nplc := fun _ _ _ _ => SR_OK;
|}.

Definition idn (vendor_ model_ : string) : sr_scpi_hw_info :=
  {| manufacturer := vendor_; hw_model := model_;
     firmware_version := "1.0"; serial_number := "0001" |}.

Definition bench_scpi : sr_scpi_dev_inst :=
  {| source_key := 3; no_opc_command := false;
     scpi_read_timeout_us := 1000000; sent := [] |}.

(** Stands for a null model pointer; the examples never reach it. *)
Definition no_model : scpi_dmm_model :=
  {| vendor := ""; model_name := ""; num_channels := 0; digits := 0;
     cmdset := []; mqopts := [];
     get_measurement := scpi_dmm_get_meas_agilent;
     devopts := devopts_generic; read_timeout_us := 0;
     infinity_limit := float_of_Z 0; rangeopts := []; nplcopts := [];
     avg_min := 0; avg_max := 0 |}.

(** An open, acquiring device of the model [vendor_ model_] of the model
    table. *)
Definition bench_sdi (vendor_ model_ : string) : sr_dev_inst :=
  let m := default no_model (is_compatible vendor_ model_) in
  {| sdi_vendor := vendor_; sdi_model := model_;
     version := "1.0"; serial_num := "0001";
     connection_id := Some "bench";
     conn := Some bench_scpi;
     status := SR_ST_ACTIVE;
     channels := [(0, "P1")];
     priv := {| devc_num_channels := num_channels m;
                devc_cmdset := cmdset m;
                devc_model := m;
                start_acq_mq := None; limits_started := true;
                precision := None |};
     session := {[ 3 := scpi_dmm_receive_data ]};
     datafeed := [SR_DF_HEADER] |}.

(** *** The option tables of the driver *)

(** A row of an option table: the key and the operations or-ed to it. *)
Record devopt := {
  opt_key : sr_configkey;
  opt_get : bool;
  opt_set : bool;
  opt_list : bool;
}.

Definition devopt_row (k : sr_configkey) (g s l : bool) : devopt :=
  {| opt_key := k; opt_get := g; opt_set := s; opt_list := l |}.

(** The rows of the table a model's [devopts] member points to. *)
Definition devopts_rows (t : devopts_table) : list devopt :=
  match t with
  | devopts_generic => [
      devopt_row SR_CONF_CONTINUOUS false false false;
      devopt_row SR_CONF_CONN true false false;
      devopt_row SR_CONF_LIMIT_SAMPLES true true false;
      devopt_row SR_CONF_LIMIT_MSEC true true false;
      devopt_row SR_CONF_MEASURED_QUANTITY true true true ]
  | devopts_keithley => [
      devopt_row SR_CONF_CONTINUOUS false false false;
      devopt_row SR_CONF_CONN true false false;
      devopt_row SR_CONF_LIMIT_SAMPLES true true false;
      devopt_row SR_CONF_LIMIT_MSEC true true false;
      devopt_row SR_CONF_MEASURED_QUANTITY true true true;
      devopt_row SR_CONF_RANGE true true true;
      devopt_row SR_CONF_AVERAGING true true false;
      devopt_row SR_CONF_AVG_SAMPLES true true false;
      devopt_row SR_CONF_ADC_POWERLINE_CYCLES true true false ]
  end.

(** Whether a table has a row for [key]. *)
Definition advertises (key : sr_configkey) (t : devopts_table) : bool :=
  existsb (fun o => bool_decide (opt_key o = key)) (devopts_rows t).

(** *** The rest of config_get, config_set and config_list *)

Inductive gvariant :=
| gv_string (s : string)
| gv_uint64 (z : Z)
| gv_double (d : spec_float)
| gv_boolean (b : bool)
| gv_mq (q : sr_mq) (f : sr_mqflag).   (* the tuple (uint32 mq, uint64 mqflag) *)

(** How a case of [config_get] ends: with an error status; with [SR_OK]
    and the value stored through [data]; or with [SR_OK] after reading a
    local variable that no statement has assigned. *)
Inductive config_reply :=
| reply_error (ret : sr_error_code)
| reply_data (v : gvariant)
| reply_uninitialised.

(** How [config_list] ends: with an error status of its own; with the
    status and data of the standard option listing for the driver's scan
    and driver options and the device option table [t]; with [SR_OK] and
    the array of (quantity, flag) tuples; or with [SR_OK] and the array
    of range labels. *)
Inductive list_reply :=
| list_error (ret : sr_error_code)
| list_std_options (t : devopts_table)
| list_mq (l : list (sr_mq * sr_mqflag))
| list_range (l : list string).

(** What the case SR_CONF_RANGE of [config_set] asks the protocol layer
    to do. *)
Inductive range_request :=
| request_auto
| request_range (scpi_range_ : string)
| request_none.

#[global] Instance range_request_eq_dec : EqDecision range_request.
Proof. solve_decision. Defined.

(** A [float] as a [double]: the same number. *)
Definition double_of_float (x : spec_float) : spec_float :=
  match x with
  | S754_finite s m e => binary_normalize 53 1024 (cond_Zopp s (Zpos m)) e s
  | _ => x
  end.

(** [a < b] on [double]. *)
Definition double_lt (a b : spec_float) : bool := SFltb a b.

(** More of protocol.c and of the libsigrok core. *)
Class protocol_c := {
  sr_sw_limits_config_get : sr_dev_inst -> sr_configkey -> sr_error_code * Z;
  scpi_dmm_set_range_auto : sr_dev_inst -> sr_mq -> sr_mqflag -> sr_error_code;
  scpi_dmm_set_range :
    sr_dev_inst -> sr_mq -> sr_mqflag -> string -> sr_error_code;
  (* the status and what the call leaves in [*nplc], [None] when it
     stores nothing *)
  scpi_dmm_get_nplc :
    sr_dev_inst -> sr_mq -> sr_mqflag -> sr_error_code * option spec_float;
  scpi_dmm_get_avg : sr_dev_inst -> sr_mq -> sr_mqflag -> sr_error_code * bool;
  scpi_dmm_get_avg_cnt : sr_dev_inst -> sr_mq -> sr_mqflag -> sr_error_code * Z;
}.

Section Config.
Context {E : environment} {C : protocol_c}.

(** The case SR_CONF_ADC_POWERLINE_CYCLES of [config_get]: the loop over
    the bounds table.  The status of [scpi_dmm_get_nplc] is not looked
    at. *)
Fixpoint get_nplc_checked (opts : list scpi_dmm_nplcopts)
    (sdi : sr_dev_inst) (q : sr_mq) (f : sr_mqflag) : config_reply :=
  match opts with
  | [] => reply_error SR_ERR_NA
  | o :: rest =>
      if bool_decide (nplc_mq o = q) && bool_decide (nplc_mqflag o = f) then
        match (scpi_dmm_get_nplc sdi q f).2 with
        | Some nplc => reply_data (gv_double (double_of_float nplc))
        | None => reply_uninitialised
        end
      else get_nplc_checked rest sdi q f
  end.

Definition config_get (key : sr_configkey) (sdi : sr_dev_inst)
    : config_reply :=
  let devc := priv sdi in
  match key with
  | SR_CONF_CONN =>
      match connection_id sdi with
      | None => reply_error SR_ERR_NA
      | Some id => reply_data (gv_string id)
      end
  | SR_CONF_LIMIT_SAMPLES | SR_CONF_LIMIT_MSEC =>
      let '(ret, v) := sr_sw_limits_config_get sdi key in
      if decide (ret ≠ SR_OK) then reply_error ret
      else reply_data (gv_uint64 v)
  | SR_CONF_MEASURED_QUANTITY =>
      let '(ret, q, f) := scpi_dmm_get_mq sdi in
      if decide (ret ≠ SR_OK) then reply_error ret
      else reply_data (gv_mq q f)
  | SR_CONF_RANGE =>
      match config_get_range sdi with
      | range_error ret => reply_error ret
      | range_label label => reply_data (gv_string label)
      | range_uninitialised => reply_uninitialised
      end
  | SR_CONF_ADC_POWERLINE_CYCLES =>
      let '(ret, q, f) := scpi_dmm_get_mq sdi in
      if decide (ret ≠ SR_OK) then reply_error ret
      else get_nplc_checked (nplcopts (devc_model devc)) sdi q f
  | SR_CONF_AVERAGING =>
      let '(ret, q, f) := scpi_dmm_get_mq sdi in
      if decide (ret ≠ SR_OK) then reply_error ret else
      let '(ret, avg) := scpi_dmm_get_avg sdi q f in
      if decide (ret ≠ SR_OK) then reply_error ret
      else reply_data (gv_boolean avg)
  | SR_CONF_AVG_SAMPLES =>
      let '(ret, q, f) := scpi_dmm_get_mq sdi in
      if decide (ret ≠ SR_OK) then reply_error ret else
      let '(ret, avg_cnt) := scpi_dmm_get_avg_cnt sdi q f in
      if decide (ret ≠ SR_OK) then reply_error ret
      else reply_data (gv_uint64 avg_cnt)
  | _ => reply_error SR_ERR_NA
  end.

(** The case SR_CONF_RANGE of [config_set]: the loop that finds the wire
    token of a range label. *)
Fixpoint range_token (opts : list scpi_dmm_rangeopts) (q : sr_mq)
    (f : sr_mqflag) (range_str_ : string) : range_request :=
  match opts with
  | [] => request_none
  | o :: rest =>
      if bool_decide (range_mq o = q) && bool_decide (range_mqflag o = f)
         && bool_decide (range_str o = range_str_)
      then request_range (scpi_range o)
      else range_token rest q f range_str_
  end.

Definition range_request_of (opts : list scpi_dmm_rangeopts) (q : sr_mq)
    (f : sr_mqflag) (range_str_ : string) : range_request :=
  if decide (range_str_ = "Auto") then request_auto
  else range_token opts q f range_str_.

(** [data] is the string the variant holds. *)
Definition config_set_range (data : string) (sdi : sr_dev_inst)
    : sr_error_code :=
  let devc := priv sdi in
  let '(ret, q, f) := scpi_dmm_get_mq sdi in
  if decide (ret ≠ SR_OK) then ret else
  match range_request_of (rangeopts (devc_model devc)) q f data with
  | request_auto => scpi_dmm_set_range_auto sdi q f
  | request_range token => scpi_dmm_set_range sdi q f token
  | request_none => SR_ERR_NA
  end.

(** The case SR_CONF_RANGE of [config_list]: the labels of the rows for
    the quantity, in table order. *)
Fixpoint range_labels (opts : list scpi_dmm_rangeopts) (q : sr_mq)
    (f : sr_mqflag) : list string :=
  match opts with
  | [] => []
  | o :: rest =>
      if bool_decide (range_mq o = q) && bool_decide (range_mqflag o = f)
      then range_str o :: range_labels rest q f
      else range_labels rest q f
  end.

(** [sdi] is [None] for a null pointer. *)
Definition config_list (key : sr_configkey) (sdi : option sr_dev_inst)
    : list_reply :=
  match key with
  | SR_CONF_SCAN_OPTIONS | SR_CONF_DEVICE_OPTIONS =>
      match sdi with
      | None => list_std_options devopts_generic
      | Some sdi => list_std_options (devopts (devc_model (priv sdi)))
      end
  | SR_CONF_MEASURED_QUANTITY =>
      match sdi with
      | None => list_error SR_ERR_ARG
      | Some sdi =>
          list_mq (map (fun o => (mq o, mqflag o))
                       (mqopts (devc_model (priv sdi))))
      end
  | SR_CONF_RANGE =>
      match sdi with
      | None => list_error SR_ERR_ARG
      | Some sdi =>
          let '(ret, q, f) := scpi_dmm_get_mq sdi in
          if decide (ret ≠ SR_OK) then list_error ret else
          list_range (range_labels (rangeopts (devc_model (priv sdi))) q f)
      end
  | _ => list_error SR_ERR_NA
  end.

End Config.

(** A protocol layer for the examples: every transfer succeeds. *)
Definition bench_protocol_c (nplc : option spec_float) : protocol_c := {|
  sr_sw_limits_config_get := fun _ _ => (SR_OK, 0);
  scpi_dmm_set_range_auto := fun _ _ _ => SR_OK;
  scpi_dmm_set_range := fun _ _ _ _ => SR_OK;
  scpi_dmm_get_nplc := fun _ _ _ =>
    match nplc with
    | Some v => (SR_OK, Some v)
    | None => (SR_ERR, None)
    end;
  scpi_dmm_get_avg := fun _ _ _ => (SR_OK, false);
  scpi_dmm_get_avg_cnt := fun _ _ _ => (SR_OK, 1);
|}.

(** A bench whose transfers fail with [SR_ERR] where [ok] is false. *)
Definition failing_bench (idn_ : sr_scpi_hw_info) (q : sr_mq) (f : sr_mqflag)
    (id_ok mq_ok send_ok header_ok source_ok : bool) : environment := {|
  sr_scpi_get_data_opc := fun _ => SR_ERR;
  sr_scpi_get_hw_id := fun _ => (if id_ok then SR_OK else SR_ERR, idn_);
  sr_vendor_alias := fun s => s;
  sr_scpi_connection_id := fun _ => (SR_ERR, Some "stale");
  sr_scpi_send_status := fun _ _ => if send_ok then SR_OK else SR_ERR_IO;
  sr_scpi_get_string := fun _ _ => (SR_ERR, "");
  sr_scpi_close := fun _ => SR_ERR;
  sr_scpi_source_add_status := fun _ => if source_ok then SR_OK else SR_ERR_BUG;
  std_session_send_df_header_status := fun _ =>
    if header_ok then SR_OK else SR_ERR;
  g_strstrip := fun s => s;
  scpi_dmm_get_mq := fun _ => (if mq_ok then SR_OK else SR_ERR_NA, q, f);
  scpi_dmm_get_range_auto := fun _ _ _ => (SR_ERR, None);
  scpi_dmm_get_range := fun _ _ _ => (SR_ERR, None);
  scpi_dmm_set_nplc := fun _ _ _ _ => SR_ERR;
|}.

(** How often the command [c] is on the log of a connection. *)
Definition times_sent (c : string) (scpi : sr_scpi_dev_inst) : nat :=
  length (filter (fun x => x = c) (sent scpi)).

(** Whether the command table of model [m] has a usable entry for [c]. *)
Definition has_command (m : scpi_dmm_model) (c : scpi_dmm_cmdcode) : bool :=
  bool_decide (is_Some (usable (sr_scpi_cmd_get (cmdset m) c))).

End Dmm.

(** ** Properties of the register-protocol driver *)

Module SigmaProps.
Import Sigma.

Section Props.
Context {P : protocol}.

(** *** Bit-level facts *)

Lemma land_bit_eqb (m p : Z) :
  0 <= p -> (Z.land m (Z.shiftl 1 p) =? 0) = negb (Z.testbit m p).
Proof.
  intros Hp. rewrite Z.shiftl_1_l.
  destruct (Z.testbit m p) eqn:Hb; simpl.
  - apply Z.eqb_neq. intros H0.
    assert (Z.testbit (Z.land m (2 ^ p)) p = false) as Hf
      by (rewrite H0; apply Z.bits_0).
    rewrite Z.land_spec, Hb, Z.pow2_bits_true in Hf by lia. discriminate.
  - apply Z.eqb_eq. apply Z.bits_inj'. intros n Hn.
    rewrite Z.land_spec, Z.bits_0, Z.pow2_bits_eqb by lia.
    destruct (Z.eqb_spec p n) as [->|]; [rewrite Hb|]; auto using andb_false_r.
Qed.

Lemma scan_triggerpin_finds (n : nat) : forall p k m,
  0 <= p -> p <= k < p + Z.of_nat n ->
  (forall j, p <= j < k -> Z.testbit m j = false) ->
  Z.testbit m k = true ->
  scan_triggerpin n p m = k.
Proof.
  induction n as [|n IH]; intros p k m Hp Hk Hlow Hset; [lia|].
  cbn [scan_triggerpin]. rewrite land_bit_eqb by lia.
  destruct (Z.eq_dec p k) as [->|Hne].
  - now rewrite Hset.
  - rewrite Hlow by lia. cbn. apply IH; try lia; auto.
    intros j Hj. apply Hlow. lia.
Qed.

Lemma scan_triggerpin_exhausts (n : nat) : forall p m,
  0 <= p ->
  (forall j, p <= j < p + Z.of_nat n -> Z.testbit m j = false) ->
  scan_triggerpin n p m = p + Z.of_nat n.
Proof.
  induction n as [|n IH]; intros p m Hp Hclr; cbn [scan_triggerpin]; [lia|].
  rewrite land_bit_eqb, Hclr by lia. cbn.
  rewrite IH by (try lia; intros j Hj; apply Hclr; lia). lia.
Qed.

(** *** What a successful start does *)

Lemma clockselect_defined (devc : dev_context) :
  samplerate devc <> 0 -> exists c, clockselect_of devc = Some c.
Proof.
  intros Hr. unfold clockselect_of.
  destruct (samplerate devc =? SR_MHZ 200); [eauto|].
  destruct (samplerate devc =? SR_MHZ 100); [eauto|].
  destruct (Z.eqb_spec (samplerate devc) 0); [contradiction|eauto].
Qed.

Lemma dev_acquisition_start_runs (sdi : sr_dev_inst) (c : clockselect_50) :
  setup_succeeds sdi ->
  clockselect_of (converted sdi) = Some c ->
  exists sdi',
    dev_acquisition_start sdi = Some (SR_OK, sdi') /\
    hw sdi' = hw sdi ++ start_ops (converted sdi) c /\
    priv sdi' = set_state SIGMA_CAPTURE (converted sdi) /\
    session sdi' = <[-1 := sigma_receive_data]> (session sdi).
Proof.
  intros (H1 & H2 & H3) Hc. unfold dev_acquisition_start, converted in *.
  rewrite H1, H2. destruct (sigma_convert_trigger (priv sdi)) as [ret trg].
  simpl in H3, Hc. subst ret.
  repeat (case_decide; [congruence|]).
  cbn [priv with_priv]. rewrite Hc.
  eexists. split; [reflexivity|]. cbn.
  rewrite <- app_assoc. auto.
Qed.

Lemma dev_acquisition_start_captures (sdi0 sdi : sr_dev_inst) :
  dev_acquisition_start sdi0 = Some (SR_OK, sdi) ->
  state (priv sdi) = SIGMA_CAPTURE /\
  session sdi !! (-1) = Some sigma_receive_data.
Proof.
  unfold dev_acquisition_start.
  case_decide; [intros [= Hret _]; congruence|].
  case_decide; [intros [= Hret _]; congruence|].
  destruct (sigma_convert_trigger (priv sdi0)) as [ret trg].
  case_decide; [discriminate|].
  destruct (clockselect_of _); [|discriminate].
  intros [= <-]. cbn. split; [reflexivity|].
  unfold sr_session_source_add. apply lookup_insert_eq.
Qed.

Lemma register_writes_app (reg : sigma_register) (a b : list hw_op) :
  register_writes reg (a ++ b) = register_writes reg a ++ register_writes reg b.
Proof.
  induction a as [|op a IH]; [reflexivity|].
  destruct op; cbn [app register_writes]; try case_decide;
    rewrite ?IH; reflexivity.
Qed.

Lemma triggerselect_fields (L pin : Z) (fall : bool) :
  4 <= L <= 7 -> 0 <= pin <= 7 ->
  let ts0 := uint8 (Z.lor (Z.shiftl 1 L) (Z.land pin 7)) in
  let ts := if fall then uint8 (Z.lor ts0 (Z.shiftl 1 3)) else ts0 in
  Z.land ts 7 = pin /\ Z.testbit ts 3 = fall /\ Z.testbit ts L = true.
Proof.
  intros HL Hpin.
  assert (L = 4 \/ L = 5 \/ L = 6 \/ L = 7) as HLs by lia.
  assert (pin = 0 \/ pin = 1 \/ pin = 2 \/ pin = 3 \/
          pin = 4 \/ pin = 5 \/ pin = 6 \/ pin = 7) as Hps by lia.
  destruct fall;
    repeat (destruct HLs as [->|HLs]); try subst L;
    repeat (destruct Hps as [->|Hps]); try subst pin;
    vm_compute; auto.
Qed.

Lemma trigger_select_writes_fast (devc : dev_context) :
  SR_MHZ 100 <= samplerate devc ->
  register_writes WRITE_TRIGGER_SELECT2 (trigger_ops devc)
  = [[0x20]; [0x81];
     [let triggerpin :=
        scan_triggerpin 8 0
          (Z.lor (risingmask (trigger devc)) (fallingmask (trigger devc))) in
      let triggerselect :=
        uint8 (Z.lor (Z.shiftl 1 LEDSEL1) (Z.land triggerpin 7)) in
      if fallingmask (trigger devc) =? 0 then triggerselect
      else uint8 (Z.lor triggerselect (Z.shiftl 1 3))]].
Proof.
  intros Hr. unfold trigger_ops.
  destruct (Z.leb_spec (SR_MHZ 100) (samplerate devc)); [|lia].
  reflexivity.
Qed.

Lemma trigger_ops_other (devc : dev_context) (reg : sigma_register) :
  reg <> WRITE_TRIGGER_SELECT2 ->
  register_writes reg (trigger_ops devc) = [].
Proof.
  intros Hreg. unfold trigger_ops.
  repeat case_match; simplify_eq; cbn; repeat case_decide; congruence.
Qed.

Lemma dev_acquisition_start_clock_write (sdi : sr_dev_inst) :
  setup_succeeds sdi ->
  samplerate (priv sdi) <> 0 ->
  exists sdi' c,
    clockselect_of (converted sdi) = Some c /\
    dev_acquisition_start sdi = Some (SR_OK, sdi') /\
    hw sdi' = hw sdi ++ start_ops (converted sdi) c /\
    register_writes WRITE_CLOCK_SELECT (start_ops (converted sdi) c)
    = [clock_bytes c].
Proof.
  intros Hsetup Hrate.
  destruct (clockselect_defined (converted sdi) Hrate) as [c Hc].
  destruct (dev_acquisition_start_runs sdi c Hsetup Hc)
    as (sdi' & Hrun & Hhw & _ & _).
  exists sdi', c. split; [exact Hc|]. split; [exact Hrun|].
  split; [exact Hhw|].
  unfold start_ops. rewrite register_writes_app.
  rewrite trigger_ops_other by discriminate. reflexivity.
Qed.

(** *** The claims *)

(** C1.  A stop request while the state is Capturing moves the state to
    Stopping and leaves the session's event sources, and with them the
    receive callback, as they are: after a start that succeeded, the
    callback registered by the start is still registered after the stop.
    A stop request in any other state sets the state to Idle and drops
    the source with key -1, nothing else; when the state was Idle
    already, the removal of that source is the only effect. *)
Theorem dev_acquisition_stop_two_phase (sdi : sr_dev_inst) :
  (dev_acquisition_stop sdi).1 = SR_OK /\
  hw (dev_acquisition_stop sdi).2 = hw sdi /\
  (state (priv sdi) = SIGMA_CAPTURE ->
     state (priv (dev_acquisition_stop sdi).2) = SIGMA_STOPPING /\
     session (dev_acquisition_stop sdi).2 = session sdi) /\
  (state (priv sdi) <> SIGMA_CAPTURE ->
     state (priv (dev_acquisition_stop sdi).2) = SIGMA_IDLE /\
     session (dev_acquisition_stop sdi).2 !! (-1) = None /\
     (forall fd, fd <> -1 ->
        session (dev_acquisition_stop sdi).2 !! fd = session sdi !! fd)) /\
  (state (priv sdi) = SIGMA_IDLE ->
     (dev_acquisition_stop sdi).2
     = with_session (sr_session_source_remove (-1) (session sdi)) sdi) /\
  (forall sdi0, dev_acquisition_start sdi0 = Some (SR_OK, sdi) ->
     state (priv (dev_acquisition_stop sdi).2) = SIGMA_STOPPING /\
     session (dev_acquisition_stop sdi).2 !! (-1) = Some sigma_receive_data).
Proof.
  assert (forall sdi0, dev_acquisition_start sdi0 = Some (SR_OK, sdi) ->
          state (priv (dev_acquisition_stop sdi).2) = SIGMA_STOPPING /\
          session (dev_acquisition_stop sdi).2 !! (-1)
          = Some sigma_receive_data) as Hstarted.
  { intros sdi0 Hrun.
    destruct (dev_acquisition_start_captures sdi0 sdi Hrun) as [Hst Hcb].
    unfold dev_acquisition_stop. case_decide; [|contradiction]. now cbn. }
  revert Hstarted.
  unfold dev_acquisition_stop, sr_session_source_remove.
  case_decide as Hst; cbn; intros Hstarted.
  - repeat split; auto; try congruence; apply (Hstarted _ ltac:(eassumption)).
  - repeat split; auto; try congruence.
    + apply lookup_delete_eq.
    + intros fd Hfd. now apply lookup_delete_ne.
    + intros Hidle. destruct sdi as [[] ? ?]. cbn in *. now subst.
    + apply (Hstarted _ ltac:(eassumption)).
    + apply (Hstarted _ ltac:(eassumption)).
Qed.

(** C3, as amended.  At a sample rate of 100 MHz or more, when the lowest
    set bit of the combined rising-or-falling mask is at channel k, the
    last byte written to the trigger select register has k in its pin
    field (bits 0 to 2) if k is at most 7, whatever other bits are set,
    and 0 in its pin field if k is 8 or more; bit 3 is set exactly when
    the falling mask is non-zero, and bit LEDSEL1 is set. *)
Theorem triggerselect_lowest_pin (sdi : sr_dev_inst) (k : Z) :
  4 <= LEDSEL1 <= 7 ->
  setup_succeeds sdi ->
  SR_MHZ 100 <= samplerate (priv sdi) ->
  lowest_set_bit
    (Z.lor (risingmask (trigger (converted sdi)))
           (fallingmask (trigger (converted sdi)))) k ->
  exists sdi' ops ts,
    dev_acquisition_start sdi = Some (SR_OK, sdi') /\
    hw sdi' = hw sdi ++ ops /\
    last (register_writes WRITE_TRIGGER_SELECT2 ops) = Some [ts] /\
    Z.land ts 7 = (if k <? 8 then k else 0) /\
    Z.testbit ts 3 = negb (fallingmask (trigger (converted sdi)) =? 0) /\
    Z.testbit ts LEDSEL1 = true.
Proof.
  intros HL Hsetup Hrate [Hset Hlow].
  assert (0 <= k) as Hk0.
  { destruct (Z.neg_nonneg_cases k) as [Hneg|]; [|assumption].
    rewrite Z.testbit_neg_r in Hset by assumption. discriminate. }
  assert (samplerate (converted sdi) = samplerate (priv sdi)) as Hsr
    by reflexivity.
  destruct (clockselect_defined (converted sdi)) as [c Hc].
  { rewrite Hsr. unfold SR_MHZ in Hrate. lia. }
  destruct (dev_acquisition_start_runs sdi c Hsetup Hc)
    as (sdi' & Hrun & Hhw & _ & _).
  exists sdi', (start_ops (converted sdi) c). eexists.
  split; [exact Hrun|]. split; [exact Hhw|].
  unfold start_ops. rewrite register_writes_app.
  rewrite trigger_select_writes_fast by (rewrite Hsr; exact Hrate).
  split; [reflexivity|]. cbv zeta.
  set (trg := trigger (converted sdi)) in *.
  set (mask := Z.lor (risingmask trg) (fallingmask trg)) in *.
  assert (Z.land (scan_triggerpin 8 0 mask) 7 = (if k <? 8 then k else 0)
          /\ 0 <= Z.land (scan_triggerpin 8 0 mask) 7 <= 7) as [Hpin Hrange].
  { destruct (Z.ltb_spec k 8).
    - rewrite (scan_triggerpin_finds 8 0 k mask) by (auto; lia).
      assert (k = 0 \/ k = 1 \/ k = 2 \/ k = 3 \/
              k = 4 \/ k = 5 \/ k = 6 \/ k = 7) as Hks by lia.
      repeat (destruct Hks as [->|Hks]); try subst k;
        vm_compute (Z.land _ _); lia.
    - rewrite (scan_triggerpin_exhausts 8 0 mask)
        by (try lia; intros j Hj; apply Hlow; lia).
      vm_compute (Z.land _ _). lia. }
  pose proof (triggerselect_fields LEDSEL1
                (Z.land (scan_triggerpin 8 0 mask) 7)
                (negb (fallingmask trg =? 0)) HL Hrange) as Hf.
  cbn zeta in Hf. replace (Z.land (Z.land (scan_triggerpin 8 0 mask) 7) 7)
    with (Z.land (scan_triggerpin 8 0 mask) 7) in Hf
    by (rewrite <- Z.land_assoc; reflexivity).
  rewrite <- Hpin.
  destruct (fallingmask trg =? 0); exact Hf.
Qed.



(** C5, as amended.  [config_set] for the capture ratio key checks no
    bounds and never answers with the invalid-argument status.  With
    trigger support compiled in it stores every requested value and
    returns success, so the stored ratio lies in 0..100 exactly when the
    requested value does; without it the key is rejected as not
    applicable for every value and the device instance is unchanged. *)
Theorem config_set_capture_ratio_unchecked (sdi : sr_dev_inst) (v : Z) :
  (config_set SR_CONF_CAPTURE_RATIO v sdi).1 <> SR_ERR_ARG /\
  (ASIX_SIGMA_WITH_TRIGGER = true ->
     (config_set SR_CONF_CAPTURE_RATIO v sdi).1 = SR_OK /\
     capture_ratio (priv (config_set SR_CONF_CAPTURE_RATIO v sdi).2) = v /\
     (0 <= capture_ratio (priv (config_set SR_CONF_CAPTURE_RATIO v sdi).2)
        <= 100 <-> 0 <= v <= 100)) /\
  (ASIX_SIGMA_WITH_TRIGGER = false ->
     config_set SR_CONF_CAPTURE_RATIO v sdi = (SR_ERR_NA, sdi)).
Proof.
  unfold config_set. destruct ASIX_SIGMA_WITH_TRIGGER; cbn.
  - repeat split; try discriminate; auto; tauto.
  - repeat split; try discriminate; auto.
Qed.

(** C9, as amended.  The clock select register is written once per
    start, with exactly four bytes: the async flag in a byte of its own
    (byte 0, always zero), then the divider byte (50 MHz / rate - 1 at
    rates of at most 50 MHz), then the low byte and the high byte of the
    disable mask. *)
Theorem clock_select_image (sdi : sr_dev_inst) :
  setup_succeeds sdi ->
  samplerate (priv sdi) <> 0 ->
  exists sdi' ops c b0 b1 b2 b3,
    dev_acquisition_start sdi = Some (SR_OK, sdi') /\
    hw sdi' = hw sdi ++ ops /\
    clockselect_of (converted sdi) = Some c /\
    register_writes WRITE_CLOCK_SELECT ops = [[b0; b1; b2; b3]] /\
    b0 = async c /\ b0 = 0 /\
    b1 = uint8 (fraction c) /\
    (samplerate (priv sdi) <= SR_MHZ 50 ->
       b1 = (SR_MHZ 50 / samplerate (priv sdi) - 1) mod 256) /\
    b2 = disabled_channels c mod 256 /\
    b3 = disabled_channels c / 256.
Proof.
  intros Hsetup Hrate.
  destruct (clockselect_defined (converted sdi) Hrate) as [c Hc].
  destruct (dev_acquisition_start_runs sdi c Hsetup Hc)
    as (sdi' & Hrun & Hhw & _ & _).
  exists sdi', (start_ops (converted sdi) c), c.
  assert (async c = 0 /\ 0 <= disabled_channels c < 2 ^ 16 /\
          (samplerate (priv sdi) <= SR_MHZ 50 ->
           fraction c = uint64 (SR_MHZ 50 / samplerate (priv sdi) - 1)))
    as (Ha & Hm & Hdiv).
  { revert Hc. unfold clockselect_of.
    change (samplerate (converted sdi)) with (samplerate (priv sdi)).
    unfold SR_MHZ.
    destruct (Z.eqb_spec (samplerate (priv sdi)) (200 * 1000000));
      [intros [= <-]; cbn; lia|].
    destruct (Z.eqb_spec (samplerate (priv sdi)) (100 * 1000000));
      [intros [= <-]; cbn; lia|].
    destruct (Z.eqb_spec (samplerate (priv sdi)) 0); [discriminate|].
    intros [= <-]; cbn; repeat split; lia. }
  do 4 eexists. split; [exact Hrun|]. split; [exact Hhw|].
  split; [exact Hc|].
  split.
  { unfold start_ops. rewrite register_writes_app.
    rewrite trigger_ops_other by discriminate. reflexivity. }
  unfold uint8. rewrite Ha.
  change (2 ^ 8) with 256. change (0xff) with (Z.ones 8).
  rewrite Z.land_ones, Z.shiftr_div_pow2 by lia.
  change (2 ^ 8) with 256.
  repeat split; auto.
  - intros Hlow. rewrite (Hdiv Hlow). unfold uint64.
    apply Z.mod_mod_divide. exists (2 ^ 56). reflexivity.
  - rewrite Z.mod_mod by lia. reflexivity.
  - apply Z.mod_small. split; [apply Z.div_pos; lia|].
    apply Z.div_lt_upper_bound; lia.
Qed.

(** C10.  For every capture ratio r in 0..100, the value a start writes
    to the post trigger register is r * 255 / 100 in exact (flooring)
    integer arithmetic: 0 for 0, 127 for 50 and 255 for 100. *)
Theorem post_trigger_register_value (sdi : sr_dev_inst) (r : Z) :
  setup_succeeds sdi ->
  samplerate (priv sdi) <> 0 ->
  capture_ratio (priv sdi) = r ->
  0 <= r <= 100 ->
  exists sdi' ops,
    dev_acquisition_start sdi = Some (SR_OK, sdi') /\
    hw sdi' = hw sdi ++ ops /\
    register_writes WRITE_POST_TRIGGER ops = [[r * 255 / 100]] /\
    (r = 0 -> r * 255 / 100 = 0) /\
    (r = 50 -> r * 255 / 100 = 127) /\
    (r = 100 -> r * 255 / 100 = 255).
Proof.
  intros Hsetup Hrate Hr Hb.
  destruct (clockselect_defined (converted sdi) Hrate) as [c Hc].
  destruct (dev_acquisition_start_runs sdi c Hsetup Hc)
    as (sdi' & Hrun & Hhw & _ & _).
  exists sdi', (start_ops (converted sdi) c).
  split; [exact Hrun|]. split; [exact Hhw|].
  split.
  - unfold start_ops. rewrite register_writes_app.
    rewrite trigger_ops_other by discriminate. cbn.
    unfold post_trigger_of, uint8, uint64. cbn [converted set_trigger capture_ratio].
    rewrite Hr.
    rewrite (Z.mod_small (r * 255)) by lia.
    rewrite Z.mod_small; [reflexivity|].
    split; [apply Z.div_pos; lia|apply Z.div_lt_upper_bound; lia].
  - repeat split; intros ->; reflexivity.
Qed.

End Props.

(** *** Witnesses and counterexamples *)

Lemma dev_acquisition_stop_two_phase_witness :
  let sdi := bench_sdi true (set_state SIGMA_CAPTURE (bench_devc (SR_MHZ 50) 0 0)) in
  state (priv (dev_acquisition_stop sdi).2) = SIGMA_STOPPING /\
  session (dev_acquisition_stop sdi).2 = session sdi.
Proof.
  intros sdi.
  destruct (dev_acquisition_stop_two_phase sdi) as (_ & _ & Hcap & _).
  apply Hcap. reflexivity.
Defined.

Lemma lowest_set_bit_0x14 : lowest_set_bit 0x14 2.
Proof.
  split; [reflexivity|]. intros j Hj.
  assert (j = 0 \/ j = 1) as [-> | ->] by lia; reflexivity.
Qed.

Lemma triggerselect_lowest_pin_witness :
  exists sdi' ops ts,
    dev_acquisition_start (bench_sdi true (bench_devc (SR_MHZ 100) 0x04 0x10))
    = Some (SR_OK, sdi') /\
    hw sdi' = [] ++ ops /\
    last (register_writes WRITE_TRIGGER_SELECT2 ops) = Some [ts] /\
    Z.land ts 7 = 2 /\
    Z.testbit ts 3 = true /\
    Z.testbit ts 7 = true.
Proof.
  apply (triggerselect_lowest_pin (P := bench true)
           (bench_sdi true (bench_devc (SR_MHZ 100) 0x04 0x10)) 2).
  - cbn. lia.
  - repeat split.
  - unfold SR_MHZ. cbn. lia.
  - exact lowest_set_bit_0x14.
Defined.

(** C3 as stated fails for a trigger on channel 8: the pin field of the
    byte written is 0. *)
Lemma triggerselect_pin_field_three_bits :
  lowest_set_bit (Z.lor 0x100 0) 8 /\
  exists sdi',
    dev_acquisition_start (bench_sdi true (bench_devc (SR_MHZ 100) 0x100 0))
    = Some (SR_OK, sdi') /\
    last (register_writes WRITE_TRIGGER_SELECT2 (hw sdi')) = Some [0x80] /\
    Z.land 0x80 7 = 0 /\ Z.land 0x80 7 <> 8.
Proof.
  split.
  - split; [reflexivity|]. intros j Hj.
    assert (j = 0 \/ j = 1 \/ j = 2 \/ j = 3 \/
            j = 4 \/ j = 5 \/ j = 6 \/ j = 7) as Hjs by lia.
    repeat (destruct Hjs as [->|Hjs]); try subst j; reflexivity.
  - eexists. split; [vm_compute; reflexivity|].
    split; [vm_compute; reflexivity|]. split; [reflexivity|discriminate].
Qed.



Lemma config_set_capture_ratio_unchecked_witness :
  let sdi := bench_sdi true (bench_devc (SR_MHZ 50) 0 0) in
  (config_set SR_CONF_CAPTURE_RATIO 75 sdi).1 = SR_OK /\
  capture_ratio (priv (config_set SR_CONF_CAPTURE_RATIO 75 sdi).2) = 75 /\
  (0 <= capture_ratio (priv (config_set SR_CONF_CAPTURE_RATIO 75 sdi).2)
     <= 100 <-> 0 <= 75 <= 100).
Proof.
  intros sdi.
  destruct (config_set_capture_ratio_unchecked (P := bench true) sdi 75)
    as (_ & Hon & _).
  apply Hon. reflexivity.
Defined.

(** C5 as stated fails: a capture ratio of 101 is stored and the call
    succeeds; without trigger support the status is not the
    invalid-argument one either. *)
Lemma config_set_capture_ratio_accepts_101 :
  (config_set SR_CONF_CAPTURE_RATIO 101
     (bench_sdi true (bench_devc (SR_MHZ 50) 0 0))).1 = SR_OK /\
  capture_ratio
    (priv (config_set SR_CONF_CAPTURE_RATIO 101
             (bench_sdi true (bench_devc (SR_MHZ 50) 0 0))).2) = 101 /\
  ~ (0 <= 101 <= 100) /\
  (config_set SR_CONF_CAPTURE_RATIO 101
     (bench_sdi false (bench_devc (SR_MHZ 50) 0 0))).1 = SR_ERR_NA.
Proof. repeat split; try reflexivity. lia. Qed.

Lemma clock_select_image_witness :
  exists sdi' ops c b0 b1 b2 b3,
    dev_acquisition_start (bench_sdi true (bench_devc (SR_MHZ 25) 0 0))
    = Some (SR_OK, sdi') /\
    hw sdi' = [] ++ ops /\
    clockselect_of (converted (bench_sdi true (bench_devc (SR_MHZ 25) 0 0)))
    = Some c /\
    register_writes WRITE_CLOCK_SELECT ops = [[b0; b1; b2; b3]] /\
    b0 = async c /\ b0 = 0 /\
    b1 = uint8 (fraction c) /\
    (samplerate (bench_devc (SR_MHZ 25) 0 0) <= SR_MHZ 50 ->
       b1 = (SR_MHZ 50 / samplerate (bench_devc (SR_MHZ 25) 0 0) - 1) mod 256) /\
    b2 = disabled_channels c mod 256 /\
    b3 = disabled_channels c / 256.
Proof.
  apply (clock_select_image (P := bench true)
           (bench_sdi true (bench_devc (SR_MHZ 25) 0 0))).
  - repeat split.
  - unfold SR_MHZ. cbn. lia.
Defined.

(** C9 as stated fails at 200 MHz: the bytes are 0, 0, 0xff, 0xf0, so the
    second byte is the divider and not the low byte of the mask, and the
    third is the low byte and not the high byte, wherever the async flag
    is taken to sit. *)
Lemma clock_image_not_divider_first :
  exists c,
    clockselect_of (bench_devc (SR_MHZ 200) 0 0) = Some c /\
    clock_bytes c = [0; 0; 0xff; 0xf0] /\
    forall b, ~ divider_first_layout b c (clock_bytes c).
Proof.
  eexists. split; [reflexivity|]. split; [reflexivity|].
  intros b (_ & _ & H1 & _). vm_compute in H1. discriminate.
Qed.

Lemma post_trigger_register_value_witness :
  exists sdi' ops,
    dev_acquisition_start (bench_sdi true (bench_devc (SR_MHZ 50) 0 0))
    = Some (SR_OK, sdi') /\
    hw sdi' = [] ++ ops /\
    register_writes WRITE_POST_TRIGGER ops = [[50 * 255 / 100]] /\
    (50 = 0 -> 50 * 255 / 100 = 0) /\
    (50 = 50 -> 50 * 255 / 100 = 127) /\
    (50 = 100 -> 50 * 255 / 100 = 255).
Proof.
  apply (post_trigger_register_value (P := bench true)
           (bench_sdi true (bench_devc (SR_MHZ 50) 0 0)) 50).
  - repeat split.
  - unfold SR_MHZ. cbn. lia.
  - reflexivity.
  - lia.
Defined.

End SigmaProps.

(** ** Properties of the command-set driver *)

Module DmmProps.
Import Dmm.

(** Decides a closed decidable proposition by evaluation. *)
Ltac by_evaluation :=
  lazymatch goal with
  | |- ~ ?Q => apply (bool_decide_eq_false_1 Q); vm_compute; reflexivity
  | |- ?Q => apply (bool_decide_eq_true_1 Q); vm_compute; reflexivity
  end.

Section Props.
Context {E : environment}.

(** *** The range lookup *)

Lemma config_get_range_no_match (sdi : sr_dev_inst) (q : sr_mq) (f : sr_mqflag)
    (reply : string) :
  scpi_dmm_get_mq sdi = (SR_OK, q, f) ->
  fixed_range (rangeopts (devc_model (priv sdi))) q f = None ->
  scpi_dmm_get_range_auto sdi q f = (SR_OK, Some reply) \/
  (scpi_dmm_get_range_auto sdi q f = (SR_OK, None) /\
   scpi_dmm_get_range sdi q f = (SR_OK, Some reply)) ->
  match_range (rangeopts (devc_model (priv sdi))) q f (Some reply) = None ->
  config_get_range sdi = range_uninitialised.
Proof.
  intros Hmq Hfixed Hreply Hnone. unfold config_get_range.
  rewrite Hmq. cbn. rewrite Hfixed.
  destruct Hreply as [Ha | [Ha Hr]]; rewrite Ha; cbn.
  - now rewrite Hnone.
  - rewrite Hr. cbn. now rewrite Hnone.
Qed.

(** *** The NPLC gate *)

Lemma set_nplc_checked_absent (opts : list scpi_dmm_nplcopts)
    (sdi : sr_dev_inst) (q : sr_mq) (f : sr_mqflag) (v : spec_float) :
  (forall o, In o opts -> ~ (nplc_mq o = q /\ nplc_mqflag o = f)) ->
  set_nplc_checked opts sdi q f v = SR_ERR_NA.
Proof.
  induction opts as [|o opts IH]; intros Hno; [reflexivity|].
  cbn [set_nplc_checked].
  destruct (decide (nplc_mq o = q)) as [Hq|Hq];
    destruct (decide (nplc_mqflag o = f)) as [Hf|Hf].
  - exfalso. apply (Hno o); [now left|auto].
  - rewrite (bool_decide_eq_true_2 _ Hq), (bool_decide_eq_false_2 _ Hf).
    cbn. apply IH. intros o' Ho'. apply Hno. now right.
  - rewrite (bool_decide_eq_false_2 _ Hq).
    cbn. apply IH. intros o' Ho'. apply Hno. now right.
  - rewrite (bool_decide_eq_false_2 _ Hq).
    cbn. apply IH. intros o' Ho'. apply Hno. now right.
Qed.

Lemma set_nplc_checked_row (opts : list scpi_dmm_nplcopts)
    (sdi : sr_dev_inst) (q : sr_mq) (f : sr_mqflag) (v : spec_float)
    (o : scpi_dmm_nplcopts) :
  NoDup (nplc_keys opts) ->
  In o opts -> nplc_mq o = q -> nplc_mqflag o = f ->
  set_nplc_checked opts sdi q f v =
    if float_le (nplc_min o) v && float_ge (nplc_max o) v
    then scpi_dmm_set_nplc sdi q f v else SR_ERR_DATA.
Proof.
  induction opts as [|o' opts IH]; intros Hnd Hin Hq Hf; [destruct Hin|].
  cbn [set_nplc_checked]. cbn in Hnd. apply NoDup_cons in Hnd as [Hfresh Hnd].
  destruct Hin as [->|Hin].
  - rewrite (bool_decide_eq_true_2 _ Hq), (bool_decide_eq_true_2 _ Hf).
    reflexivity.
  - assert (~ (nplc_mq o' = q /\ nplc_mqflag o' = f)) as Hne.
    { intros [Hq' Hf']. apply Hfresh. apply list_elem_of_In.
      change (In (nplc_mq o', nplc_mqflag o') (nplc_keys opts)).
      rewrite Hq', Hf', <- Hq, <- Hf.
      unfold nplc_keys. apply (in_map (fun o => (nplc_mq o, nplc_mqflag o))).
      exact Hin. }
    destruct (decide (nplc_mq o' = q)) as [Hq'|Hq'];
      destruct (decide (nplc_mqflag o' = f)) as [Hf'|Hf'];
      try (exfalso; now apply Hne).
    + rewrite (bool_decide_eq_true_2 _ Hq'), (bool_decide_eq_false_2 _ Hf').
      cbn. now apply IH.
    + rewrite (bool_decide_eq_false_2 _ Hq'). cbn. now apply IH.
    + rewrite (bool_decide_eq_false_2 _ Hq'). cbn. now apply IH.
Qed.

Lemma classic_row (opts : list scpi_dmm_nplcopts) (q : sr_mq) (f : sr_mqflag) :
  (exists o, In o opts /\ nplc_mq o = q /\ nplc_mqflag o = f) \/
  (forall o, In o opts -> ~ (nplc_mq o = q /\ nplc_mqflag o = f)).
Proof.
  induction opts as [|o opts [(o' & Hin & Hq & Hf)|Hno]].
  - right. intros o [].
  - left. exists o'. split; [now right|auto].
  - destruct (decide (nplc_mq o = q /\ nplc_mqflag o = f)) as [[Hq Hf]|Hne].
    + left. exists o. split; [now left|auto].
    + right. intros o' [<-|Hin]; auto.
Qed.

Lemma models_nplc_keys_unique :
  Forall (fun m => NoDup (nplc_keys (nplcopts m))) models.
Proof. by_evaluation. Qed.


(** *** The claims *)

(** C7, as amended.  For a model of the model table, with the current
    quantity read and a meter that takes the command, setting NPLC
    succeeds if and only if the bounds table has a row for the current
    (quantity, flag) pair and the requested value, once it is narrowed
    from [double] to [float], lies between the row's minimum and
    maximum, both included.  The bounds are compared with the narrowed
    value, not with the requested one.  With a row but a narrowed value
    outside the bounds the status is [SR_ERR_DATA]; without a row it is
    [SR_ERR_NA]. *)
Theorem config_set_nplc_gate (sdi : sr_dev_inst) (q : sr_mq) (f : sr_mqflag)
    (data : spec_float) :
  In (devc_model (priv sdi)) models ->
  scpi_dmm_get_mq sdi = (SR_OK, q, f) ->
  (forall v, scpi_dmm_set_nplc sdi q f v = SR_OK) ->
  (config_set_nplc data sdi = SR_OK <->
     exists o, In o (nplcopts (devc_model (priv sdi))) /\
       nplc_mq o = q /\ nplc_mqflag o = f /\
       float_le (nplc_min o) (float_of_double data) = true /\
       float_le (float_of_double data) (nplc_max o) = true) /\
  ((exists o, In o (nplcopts (devc_model (priv sdi))) /\
       nplc_mq o = q /\ nplc_mqflag o = f /\
       (float_le (nplc_min o) (float_of_double data) = false \/
        float_le (float_of_double data) (nplc_max o) = false)) ->
     config_set_nplc data sdi = SR_ERR_DATA) /\
  ((forall o, In o (nplcopts (devc_model (priv sdi))) ->
       ~ (nplc_mq o = q /\ nplc_mqflag o = f)) ->
     config_set_nplc data sdi = SR_ERR_NA).
Proof.
  intros Hmodel Hmq Hsend.
  assert (NoDup (nplc_keys (nplcopts (devc_model (priv sdi))))) as Hnd.
  { pose proof models_nplc_keys_unique as Hall.
    rewrite Forall_forall in Hall. apply Hall. now apply list_elem_of_In. }
  set (opts := nplcopts (devc_model (priv sdi))) in *.
  assert (config_set_nplc data sdi
          = set_nplc_checked opts sdi q f (float_of_double data)) as ->.
  { unfold config_set_nplc. rewrite Hmq. reflexivity. }
  set (v := float_of_double data).
  assert (forall o, In o opts -> nplc_mq o = q -> nplc_mqflag o = f ->
          set_nplc_checked opts sdi q f v =
            if float_le (nplc_min o) v && float_le v (nplc_max o)
            then SR_OK else SR_ERR_DATA) as Hrow.
  { intros o Hin Hq Hf.
    rewrite (set_nplc_checked_row opts sdi q f v o Hnd Hin Hq Hf).
    unfold float_ge. now rewrite Hsend. }
  repeat split.
  - intros Hok.
    destruct (classic_row opts q f) as [(o & Hin & Hq & Hf)|Hno].
    + exists o. rewrite (Hrow o Hin Hq Hf) in Hok.
      destruct (float_le (nplc_min o) v), (float_le v (nplc_max o));
        try discriminate; auto.
    + rewrite set_nplc_checked_absent in Hok by exact Hno. discriminate.
  - intros (o & Hin & Hq & Hf & Hlo & Hhi).
    rewrite (Hrow o Hin Hq Hf), Hlo, Hhi. reflexivity.
  - intros (o & Hin & Hq & Hf & Hout).
    rewrite (Hrow o Hin Hq Hf).
    destruct Hout as [-> | ->]; [reflexivity|].
    now rewrite andb_false_r.
  - intros Hno. now apply set_nplc_checked_absent.
Qed.


End Props.

(** C2.  The claim asks that a range reply which matches no row of the
    model's range table ends in an error.  The code does not: on a
    DMM6500 measuring AC current, with auto-range off and the meter
    answering the range query with "10" (a token the AC current rows do
    not have), the SR_CONF_RANGE case returns [SR_OK] with a label built
    from [range_str], which no statement has assigned. *)
Theorem config_get_range_unmatched_reply :
  config_get_range
    (E := bench (idn "KEITHLEY INSTRUMENTS" "MODEL DMM6500")
            SR_MQ_CURRENT SR_MQFLAG_AC None (Some "10"))
    (bench_sdi "KEITHLEY INSTRUMENTS" "MODEL DMM6500")
  = range_uninitialised.
Proof.
  apply (config_get_range_no_match _ SR_MQ_CURRENT SR_MQFLAG_AC "10");
    [reflexivity | reflexivity | right; split; reflexivity | reflexivity].
Qed.

(** C6, as amended.  In every model of the model table except the two
    GW Instek GDM-8200A entries (vendor "GW"), the (quantity, flag) pairs
    of the quantity table are pairwise distinct; in every model,
    including those two, the (quantity, flag, query token) triples are
    pairwise distinct. *)
Theorem mqopts_keys_unique_but_gdm8200a :
  Forall (fun m =>
    (NoDup (mq_keys (mqopts m)) <-> vendor m <> "GW") /\
    NoDup (mq_query_keys (mqopts m))) models.
Proof. by_evaluation. Qed.

(** C6 as stated fails for the GDM8251A: its table has two rows for DC
    current (the second for the mA input). *)
Lemma gdm8200a_keys_repeat :
  exists m, In m models /\
    vendor m = "GW" /\ model_name m = "GDM8251A" /\
    mq_keys (mqopts m) !! 2%nat = Some (SR_MQ_CURRENT, SR_MQFLAG_DC) /\
    mq_keys (mqopts m) !! 4%nat = Some (SR_MQ_CURRENT, SR_MQFLAG_DC) /\
    ~ NoDup (mq_keys (mqopts m)).
Proof.
  eexists. split; [right; right; left; reflexivity|].
  repeat split. by_evaluation.
Qed.

(** On the DMM6500 measuring DC voltage: 0.0004, which is 0.0001 below
    the minimum, is refused with [SR_ERR_DATA]; the minimum 0.0005 and the
    maximum 12 are accepted; and for AC voltage, which has no row, the
    status is [SR_ERR_NA]. *)
Lemma config_set_nplc_gate_witness :
  let sdi := bench_sdi "KEITHLEY INSTRUMENTS" "MODEL DMM6500" in
  let dc := bench (idn "KEITHLEY INSTRUMENTS" "MODEL DMM6500")
              SR_MQ_VOLTAGE SR_MQFLAG_DC None None in
  let ac := bench (idn "KEITHLEY INSTRUMENTS" "MODEL DMM6500")
              SR_MQ_VOLTAGE SR_MQFLAG_AC None None in
  config_set_nplc (E := dc) (double_lit 4 10000) sdi = SR_ERR_DATA /\
  config_set_nplc (E := dc) (double_lit 5 10000) sdi = SR_OK /\
  config_set_nplc (E := dc) (double_lit 12 1) sdi = SR_OK /\
  config_set_nplc (E := ac) (double_lit 1 1) sdi = SR_ERR_NA.
Proof.
  intros sdi dc ac.
  assert (In (devc_model (priv sdi)) models) as Hm
    by (do 8 right; left; reflexivity).
  split; [|split; [|split]].
  - destruct (config_set_nplc_gate (E := dc) sdi SR_MQ_VOLTAGE SR_MQFLAG_DC
                (double_lit 4 10000) Hm eq_refl (fun _ => eq_refl))
      as (_ & Hdata & _).
    apply Hdata. eexists. split; [left; reflexivity|].
    repeat split. left. reflexivity.
  - destruct (config_set_nplc_gate (E := dc) sdi SR_MQ_VOLTAGE SR_MQFLAG_DC
                (double_lit 5 10000) Hm eq_refl (fun _ => eq_refl))
      as (Hok & _ & _).
    apply Hok. eexists. split; [left; reflexivity|]. repeat split.
  - destruct (config_set_nplc_gate (E := dc) sdi SR_MQ_VOLTAGE SR_MQFLAG_DC
                (double_lit 12 1) Hm eq_refl (fun _ => eq_refl))
      as (Hok & _ & _).
    apply Hok. eexists. split; [left; reflexivity|]. repeat split.
  - destruct (config_set_nplc_gate (E := ac) sdi SR_MQ_VOLTAGE SR_MQFLAG_AC
                (double_lit 1 1) Hm eq_refl (fun _ => eq_refl))
      as (_ & _ & Hna).
    apply Hna. intros o Ho [Hq Hf]. revert Hq Hf.
    repeat (destruct Ho as [<-|Ho]; [vm_compute; discriminate|]).
    destruct Ho.
Defined.

(** C7 as stated fails for requested values next to a bound.  On the
    DMM6500 measuring DC voltage the [double] 0.000499999999 is below
    the row's minimum and the [double] 12.0000001 is above the row's
    maximum, each compared as the numbers they are; both are accepted
    with [SR_OK], because narrowing to [float] rounds them to the
    bounds. *)
Lemma config_set_nplc_rounds_to_bounds :
  let sdi := bench_sdi "KEITHLEY INSTRUMENTS" "MODEL DMM6500" in
  let dc := bench (idn "KEITHLEY INSTRUMENTS" "MODEL DMM6500")
              SR_MQ_VOLTAGE SR_MQFLAG_DC None None in
  let below := double_lit 499999999 1000000000000 in
  let above := double_lit 120000001 10000000 in
  exists o, In o (nplcopts (devc_model (priv sdi))) /\
    nplc_mq o = SR_MQ_VOLTAGE /\ nplc_mqflag o = SR_MQFLAG_DC /\
    double_lt below (double_of_float (nplc_min o)) = true /\
    double_lt (double_of_float (nplc_max o)) above = true /\
    config_set_nplc (E := dc) below sdi = SR_OK /\
    config_set_nplc (E := dc) above sdi = SR_OK.
Proof.
  intros sdi dc below above.
  eexists. split; [left; reflexivity|].
  split; [reflexivity|]. split; [reflexivity|].
  split; [vm_compute; reflexivity|]. split; [vm_compute; reflexivity|].
  split; vm_compute; reflexivity.
Qed.


End DmmProps.


(** ** Further properties of the register-protocol driver *)

Module SigmaMore.
Import Sigma.

Section Discovery.
Context {H : host}.

Lemma bus_addr_in_devices_elem (bus addr : Z) (devs : list (Z * Z)) :
  bus_addr_in_devices bus addr devs = true <-> (bus, addr) ∈ devs.
Proof.
  induction devs as [|[b a] devs IH]; cbn.
  - split; [discriminate|]. intros Hin. inversion Hin.
  - rewrite elem_of_cons, <- IH.
    destruct (bool_decide_reflect (b = bus)) as [->|Hb];
      destruct (bool_decide_reflect (a = addr)) as [->|Ha]; cbn;
      (split; [auto|]); intros [?|?]; simplify_eq; auto.
Qed.

Lemma scan_device_facts (conn : option string) (conn_devices : list (Z * Z))
    (dev : usb_device) (d : scanned) :
  scan_device conn conn_devices dev = Some d ->
  (conn <> None -> (bus_number dev, device_address dev) ∈ conn_devices) /\
  idVendor dev = USB_VENDOR_ASIX /\
  (idProduct dev = USB_PRODUCT_SIGMA \/ idProduct dev = USB_PRODUCT_OMEGA) /\
  iSerialNumber dev <> 0 /\ 0 <= open_ret dev /\ 0 <= serno_ret dev /\
  (exists num,
     sr_atol_base (serno_txt dev) 16 = (SR_OK, num, Some "") /\
     serno_type (Z.shiftr num 16)
       = Some (type (scan_id d), scan_model d) /\
     serno (scan_id d) = num /\ prefix (scan_id d) = Z.shiftr num 16) /\
  vid (scan_id d) = idVendor dev /\ pid (scan_id d) = idProduct dev /\
  scan_vendor d = "ASIX" /\
  scan_serial_num d = serno_txt dev /\
  scan_connection_id d
    = pretty (bus_number dev) +:+ "." +:+ pretty (device_address dev) /\
  scan_channels d = scan_channels_from 0 channel_names /\
  scan_samplerate d = samplerates_first /\
  scan_capture_ratio d = 50 /\
  scan_cur_firmware d = -1 /\ scan_use_triggers d = 0 /\
  scan_status_initializing d = true.
Proof.
  unfold scan_device.
  destruct (bool_decide (conn ≠ None)
            && negb (bus_addr_in_devices (bus_number dev)
                       (device_address dev) conn_devices)) eqn:Hconn;
    [discriminate|].
  destruct (known_vid_pid dev) eqn:Hknown; [|discriminate]. cbn [negb].
  destruct (Z.eqb_spec (iSerialNumber dev) 0); [discriminate|].
  destruct (Z.ltb_spec (open_ret dev) 0); [discriminate|].
  destruct (Z.ltb_spec (serno_ret dev) 0); [discriminate|].
  destruct (sr_atol_base (serno_txt dev) 16) as [[ret num] end_] eqn:Hparse.
  destruct (bool_decide (ret ≠ SR_OK) || bool_decide (end_ ≠ Some ""))
    eqn:Hbad; [discriminate|].
  apply orb_false_elim in Hbad as [Hret Hend].
  apply bool_decide_eq_false_1 in Hret, Hend.
  assert (ret = SR_OK) as -> by (destruct (decide (ret = SR_OK)); tauto).
  assert (end_ = Some "") as -> by (destruct (decide (end_ = Some "")); tauto).
  destruct (serno_type (Z.shiftr num 16)) as [[ty txt]|] eqn:Hty;
    [|discriminate].
  intros [= <-]. cbn.
  split.
  { intros Hc. apply bus_addr_in_devices_elem.
    rewrite (bool_decide_eq_true_2 _ Hc) in Hconn. cbn in Hconn.
    now apply negb_false_iff in Hconn. }
  unfold known_vid_pid in Hknown.
  destruct (decide (idVendor dev = USB_VENDOR_ASIX)) as [Hv|Hv].
  2:{ rewrite (bool_decide_eq_true_2 _ Hv) in Hknown. discriminate. }
  split; [exact Hv|]. split.
  { destruct (decide (idProduct dev = USB_PRODUCT_SIGMA)) as [|Hs]; [now left|].
    destruct (decide (idProduct dev = USB_PRODUCT_OMEGA)) as [|Ho]; [now right|].
    rewrite (bool_decide_eq_false_2 (idVendor dev ≠ _)) in Hknown by tauto.
    rewrite (bool_decide_eq_true_2 _ Hs), (bool_decide_eq_true_2 _ Ho) in Hknown.
    discriminate. }
  repeat split; try assumption; try lia.
  exists num. repeat split; assumption.
Qed.

Lemma scan_elem (options : list (sr_configkey * string))
    (devlist : list usb_device) (d : scanned) :
  d ∈ scan options devlist ->
  exists dev conn_devices,
    dev ∈ devlist /\
    scan_device (scan_conn options None) conn_devices dev = Some d /\
    conn_devices = match scan_conn options None with
                   | Some c => sr_usb_find c
                   | None => []
                   end.
Proof.
  unfold scan.
  destruct (_ && _); [intros Hin; inversion Hin|].
  intros Hin. apply list_elem_of_omap in Hin as (dev & Hdev & Hscan).
  eauto.
Qed.

(** X1.  With a connection option, [scan] returns only devices whose bus
    and address the connection spec matches, and nothing at all when the
    spec matches no device; the connection id of a returned device is
    its bus and address in decimal, joined by a dot. *)
Theorem scan_honours_conn (options : list (sr_configkey * string))
    (devlist : list usb_device) (c : string) :
  scan_conn options None = Some c ->
  (sr_usb_find c = [] -> scan options devlist = []) /\
  (forall d, d ∈ scan options devlist ->
     exists dev, dev ∈ devlist /\
       (bus_number dev, device_address dev) ∈ sr_usb_find c /\
       scan_connection_id d
       = pretty (bus_number dev) +:+ "." +:+ pretty (device_address dev)).
Proof.
  intros Hconn. split.
  - intros Hnone. unfold scan. rewrite Hconn, Hnone. reflexivity.
  - intros d Hd.
    destruct (scan_elem options devlist d Hd) as (dev & devs & Hdev & Hscan & ->).
    rewrite Hconn in Hscan.
    destruct (scan_device_facts _ _ _ _ Hscan) as (Hin & Hrest).
    exists dev. split; [exact Hdev|]. split; [now apply Hin|].
    tauto.
Qed.

(** X2.  Every device [scan] returns has the ASIX vendor id and the
    SIGMA or OMEGA product id, a serial number that parsed completely as
    a hexadecimal number, and the type and model text of its serial
    number prefix: 0xa601 a SIGMA, 0xa602 a SIGMA2, 0xa603 an OMEGA - and
    an OMEGA only where OMEGA support is compiled in.  It starts with
    the first rate of the rate table, a capture ratio of 50 and the
    sixteen channels 1 to 16 at indices 0 to 15. *)
Theorem scan_result_sound (options : list (sr_configkey * string))
    (devlist : list usb_device) (d : scanned) :
  d ∈ scan options devlist ->
  vid (scan_id d) = USB_VENDOR_ASIX /\
  (pid (scan_id d) = USB_PRODUCT_SIGMA \/ pid (scan_id d) = USB_PRODUCT_OMEGA) /\
  prefix (scan_id d) = Z.shiftr (serno (scan_id d)) 16 /\
  ((prefix (scan_id d) = 0xa601 /\ type (scan_id d) = ASIX_TYPE_SIGMA /\
    scan_model d = "SIGMA") \/
   (prefix (scan_id d) = 0xa602 /\ type (scan_id d) = ASIX_TYPE_SIGMA /\
    scan_model d = "SIGMA2") \/
   (prefix (scan_id d) = 0xa603 /\ type (scan_id d) = ASIX_TYPE_OMEGA /\
    scan_model d = "OMEGA" /\ ASIX_WITH_OMEGA = true)) /\
  (exists dev, dev ∈ devlist /\
     sr_atol_base (serno_txt dev) 16 = (SR_OK, serno (scan_id d), Some "") /\
     scan_serial_num d = serno_txt dev) /\
  scan_vendor d = "ASIX" /\
  scan_samplerate d = samplerates_first /\
  scan_capture_ratio d = 50 /\
  scan_channels d
  = [(0, "1"); (1, "2"); (2, "3"); (3, "4"); (4, "5"); (5, "6"); (6, "7");
     (7, "8"); (8, "9"); (9, "10"); (10, "11"); (11, "12"); (12, "13");
     (13, "14"); (14, "15"); (15, "16")].
Proof.
  intros Hd.
  destruct (scan_elem options devlist d Hd) as (dev & devs & Hdev & Hscan & _).
  destruct (scan_device_facts _ _ _ _ Hscan)
    as (_ & Hv & Hp & _ & _ & _ & (num & Hparse & Hty & Hno & Hpre)
        & Hvid & Hpid & Hven & Hser & _ & Hch & Hrate & Hcr & _).
  rewrite Hvid, Hpid, Hpre, Hno.
  split; [exact Hv|]. split; [exact Hp|]. split; [reflexivity|].
  split.
  { revert Hty. unfold serno_type.
    destruct (Z.eqb_spec (Z.shiftr num 16) 0xa601);
      [intros [= <- <-]; auto|].
    destruct (Z.eqb_spec (Z.shiftr num 16) 0xa602);
      [intros [= <- <-]; auto|].
    destruct (Z.eqb_spec (Z.shiftr num 16) 0xa603); [|discriminate].
    destruct ASIX_WITH_OMEGA; [|discriminate].
    intros [= <- <-]. auto 10. }
  split; [exists dev; repeat split; assumption|].
  repeat split; assumption.
Qed.

(** X3.  [scan] treats the candidates one by one and in order: the
    result for a device list is the result for its first part followed
    by the result for the rest, so a candidate that is skipped takes no
    other candidate with it, and there are never more results than
    candidates. *)
Theorem scan_candidates_independent (options : list (sr_configkey * string))
    (l1 l2 : list usb_device) :
  scan options (l1 ++ l2) = scan options l1 ++ scan options l2 /\
  (length (scan options l1) <= length l1)%nat.
Proof.
  unfold scan. destruct (_ && _).
  - split; [reflexivity|cbn; lia].
  - split; [apply omap_app|].
    induction l1 as [|dev l1 IH]; cbn; [lia|].
    destruct (scan_device _ _ dev); cbn; lia.
Qed.

(** X4.  No device [scan] returns is refused by [dev_open] as an
    unsupported OMEGA: opening it returns [SR_OK] when both libftdi
    calls succeed and [SR_ERR_IO] when one of them fails. *)
Theorem scan_then_open (options : list (sr_configkey * string))
    (devlist : list usb_device) (d : scanned) :
  d ∈ scan options devlist ->
  dev_open d <> SR_ERR_NA /\
  (dev_open d = SR_OK <->
     0 <= ftdi_init d /\
     0 <= ftdi_usb_open_desc_index (vid (scan_id d)) (pid (scan_id d))
            (scan_serial_num d)) /\
  (dev_open d = SR_OK \/ dev_open d = SR_ERR_IO).
Proof.
  intros Hd.
  destruct (scan_elem options devlist d Hd) as (dev & devs & _ & Hscan & _).
  destruct (scan_device_facts _ _ _ _ Hscan)
    as (_ & _ & _ & _ & _ & _ & (num & _ & Hty & _) & _).
  assert (bool_decide (type (scan_id d) = ASIX_TYPE_OMEGA)
          && negb ASIX_WITH_OMEGA = false) as Hok.
  { revert Hty. unfold serno_type.
    repeat case_match; intros [= <- _]; try reflexivity.
    all: rewrite ?andb_false_r; reflexivity. }
  unfold dev_open. rewrite Hok.
  destruct (Z.ltb_spec (ftdi_init d) 0);
    [repeat split; try discriminate; auto; intros; lia|].
  destruct (Z.ltb_spec (ftdi_usb_open_desc_index (vid (scan_id d))
                          (pid (scan_id d)) (scan_serial_num d)) 0);
    repeat split; try discriminate; auto; intros; lia.
Qed.

End Discovery.

Section Config.
Context {P : protocol} {H : host}.

(** X5.  A value that [config_set] accepted is the value [config_get]
    hands back: the normalised rate for the sample rate key, the value
    itself for the capture ratio key.  Setting one of the two leaves the
    other as it was, and the connection id is never affected. *)
Theorem config_set_then_get (key : sr_configkey) (v : Z) (id : string)
    (sdi sdi' : sr_dev_inst) :
  config_set key v sdi = (SR_OK, sdi') ->
  let before := Some {| connection_id := id; inst := sdi |} in
  let after := Some {| connection_id := id; inst := sdi' |} in
  (key = SR_CONF_SAMPLERATE ->
     config_get SR_CONF_SAMPLERATE after
     = (SR_OK, Some (gv_uint64 (sigma_normalize_samplerate v).2)) /\
     config_get SR_CONF_CAPTURE_RATIO after
     = config_get SR_CONF_CAPTURE_RATIO before) /\
  (key = SR_CONF_CAPTURE_RATIO ->
     config_get SR_CONF_CAPTURE_RATIO after = (SR_OK, Some (gv_uint64 v)) /\
     config_get SR_CONF_SAMPLERATE after
     = config_get SR_CONF_SAMPLERATE before) /\
  config_get SR_CONF_CONN after = (SR_OK, Some (gv_string id)).
Proof.
  intros Hset before after. repeat split.
  - subst key. revert Hset. unfold config_set.
    destruct (sigma_normalize_samplerate v) as [ret have].
    case_decide; intros Heq; simplify_eq; reflexivity.
  - subst key. revert Hset. unfold config_set.
    destruct (sigma_normalize_samplerate v) as [ret have].
    case_decide; intros Heq; simplify_eq; reflexivity.
  - subst key. revert Hset. unfold config_set, after, config_get.
    destruct ASIX_SIGMA_WITH_TRIGGER; intros Heq; simplify_eq. reflexivity.
  - subst key. revert Hset. unfold config_set.
    destruct ASIX_SIGMA_WITH_TRIGGER; intros Heq; simplify_eq. reflexivity.
Qed.

(** X6.  [config_set] never writes to the hardware, never touches the
    session's event sources, and never changes the acquisition state or
    the trigger masks.  When it fails for a key other than the two limit
    keys, which it hands to the limits helper, the device instance is
    exactly as before; and a key leaves the values of the other keys
    alone. *)
Theorem config_set_confined (key : sr_configkey) (v : Z) (sdi : sr_dev_inst) :
  hw (config_set key v sdi).2 = hw sdi /\
  session (config_set key v sdi).2 = session sdi /\
  state (priv (config_set key v sdi).2) = state (priv sdi) /\
  trigger (priv (config_set key v sdi).2) = trigger (priv sdi) /\
  ((config_set key v sdi).1 <> SR_OK ->
     key <> SR_CONF_LIMIT_MSEC -> key <> SR_CONF_LIMIT_SAMPLES ->
     (config_set key v sdi).2 = sdi) /\
  (key <> SR_CONF_SAMPLERATE ->
     samplerate (priv (config_set key v sdi).2) = samplerate (priv sdi)) /\
  (key <> SR_CONF_CAPTURE_RATIO ->
     capture_ratio (priv (config_set key v sdi).2) = capture_ratio (priv sdi)).
Proof.
  unfold config_set.
  destruct key; cbn;
    try destruct (sigma_normalize_samplerate v) as [? ?];
    try destruct (sr_sw_limits_config_set (cfg_limits (priv sdi)) _ v)
      as [? ?];
    try case_decide; try destruct ASIX_SIGMA_WITH_TRIGGER; cbn;
    repeat split; auto; congruence.
Qed.


(** X8.  The start hands on the failure of a set-up call, and which
    status it returns depends on the call.  It returns the status of
    [sigma_set_samplerate] when that is not [SR_OK]; otherwise the
    status of [sigma_set_acquire_timeout] when that is not [SR_OK];
    otherwise, when the trigger conversion failed, [SR_ERR] whatever
    status the conversion gave.  These returns come before the clock
    divider is computed, so they are reached at every sample rate, zero
    included.  With a rate other than zero the start returns [SR_OK]
    exactly when the three calls succeed. *)
Theorem dev_acquisition_start_status (sdi : sr_dev_inst) :
  (sigma_set_samplerate (priv sdi) <> SR_OK ->
     exists sdi',
       dev_acquisition_start sdi
       = Some (sigma_set_samplerate (priv sdi), sdi')) /\
  (sigma_set_samplerate (priv sdi) = SR_OK ->
   sigma_set_acquire_timeout (priv sdi) <> SR_OK ->
     exists sdi',
       dev_acquisition_start sdi
       = Some (sigma_set_acquire_timeout (priv sdi), sdi')) /\
  (sigma_set_samplerate (priv sdi) = SR_OK ->
   sigma_set_acquire_timeout (priv sdi) = SR_OK ->
   (sigma_convert_trigger (priv sdi)).1 <> SR_OK ->
     exists sdi', dev_acquisition_start sdi = Some (SR_ERR, sdi')) /\
  (samplerate (priv sdi) <> 0 ->
     ((exists sdi', dev_acquisition_start sdi = Some (SR_OK, sdi'))
      <-> setup_succeeds sdi)).
Proof.
  split; [|split; [|split]].
  - intros H1. unfold dev_acquisition_start.
    case_decide; [eauto|contradiction].
  - intros H1 H2. unfold dev_acquisition_start. rewrite H1.
    case_decide; [congruence|]. case_decide; [eauto|contradiction].
  - intros H1 H2 H3. unfold dev_acquisition_start. rewrite H1, H2.
    case_decide; [congruence|].
    destruct (sigma_convert_trigger (priv sdi)) as [r trg]. cbn in H3.
    case_decide; [eauto|contradiction].
  - intros Hrate. split.
    + intros [sdi' Hrun]. revert Hrun.
      unfold dev_acquisition_start, setup_succeeds.
      case_decide as H1; [intros [= Hret _]; congruence|].
      case_decide as H2; [intros [= Hret _]; congruence|].
      destruct (sigma_convert_trigger (priv sdi)) as [r trg].
      case_decide as H3; [discriminate|].
      intros _. cbn.
      repeat split; match goal with
                    | |- ?a = SR_OK => destruct (decide (a = SR_OK)); tauto
                    end.
    + intros Hsetup.
      destruct (SigmaProps.dev_acquisition_start_clock_write sdi Hsetup Hrate)
        as (sdi' & _ & _ & Hrun & _).
      eauto.
Qed.

(** X9.  At 100 MHz and above, a trigger specification with no falling
    edge and no rising edge on channels 0 to 7 - the empty specification
    among them - programs the trigger block exactly as a rising edge on
    channel 0 does. *)
Theorem fast_trigger_defaults_to_pin_0 (devc : dev_context) :
  SR_MHZ 100 <= samplerate devc ->
  fallingmask (trigger devc) = 0 ->
  (forall j, 0 <= j < 8 -> Z.testbit (risingmask (trigger devc)) j = false) ->
  trigger_ops devc
  = trigger_ops (set_trigger {| risingmask := 1; fallingmask := 0 |} devc).
Proof.
  intros Hrate Hfall Hclear. unfold trigger_ops.
  cbn [samplerate set_trigger trigger risingmask fallingmask].
  destruct (Z.leb_spec (SR_MHZ 100) (samplerate devc)); [|lia].
  rewrite Hfall, Z.lor_0_r.
  rewrite (SigmaProps.scan_triggerpin_exhausts 8 0) by (auto; lia).
  reflexivity.
Qed.

(** X10.  The post trigger byte is a byte for every capture ratio, and
    on ratios from 0 to 100 it grows by at least 2 with each percent, so
    different ratios never share a register value. *)
Theorem post_trigger_strictly_monotone (d1 d2 : dev_context) :
  0 <= capture_ratio d1 ->
  capture_ratio d1 < capture_ratio d2 ->
  capture_ratio d2 <= 100 ->
  post_trigger_of d1 + 2 <= post_trigger_of d2 /\
  0 <= post_trigger_of d1 /\ post_trigger_of d2 <= 255.
Proof.
  intros H0 Hlt H100.
  assert (forall r, 0 <= r <= 100 ->
          uint8 (uint64 (r * 255) / 100) = r * 255 / 100) as Hexact.
  { intros r Hr. unfold uint8, uint64.
    rewrite (Z.mod_small (r * 255)) by lia.
    apply Z.mod_small.
    split; [apply Z.div_pos; lia|apply Z.div_lt_upper_bound; lia]. }
  unfold post_trigger_of. rewrite !Hexact by lia.
  set (a := capture_ratio d1) in *. set (b := capture_ratio d2) in *.
  assert (a * 255 / 100 + 2 = (a * 255 + 2 * 100) / 100) as ->
    by (rewrite Z.div_add by lia; reflexivity).
  repeat split.
  - apply Z.div_le_mono; lia.
  - apply Z.div_pos; lia.
  - apply Z.lt_succ_r. apply Z.div_lt_upper_bound; lia.
Qed.

(** X11.  For a rate that is 50 MHz divided by d, with d from 1 to 256,
    and with the set-up calls succeeding, the start writes the clock
    select register once, with the four bytes 0, d - 1, 0, 0: no async
    flag, the divider minus one, and no channel disabled. *)
Theorem clock_divider_round_trip (sdi : sr_dev_inst) (d : Z) :
  setup_succeeds sdi ->
  1 <= d <= 256 ->
  samplerate (priv sdi) * d = SR_MHZ 50 ->
  exists sdi' ops,
    dev_acquisition_start sdi = Some (SR_OK, sdi') /\
    hw sdi' = hw sdi ++ ops /\
    register_writes WRITE_CLOCK_SELECT ops = [[0; d - 1; 0; 0]].
Proof.
  intros Hsetup Hd Hrate. unfold SR_MHZ in Hrate.
  assert (0 < samplerate (priv sdi) <= 50 * 1000000) as Hr by nia.
  assert (samplerate (priv sdi) <> 0) as Hnz by lia.
  destruct (SigmaProps.dev_acquisition_start_clock_write sdi Hsetup Hnz)
    as (sdi' & c & Hc & Hrun & Hhw & Hwrite).
  exists sdi', (start_ops (converted sdi) c).
  split; [exact Hrun|]. split; [exact Hhw|].
  rewrite Hwrite. revert Hc. unfold clockselect_of.
  change (samplerate (converted sdi)) with (samplerate (priv sdi)).
  unfold SR_MHZ.
  destruct (Z.eqb_spec (samplerate (priv sdi)) (200 * 1000000)); [lia|].
  destruct (Z.eqb_spec (samplerate (priv sdi)) (100 * 1000000)); [lia|].
  destruct (Z.eqb_spec (samplerate (priv sdi)) 0); [lia|].
  intros [= <-].
  unfold clock_bytes. cbn [async fraction disabled_channels].
  rewrite <- Hrate, Z.mul_comm, Z.div_mul by lia.
  unfold uint64. rewrite (Z.mod_small (d - 1)) by lia.
  unfold uint8. rewrite (Z.mod_small (d - 1)) by lia.
  reflexivity.
Qed.

(** X12.  Two stop requests in a row reach Idle from every state, with
    the receive callback deregistered and nothing written to the
    hardware; from a state other than Capturing a second stop changes
    nothing more. *)
Theorem dev_acquisition_stop_twice (sdi : sr_dev_inst) :
  let once := (dev_acquisition_stop sdi).2 in
  let twice := (dev_acquisition_stop once).2 in
  state (priv twice) = SIGMA_IDLE /\
  session twice !! (-1) = None /\
  hw twice = hw sdi /\
  (state (priv sdi) <> SIGMA_CAPTURE -> twice = once).
Proof.
  unfold dev_acquisition_stop. cbn zeta.
  destruct (decide (state (priv sdi) = SIGMA_CAPTURE)) as [Hc|Hc]; cbn.
  - repeat split; try tauto. apply lookup_delete_eq.
  - repeat split; try apply lookup_delete_eq.
    intros _. unfold sr_session_source_remove, with_session, with_priv; cbn.
    now rewrite delete_delete_eq.
Qed.

End Config.

(** *** Witnesses *)

Lemma scan_honours_conn_witness :
  scan (H := bench_host false) [(SR_CONF_CONN, "9.9")] two_candidates = [] /\
  forall d, d ∈ scan (H := bench_host false) [(SR_CONF_CONN, "1.5")]
                  two_candidates ->
    exists dev, dev ∈ two_candidates /\
      (bus_number dev, device_address dev) ∈ [(1, 5)] /\
      scan_connection_id d
      = pretty (bus_number dev) +:+ "." +:+ pretty (device_address dev).
Proof.
  split.
  - apply (scan_honours_conn (H := bench_host false)
             [(SR_CONF_CONN, "9.9")] two_candidates "9.9" eq_refl).
    reflexivity.
  - apply (scan_honours_conn (H := bench_host false)
             [(SR_CONF_CONN, "1.5")] two_candidates "1.5" eq_refl).
Defined.

Lemma scan_result_sound_witness :
  exists d, d ∈ scan (H := bench_host true) []
                  [bench_usb 1 5 0xa004 "A6030789"] /\
    vid (scan_id d) = 0xa600 /\
    (pid (scan_id d) = 0xa000 \/ pid (scan_id d) = 0xa004) /\
    prefix (scan_id d) = Z.shiftr (serno (scan_id d)) 16 /\
    scan_model d = "OMEGA" /\
    scan_capture_ratio d = 50.
Proof.
  assert (exists d, scan (H := bench_host true) []
                      [bench_usb 1 5 0xa004 "A6030789"] = [d]) as [d Hd]
    by (eexists; vm_compute; reflexivity).
  exists d.
  assert (d ∈ scan (H := bench_host true) []
                [bench_usb 1 5 0xa004 "A6030789"]) as Hin
    by (rewrite Hd; left).
  split; [exact Hin|].
  destruct (scan_result_sound (H := bench_host true) _ _ d Hin)
    as (Hv & Hp & Hpre & Hty & _ & _ & _ & Hcr & _).
  split; [exact Hv|]. split; [exact Hp|]. split; [exact Hpre|].
  split; [|exact Hcr].
  assert (d = hd d (scan (H := bench_host true) []
                      [bench_usb 1 5 0xa004 "A6030789"])) as ->
    by (rewrite Hd; reflexivity).
  vm_compute. reflexivity.
Defined.

Lemma scan_then_open_witness :
  exists d, d ∈ scan (H := bench_host false) [] two_candidates /\
    dev_open (H := bench_host false) d = SR_OK.
Proof.
  assert (exists d, scan (H := bench_host false) [] two_candidates = [d])
    as [d Hd] by (eexists; vm_compute; reflexivity).
  exists d.
  assert (d ∈ scan (H := bench_host false) [] two_candidates) as Hin
    by (rewrite Hd; left).
  split; [exact Hin|].
  destruct (scan_then_open (H := bench_host false) _ _ d Hin)
    as (_ & Hok & _).
  apply Hok. cbn. lia.
Defined.

Lemma config_set_then_get_witness :
  config_get (P := bench true) (H := bench_host false) SR_CONF_SAMPLERATE
    (Some {| connection_id := "1.5";
             inst := (config_set SR_CONF_SAMPLERATE 1000000
                        (bench_sdi true (bench_devc (SR_MHZ 50) 0 0))).2 |})
  = (SR_OK, Some (gv_uint64 1000000)).
Proof.
  destruct (config_set_then_get (P := bench true) (H := bench_host false)
              SR_CONF_SAMPLERATE 1000000 "1.5"
              (bench_sdi true (bench_devc (SR_MHZ 50) 0 0))
              _ eq_refl) as (Hrate & _ & _).
  apply Hrate. reflexivity.
Defined.

Lemma fast_trigger_defaults_to_pin_0_witness :
  trigger_ops (P := bench true) (bench_devc (SR_MHZ 100) 0x100 0)
  = trigger_ops (P := bench true)
      (set_trigger {| risingmask := 1; fallingmask := 0 |}
         (bench_devc (SR_MHZ 100) 0x100 0)).
Proof.
  apply (fast_trigger_defaults_to_pin_0 (P := bench true)).
  - cbn. lia.
  - reflexivity.
  - intros j Hj.
    assert (j = 0 \/ j = 1 \/ j = 2 \/ j = 3 \/
            j = 4 \/ j = 5 \/ j = 6 \/ j = 7) as Hjs by lia.
    repeat (destruct Hjs as [->|Hjs]); try subst j; reflexivity.
Defined.

Lemma post_trigger_strictly_monotone_witness :
  post_trigger_of (bench_devc (SR_MHZ 50) 0 0) + 2
  <= post_trigger_of (set_capture_ratio 51 (bench_devc (SR_MHZ 50) 0 0)) /\
  0 <= post_trigger_of (bench_devc (SR_MHZ 50) 0 0) /\
  post_trigger_of (set_capture_ratio 51 (bench_devc (SR_MHZ 50) 0 0)) <= 255.
Proof.
  apply post_trigger_strictly_monotone; cbn; lia.
Defined.

Lemma clock_divider_round_trip_witness :
  exists sdi' ops,
    dev_acquisition_start (bench_sdi true (bench_devc (SR_MHZ 25) 0 0))
    = Some (SR_OK, sdi') /\
    hw sdi' = [] ++ ops /\
    register_writes WRITE_CLOCK_SELECT ops = [[0; 2 - 1; 0; 0]].
Proof.
  apply (clock_divider_round_trip (P := bench true)
           (bench_sdi true (bench_devc (SR_MHZ 25) 0 0)) 2).
  - repeat split.
  - lia.
  - reflexivity.
Defined.

(** An unknown key and a new sample rate on an idle device. *)
Lemma config_set_confined_witness :
  let sdi := bench_sdi true (bench_devc (SR_MHZ 50) 0 0) in
  (config_set SR_CONF_CONN 7 sdi).2 = sdi /\
  capture_ratio (priv (config_set SR_CONF_SAMPLERATE 1000000 sdi).2)
  = capture_ratio (priv sdi).
Proof.
  intros sdi. split.
  - destruct (config_set_confined (P := bench true) SR_CONF_CONN 7 sdi)
      as (_ & _ & _ & _ & Hfail & _).
    apply Hfail; discriminate.
  - destruct (config_set_confined (P := bench true) SR_CONF_SAMPLERATE
                1000000 sdi) as (_ & _ & _ & _ & _ & _ & Hratio).
    apply Hratio. discriminate.
Defined.


(** A start on a device whose acquisition time-out cannot be set, at
    the rate 0. *)
Lemma dev_acquisition_start_status_witness :
  let sdi : sr_dev_inst (P := bench_timeout_fails) :=
    {| priv := bench_devc 0 0 0; session := ∅; hw := [] |} in
  exists sdi', dev_acquisition_start sdi = Some (SR_ERR_IO, sdi').
Proof.
  intros sdi.
  destruct (dev_acquisition_start_status (P := bench_timeout_fails) sdi)
    as (_ & Htimeout & _).
  apply Htimeout; [reflexivity|discriminate].
Defined.

(** Two stops of a capturing device, and of an idle one. *)
Lemma dev_acquisition_stop_twice_witness :
  let capturing :=
    bench_sdi true (set_state SIGMA_CAPTURE (bench_devc (SR_MHZ 50) 0 0)) in
  let idle := bench_sdi true (bench_devc (SR_MHZ 50) 0 0) in
  state (priv (dev_acquisition_stop (dev_acquisition_stop capturing).2).2)
  = SIGMA_IDLE /\
  (dev_acquisition_stop (dev_acquisition_stop idle).2).2
  = (dev_acquisition_stop idle).2.
Proof.
  intros capturing idle. split.
  - destruct (dev_acquisition_stop_twice (P := bench true) capturing)
      as (Hidle & _).
    exact Hidle.
  - destruct (dev_acquisition_stop_twice (P := bench true) idle)
      as (_ & _ & _ & Hsame).
    apply Hsame. discriminate.
Defined.

End SigmaMore.

(** ** Further properties of the command-set driver *)

Module DmmMore.
Import Dmm.

(** Decides a closed decidable proposition by evaluation. *)
Ltac evaluate :=
  lazymatch goal with
  | |- ?Q => apply (bool_decide_eq_true_1 Q); vm_compute; reflexivity
  end.

(** *** The model table *)

Lemma is_compatible_from_sound (table : list scpi_dmm_model)
    (v n : string) (m : scpi_dmm_model) :
  is_compatible_from table v n = Some m ->
  m ∈ table /\ vendor m = v /\ model_name m = n.
Proof.
  induction table as [|entry table IH]; cbn; [discriminate|].
  repeat case_decide.
  - intros [= <-]. split; [left|auto].
  - intros Hm. destruct (IH Hm) as (? & ? & ?). split; [now right|auto].
  - intros Hm. destruct (IH Hm) as (? & ? & ?). split; [now right|auto].
Qed.

Lemma is_compatible_from_none (table : list scpi_dmm_model) (v n : string) :
  is_compatible_from table v n = None <->
  forall m, m ∈ table -> ~ (vendor m = v /\ model_name m = n).
Proof.
  induction table as [|entry table IH]; cbn.
  - split; [intros _ m Hm; inversion Hm|reflexivity].
  - repeat case_decide.
    + split; [discriminate|]. intros Hno. exfalso.
      apply (Hno entry); [left|auto].
    + rewrite IH. split.
      * intros Hno m Hm. apply elem_of_cons in Hm as [->|Hm]; [|auto].
        intros [? ?]. congruence.
      * intros Hno m Hm. apply Hno. now right.
    + rewrite IH. split.
      * intros Hno m Hm. apply elem_of_cons in Hm as [->|Hm]; [|auto].
        intros [? ?]. congruence.
      * intros Hno m Hm. apply Hno. now right.
Qed.

(** X13.  [is_compatible] answers with a row of the model table that has
    exactly the vendor and model asked for, answers "none" only when no
    row has them, and finds every row of the table under the row's own
    vendor and model: no row is shadowed by an earlier one. *)
Theorem is_compatible_finds_every_model :
  (forall v n m, is_compatible v n = Some m ->
     m ∈ models /\ vendor m = v /\ model_name m = n) /\
  (forall v n, is_compatible v n = None <->
     forall m, m ∈ models -> ~ (vendor m = v /\ model_name m = n)) /\
  Forall (fun m => is_compatible (vendor m) (model_name m) = Some m) models.
Proof.
  split; [intros v n m; apply is_compatible_from_sound|].
  split; [intros v n; apply is_compatible_from_none|].
  repeat (constructor; [vm_compute; reflexivity|]). constructor.
Qed.

Lemma models_setup_local :
  Forall (fun m =>
    usable (sr_scpi_cmd_get (cmdset m) DMM_CMD_SETUP_LOCAL) = None \/
    usable (sr_scpi_cmd_get (cmdset m) DMM_CMD_SETUP_LOCAL) = Some "SYST:LOC")
    models.
Proof.
  repeat (constructor; [vm_compute; auto|]). constructor.
Qed.

Lemma models_one_channel :
  Forall (fun m => num_channels m = 1) models.
Proof. repeat (constructor; [reflexivity|]). constructor. Qed.

Section Probe.
Context {E : environment}.

Lemma times_sent_send (c c' : string) (scpi : sr_scpi_dev_inst) :
  times_sent c (sr_scpi_send c' scpi)
  = (times_sent c scpi + if decide (c' = c) then 1 else 0)%nat.
Proof.
  unfold times_sent, sr_scpi_send. cbn [sent].
  rewrite filter_app, length_app. f_equal.
  rewrite filter_cons, filter_nil. case_decide; reflexivity.
Qed.

(** X14.  The probe hands the set-to-local command to the device at most
    once, as its last transfer, and only for a device it recognises.
    It returns no instance exactly when the identity query fails or the
    model table has no row for the answer, and then no set-to-local
    command has gone out.  For a recognised model whose command table
    has the command - it is "SYST:LOC" in every table - the command has
    gone out exactly once and is the last entry of the log; for a
    recognised model without it, none has gone out.  The probe never
    clears the no-OPC flag, and sets it exactly when the
    operation-complete query got no answer.  (The log is read for the
    set-to-local command only; the two queries of the probe are not
    part of this statement.) *)
Theorem probe_device_local_once (scpi : sr_scpi_dev_inst) :
  ((probe_device scpi).2 = None <->
     (sr_scpi_get_hw_id (opc_probed scpi)).1 <> SR_OK \/
     is_compatible
       (sr_vendor_alias (manufacturer (sr_scpi_get_hw_id (opc_probed scpi)).2))
       (hw_model (sr_scpi_get_hw_id (opc_probed scpi)).2) = None) /\
  ((probe_device scpi).2 = None ->
     times_sent "SYST:LOC" (probe_device scpi).1
     = times_sent "SYST:LOC" scpi) /\
  (forall sdi, (probe_device scpi).2 = Some sdi ->
     match usable (sr_scpi_cmd_get (cmdset (devc_model (priv sdi)))
                     DMM_CMD_SETUP_LOCAL) with
     | Some c =>
         c = "SYST:LOC" /\
         times_sent c (probe_device scpi).1 = S (times_sent c scpi) /\
         last (sent (probe_device scpi).1) = Some c
     | None =>
         times_sent "SYST:LOC" (probe_device scpi).1
         = times_sent "SYST:LOC" scpi
     end) /\
  no_opc_command (probe_device scpi).1
  = no_opc_command scpi || negb (probe_opc_support scpi) /\
  source_key (probe_device scpi).1 = source_key scpi.
Proof.
  assert (sent (opc_probed scpi) = sent scpi /\
          source_key (opc_probed scpi) = source_key scpi /\
          no_opc_command (opc_probed scpi)
          = no_opc_command scpi || negb (probe_opc_support scpi))
    as (Hsent & Hkey & Hopc).
  { unfold opc_probed. destruct (probe_opc_support scpi); cbn;
      rewrite ?orb_false_r, ?orb_true_r; auto. }
  assert (forall c, times_sent c (opc_probed scpi) = times_sent c scpi)
    as Htimes by (intros c; unfold times_sent; now rewrite Hsent).
  unfold probe_device.
  destruct (sr_scpi_get_hw_id (opc_probed scpi)) as [ret hw_info].
  cbn [fst snd].
  case_decide as Hret.
  { cbn [fst snd].
    split; [split; [intros _; left; exact Hret|reflexivity]|].
    split; [intros _; apply Htimes|].
    split; [discriminate|]. split; assumption. }
  destruct (is_compatible _ _) as [m|] eqn:Hm.
  2:{ cbn [fst snd].
      split; [split; [intros _; right; reflexivity|reflexivity]|].
      split; [intros _; apply Htimes|].
      split; [discriminate|]. split; assumption. }
  destruct (is_compatible_from_sound _ _ _ _ Hm) as (Hin & _ & _).
  pose proof models_setup_local as Hlocal.
  rewrite Forall_forall in Hlocal. specialize (Hlocal m Hin).
  destruct (sr_scpi_connection_id (opc_probed scpi)) as [r id].
  cbn [devc_cmdset].
  set (timed := if decide (read_timeout_us m ≠ 0)
                then set_read_timeout_us (read_timeout_us m) (opc_probed scpi)
                else opc_probed scpi).
  assert (sent timed = sent scpi /\
          no_opc_command timed
          = no_opc_command scpi || negb (probe_opc_support scpi) /\
          source_key timed = source_key scpi) as (Hs & Ho & Hk).
  { unfold timed. case_decide; cbn [sent no_opc_command source_key
      set_read_timeout_us]; auto. }
  assert (forall c, times_sent c timed = times_sent c scpi) as Ht
    by (intros c; unfold times_sent; now rewrite Hs).
  clearbody timed.
  destruct Hlocal as [Hl | Hl]; rewrite Hl; cbn [fst snd].
  - split; [split; [discriminate|intros [?|?]; [tauto|discriminate]]|].
    split; [discriminate|].
    split; [|split; assumption].
    intros sdi [= <-]. cbn [priv devc_model]. rewrite Hl. apply Ht.
  - split; [split; [discriminate|intros [?|?]; [tauto|discriminate]]|].
    split; [discriminate|].
    split; [|split; assumption].
    intros sdi [= <-]. cbn [priv devc_model]. rewrite Hl.
    split; [reflexivity|].
    split; [rewrite times_sent_send, Ht; case_decide; [lia|congruence]|].
    cbn [sent sr_scpi_send]. apply last_snoc.
Qed.

(** X15.  A device instance the probe returns is of a model of the model
    table and carries that model's command table; its vendor and model
    texts are the ones the device answered with; it has the one channel
    P1 and the probed connection; the connection's read timeout is the
    model's where the model has one and is unchanged otherwise.  Closing
    such an instance before anything has opened it reports success and
    neither sends a command nor closes the connection. *)
Theorem probe_device_instance (scpi scpi' : sr_scpi_dev_inst)
    (sdi : sr_dev_inst) :
  probe_device scpi = (scpi', Some sdi) ->
  devc_model (priv sdi) ∈ models /\
  devc_cmdset (priv sdi) = cmdset (devc_model (priv sdi)) /\
  vendor (devc_model (priv sdi)) = sr_vendor_alias (sdi_vendor sdi) /\
  model_name (devc_model (priv sdi)) = sdi_model sdi /\
  sr_scpi_get_hw_id (opc_probed scpi)
  = (SR_OK, {| manufacturer := sdi_vendor sdi; hw_model := sdi_model sdi;
               firmware_version := version sdi;
               serial_number := serial_num sdi |}) /\
  channels sdi = [(0, "P1")] /\
  conn sdi = Some scpi' /\
  scpi_read_timeout_us scpi'
  = (if decide (read_timeout_us (devc_model (priv sdi)) = 0)
     then scpi_read_timeout_us scpi
     else read_timeout_us (devc_model (priv sdi))) /\
  dev_close sdi = (SR_OK, sdi).
Proof.
  unfold probe_device.
  destruct (sr_scpi_get_hw_id (opc_probed scpi)) as [ret hw_info].
  case_decide as Hret; [discriminate|].
  assert (ret = SR_OK) as -> by (destruct (decide (ret = SR_OK)); tauto).
  destruct (is_compatible _ _) as [m|] eqn:Hm; [|discriminate].
  destruct (is_compatible_from_sound _ _ _ _ Hm) as (Hin & Hv & Hn).
  pose proof models_one_channel as Hone.
  rewrite Forall_forall in Hone. specialize (Hone m Hin).
  destruct (sr_scpi_connection_id (opc_probed scpi)) as [r id].
  intros [= <- <-]. cbn.
  split; [exact Hin|]. split; [reflexivity|].
  split; [exact Hv|]. split; [exact Hn|].
  split; [destruct hw_info; reflexivity|].
  split; [rewrite Hone; reflexivity|]. split; [reflexivity|].
  split; [|reflexivity].
  assert (scpi_read_timeout_us (opc_probed scpi) = scpi_read_timeout_us scpi)
    as Hto by (unfold opc_probed; destruct (probe_opc_support scpi); auto).
  destruct (usable _); cbn; repeat case_decide; cbn; congruence.
Qed.

End Probe.

Section Acquisition.
Context {E : environment}.

Lemma start_feed_and_source_session (scpi : sr_scpi_dev_inst)
    (sdi : sr_dev_inst) :
  ((start_feed_and_source scpi sdi).1 <> SR_OK ->
     session (start_feed_and_source scpi sdi).2 = session sdi) /\
  ((start_feed_and_source scpi sdi).1 = SR_OK ->
     session (start_feed_and_source scpi sdi).2
     = <[source_key scpi := scpi_dmm_receive_data]> (session sdi) /\
     datafeed (start_feed_and_source scpi sdi).2
     = datafeed sdi ++ [SR_DF_HEADER]) /\
  conn (start_feed_and_source scpi sdi).2 = conn sdi /\
  limits_started (priv (start_feed_and_source scpi sdi).2) = true /\
  precision (priv (start_feed_and_source scpi sdi).2) = precision (priv sdi) /\
  start_acq_mq (priv (start_feed_and_source scpi sdi).2)
  = start_acq_mq (priv sdi).
Proof.
  unfold start_feed_and_source.
  repeat case_decide; cbn; repeat split; auto; congruence.
Qed.

Lemma sr_scpi_send_key (c : string) (scpi : sr_scpi_dev_inst) :
  source_key (sr_scpi_send c scpi) = source_key scpi.
Proof. reflexivity. Qed.

(** The connection the start works on once the precision query is
    through. *)
Lemma dev_acquisition_start_shape (sdi : sr_dev_inst)
    (scpi : sr_scpi_dev_inst) (ret : sr_error_code) (sdi' : sr_dev_inst) :
  conn sdi = Some scpi ->
  dev_acquisition_start sdi = Some (ret, sdi') ->
  (ret <> SR_OK -> session sdi' = session sdi) /\
  (ret = SR_OK ->
     session sdi'
     = <[source_key scpi := scpi_dmm_receive_data]> (session sdi) /\
     datafeed sdi' = datafeed sdi ++ [SR_DF_HEADER] /\
     limits_started (priv sdi') = true /\
     exists scpi', conn sdi' = Some scpi' /\
       source_key scpi' = source_key scpi).
Proof.
  intros Hconn. unfold dev_acquisition_start. rewrite Hconn.
  destruct (scpi_dmm_get_mq sdi) as [[r q] f]. cbv beta iota.
  case_decide; [intros Heq; simplify_eq; split; [auto|congruence]|].
  set (devc := set_start_acq_mq q f (priv sdi)).
  assert (exists scpi1 devc1,
            match usable (sr_scpi_cmd_get (devc_cmdset devc) DMM_CMD_QUERY_PREC)
            with
            | Some command_ =>
                let '(ret0, response) := sr_scpi_get_string scpi command_ in
                (sr_scpi_send command_ scpi,
                 if decide (ret0 = SR_OK)
                 then set_precision (Some (g_strstrip response)) devc
                 else devc)
            | None => (scpi, devc)
            end = (scpi1, devc1) /\
            source_key scpi1 = source_key scpi /\
            devc_cmdset devc1 = devc_cmdset devc) as (scpi1 & devc1 & -> & Hk & Hc).
  { destruct (usable _) as [c|]; [|eauto].
    destruct (sr_scpi_get_string scpi c) as [r0 resp].
    eexists _, _. split; [reflexivity|]. split; [reflexivity|].
    case_decide; reflexivity. }
  set (s1 := with_conn scpi1 (with_priv devc1 sdi)).
  assert (session s1 = session sdi /\ datafeed s1 = datafeed sdi)
    as [Hs1 Hd1] by (split; reflexivity).
  destruct (usable (sr_scpi_cmd_get (devc_cmdset devc1) DMM_CMD_START_ACQ))
    as [c|].
  - case_decide.
    + intros Heq; simplify_eq. split; [auto|congruence].
    + set (s2 := with_conn (sr_scpi_send c scpi1) s1).
      destruct (start_feed_and_source_session (sr_scpi_send c scpi1) s2)
        as (Hfail & Hok & Hcn & Hl & _).
      intros [= Heq].
      assert ((start_feed_and_source (sr_scpi_send c scpi1) s2).1 = ret) as Hr
        by (rewrite Heq; reflexivity).
      assert ((start_feed_and_source (sr_scpi_send c scpi1) s2).2 = sdi') as Hs
        by (rewrite Heq; reflexivity).
      rewrite <- Hr, <- Hs.
      split; [intros Hne; rewrite (Hfail Hne); reflexivity|].
      intros Hre. destruct (Hok Hre) as [Hses Hfeed].
      rewrite Hses, Hfeed, Hl, Hcn, sr_scpi_send_key, Hk.
      repeat split. cbn. eexists. split; [reflexivity|].
      now rewrite sr_scpi_send_key.
  - destruct (start_feed_and_source_session scpi1 s1)
      as (Hfail & Hok & Hcn & Hl & _).
    intros [= Heq].
    assert ((start_feed_and_source scpi1 s1).1 = ret) as Hr
      by (rewrite Heq; reflexivity).
    assert ((start_feed_and_source scpi1 s1).2 = sdi') as Hs
      by (rewrite Heq; reflexivity).
    rewrite <- Hr, <- Hs.
    split; [intros Hne; rewrite (Hfail Hne); exact Hs1|].
    intros Hre. destruct (Hok Hre) as [Hses Hfeed].
    rewrite Hses, Hfeed, Hl, Hcn, Hk, Hs1, Hd1.
    repeat split. cbn. eauto.
Qed.

(** X16.  A start of the multimeter acquisition that does not return
    [SR_OK] leaves the session's event sources as they were: no callback
    is registered.  A start that returns [SR_OK] has registered the
    receive callback under the connection's key, put the header on the
    data feed and started the software limits. *)
Theorem dmm_start_registers_on_success_only (sdi : sr_dev_inst)
    (scpi : sr_scpi_dev_inst) (ret : sr_error_code) (sdi' : sr_dev_inst) :
  conn sdi = Some scpi ->
  dev_acquisition_start sdi = Some (ret, sdi') ->
  (ret <> SR_OK -> session sdi' = session sdi) /\
  (ret = SR_OK ->
     session sdi' !! source_key scpi = Some scpi_dmm_receive_data /\
     (forall k, k <> source_key scpi -> session sdi' !! k = session sdi !! k) /\
     datafeed sdi' = datafeed sdi ++ [SR_DF_HEADER] /\
     limits_started (priv sdi') = true).
Proof.
  intros Hconn Hrun.
  destruct (dev_acquisition_start_shape sdi scpi ret sdi' Hconn Hrun)
    as [Hfail Hok].
  split; [exact Hfail|].
  intros Hr. destruct (Hok Hr) as (Hs & Hf & Hl & _).
  rewrite Hs. repeat split; auto.
  - apply lookup_insert_eq.
  - intros k Hk. now apply lookup_insert_ne.
Qed.

(** X17.  The precision query is best effort.  With the quantity read
    and with sends, header and source registration succeeding, the start
    returns [SR_OK] whatever the precision query returns; the cached
    precision is the stripped answer when the query succeeds and is left
    as it was when the query fails or the command table has none. *)
Theorem dmm_start_tolerates_precision_failure (sdi : sr_dev_inst)
    (scpi : sr_scpi_dev_inst) (q : sr_mq) (f : sr_mqflag) :
  conn sdi = Some scpi ->
  scpi_dmm_get_mq sdi = (SR_OK, q, f) ->
  (forall s c, sr_scpi_send_status s c = SR_OK) ->
  (forall s, std_session_send_df_header_status s = SR_OK) ->
  (forall s, sr_scpi_source_add_status s = SR_OK) ->
  exists sdi',
    dev_acquisition_start sdi = Some (SR_OK, sdi') /\
    start_acq_mq (priv sdi') = Some (q, f) /\
    precision (priv sdi')
    = match usable (sr_scpi_cmd_get (devc_cmdset (priv sdi)) DMM_CMD_QUERY_PREC)
      with
      | Some command_ =>
          if decide ((sr_scpi_get_string scpi command_).1 = SR_OK)
          then Some (g_strstrip (sr_scpi_get_string scpi command_).2)
          else precision (priv sdi)
      | None => precision (priv sdi)
      end.
Proof.
  intros Hconn Hmq Hsend Hhead Hsrc.
  assert (forall scpi0 s, start_feed_and_source scpi0 s
          = (SR_OK, (start_feed_and_source scpi0 s).2)) as Htail.
  { intros scpi0 s. unfold start_feed_and_source.
    rewrite Hhead, Hsrc. reflexivity. }
  unfold dev_acquisition_start. rewrite Hconn, Hmq. cbn [fst snd].
  case_decide; [congruence|].
  cbn [devc_cmdset set_start_acq_mq].
  destruct (usable (sr_scpi_cmd_get (devc_cmdset (priv sdi)) DMM_CMD_QUERY_PREC))
    as [c|].
  - destruct (sr_scpi_get_string scpi c) as [r resp]. cbn [fst snd].
    assert (devc_cmdset (if decide (r = SR_OK)
                         then set_precision (Some (g_strstrip resp))
                                (set_start_acq_mq q f (priv sdi))
                         else set_start_acq_mq q f (priv sdi))
            = devc_cmdset (priv sdi)) as -> by (case_decide; reflexivity).
    destruct (usable _) as [c'|].
    + rewrite Hsend. case_decide; [congruence|].
      rewrite Htail. eexists. split; [reflexivity|].
      destruct (start_feed_and_source_session
                  (sr_scpi_send c' (sr_scpi_send c scpi))
                  (with_conn (sr_scpi_send c' (sr_scpi_send c scpi))
                     (with_conn (sr_scpi_send c scpi)
                        (with_priv
                           (if decide (r = SR_OK)
                            then set_precision (Some (g_strstrip resp))
                                   (set_start_acq_mq q f (priv sdi))
                            else set_start_acq_mq q f (priv sdi)) sdi))))
        as (_ & _ & _ & _ & -> & ->).
      cbn. case_decide; auto.
    + rewrite Htail. eexists. split; [reflexivity|].
      destruct (start_feed_and_source_session (sr_scpi_send c scpi)
                  (with_conn (sr_scpi_send c scpi)
                     (with_priv
                        (if decide (r = SR_OK)
                         then set_precision (Some (g_strstrip resp))
                                (set_start_acq_mq q f (priv sdi))
                         else set_start_acq_mq q f (priv sdi)) sdi)))
        as (_ & _ & _ & _ & -> & ->).
      cbn. case_decide; auto.
  - cbn [devc_cmdset set_start_acq_mq].
    destruct (usable _) as [c'|].
    + rewrite Hsend. case_decide; [congruence|].
      rewrite Htail. eexists. split; [reflexivity|].
      destruct (start_feed_and_source_session (sr_scpi_send c' scpi)
                  (with_conn (sr_scpi_send c' scpi)
                     (with_conn scpi
                        (with_priv (set_start_acq_mq q f (priv sdi)) sdi))))
        as (_ & _ & _ & _ & -> & ->).
      cbn. auto.
    + rewrite Htail. eexists. split; [reflexivity|].
      destruct (start_feed_and_source_session scpi
                  (with_conn scpi
                     (with_priv (set_start_acq_mq q f (priv sdi)) sdi)))
        as (_ & _ & _ & _ & -> & ->).
      cbn. auto.
Qed.

(** X18.  A stop after a start that succeeded always returns [SR_OK].
    It leaves the session without the connection's event source, the
    data feed with exactly a header and an end marker added, in this
    order, and the cached precision released. *)
Theorem dmm_start_stop_bracket (sdi sdi1 : sr_dev_inst)
    (scpi : sr_scpi_dev_inst) :
  conn sdi = Some scpi ->
  dev_acquisition_start sdi = Some (SR_OK, sdi1) ->
  exists sdi2,
    dev_acquisition_stop sdi1 = Some (SR_OK, sdi2) /\
    session sdi2 = delete (source_key scpi) (session sdi) /\
    session sdi2 !! source_key scpi = None /\
    datafeed sdi2 = datafeed sdi ++ [SR_DF_HEADER; SR_DF_END] /\
    precision (priv sdi2) = None.
Proof.
  intros Hconn Hrun.
  destruct (dev_acquisition_start_shape sdi scpi SR_OK sdi1 Hconn Hrun)
    as [_ Hok].
  destruct (Hok eq_refl) as (Hs & Hf & _ & scpi1 & Hc1 & Hk1).
  unfold dev_acquisition_stop. rewrite Hc1.
  eexists. split; [reflexivity|].
  cbn [session datafeed priv precision with_priv with_session feed with_conn
       set_precision].
  assert (source_key (match usable (sr_scpi_cmd_get (devc_cmdset (priv sdi1))
                                      DMM_CMD_STOP_ACQ) with
                      | Some command_ => sr_scpi_send command_ scpi1
                      | None => scpi1
                      end) = source_key scpi) as ->
    by (destruct (usable _); cbn; exact Hk1).
  unfold sr_session_source_remove. rewrite Hs, Hf, delete_insert_eq.
  repeat split.
  - apply lookup_delete_eq.
  - now rewrite <- app_assoc.
Qed.

End Acquisition.

(** *** Ranges and NPLC *)

Lemma fixed_range_listed (opts : list scpi_dmm_rangeopts) (q : sr_mq)
    (f : sr_mqflag) (l : string) :
  fixed_range opts q f = Some l -> l ∈ range_labels opts q f.
Proof.
  induction opts as [|o opts IH]; cbn; [discriminate|].
  destruct (bool_decide (range_mq o = q) && bool_decide (range_mqflag o = f));
    cbn.
  - destruct (bool_decide (scpi_range o = ""));
      [intros [= <-]; left|intros Hl; right; auto].
  - auto.
Qed.

Lemma match_range_listed (opts : list scpi_dmm_rangeopts) (q : sr_mq)
    (f : sr_mqflag) (reply : option string) (l : string) :
  match_range opts q f reply = Some l -> l ∈ range_labels opts q f.
Proof.
  induction opts as [|o opts IH]; cbn; [discriminate|].
  destruct (bool_decide (range_mq o = q) && bool_decide (range_mqflag o = f));
    cbn.
  - destruct (bool_decide (Some (scpi_range o) = reply));
      [intros [= <-]; left|intros Hl; right; auto].
  - auto.
Qed.

Lemma range_token_spec (opts : list scpi_dmm_rangeopts) (q : sr_mq)
    (f : sr_mqflag) (l : string) :
  (l ∈ range_labels opts q f ->
     exists o, o ∈ opts /\ range_mq o = q /\ range_mqflag o = f /\
       range_str o = l /\
       range_token opts q f l = request_range (scpi_range o)) /\
  (l ∉ range_labels opts q f -> range_token opts q f l = request_none).
Proof.
  induction opts as [|o opts [IHin IHout]]; cbn.
  - split; [intros Hin; inversion Hin|reflexivity].
  - destruct (bool_decide_reflect (range_mq o = q)) as [Hq|Hq];
      destruct (bool_decide_reflect (range_mqflag o = f)) as [Hf|Hf]; cbn.
    2-4: split;
      [intros Hin; destruct (IHin Hin) as (o' & Ho' & Hrest);
       exists o'; split; [now right|exact Hrest]
      |exact IHout].
    destruct (bool_decide_reflect (range_str o = l)) as [Hl|Hl].
    + split; [|intros Hout; exfalso; apply Hout; rewrite Hl; left].
      intros _. exists o. repeat split; auto. left.
    + split.
      * intros Hin. apply elem_of_cons in Hin as [Heq|Hin]; [congruence|].
        destruct (IHin Hin) as (o' & Ho' & Hrest).
        exists o'. split; [now right|exact Hrest].
      * intros Hout. apply IHout. intros Hin. apply Hout. now right.
Qed.

Lemma match_range_none (opts : list scpi_dmm_rangeopts) (q : sr_mq)
    (f : sr_mqflag) (reply : option string) :
  match_range opts q f reply = None ->
  forall o, o ∈ opts -> range_mq o = q -> range_mqflag o = f ->
    Some (scpi_range o) <> reply.
Proof.
  induction opts as [|o' opts IH]; cbn; intros Hnone o Hin Hq Hf.
  - inversion Hin.
  - destruct (bool_decide_reflect (range_mq o' = q)) as [Hq'|Hq'];
      destruct (bool_decide_reflect (range_mqflag o' = f)) as [Hf'|Hf'];
      cbn in Hnone;
      try (apply elem_of_cons in Hin as [->|Hin];
           [congruence|now apply IH]).
    destruct (bool_decide_reflect (Some (scpi_range o') = reply))
      as [Hr|Hr]; [discriminate|].
    apply elem_of_cons in Hin as [->|Hin]; [exact Hr|now apply IH].
Qed.

(** The two directions of the range lookup on the rows of the model
    table: the label of a row leads to the row's wire token, and the
    row's wire token leads back to the row's label. *)
Lemma models_range_rows :
  Forall (fun m =>
    Forall (fun o =>
      (range_str o <> "Auto" ->
         range_token (rangeopts m) (range_mq o) (range_mqflag o) (range_str o)
         = request_range (scpi_range o)) /\
      (scpi_range o <> "" ->
         fixed_range (rangeopts m) (range_mq o) (range_mqflag o) = None /\
         match_range (rangeopts m) (range_mq o) (range_mqflag o)
           (Some (scpi_range o)) = Some (range_str o)) /\
      (scpi_range o = "" ->
         fixed_range (rangeopts m) (range_mq o) (range_mqflag o)
         = Some (range_str o)))
      (rangeopts m)) models.
Proof. evaluate. Qed.

Section Config.
Context {E : environment} {C : protocol_c}.

(** X19.  Reading the range against listing the ranges, for every way
    the read can end.  An error status of the read is never [SR_OK].
    A label the read takes from the range table is among the labels
    the listing offers for the same device.  The only other way the
    read returns [SR_OK] is with the label built from [range_str] while
    nothing has assigned it: then the quantity query and the range
    queries have succeeded, the listing succeeds as well, and what the
    meter answered - the auto-range answer or, with none, the answer to
    the range query, a null string included - is the token of no row of
    the current quantity.  In that run nothing relates the label to the
    listed ones. *)
Theorem range_read_listed_or_unassigned (sdi : sr_dev_inst) :
  match config_get SR_CONF_RANGE sdi with
  | reply_error ret => ret <> SR_OK
  | reply_data v =>
      exists l ls, v = gv_string l /\
        config_list SR_CONF_RANGE (Some sdi) = list_range ls /\ l ∈ ls
  | reply_uninitialised =>
      exists q f ls reply,
        scpi_dmm_get_mq sdi = (SR_OK, q, f) /\
        config_list SR_CONF_RANGE (Some sdi) = list_range ls /\
        ((scpi_dmm_get_range_auto sdi q f = (SR_OK, reply) /\
          reply <> None) \/
         (scpi_dmm_get_range_auto sdi q f = (SR_OK, None) /\
          scpi_dmm_get_range sdi q f = (SR_OK, reply))) /\
        forall o, o ∈ rangeopts (devc_model (priv sdi)) ->
          range_mq o = q -> range_mqflag o = f ->
          Some (scpi_range o) <> reply
  end.
Proof.
  unfold config_get, config_list, config_get_range.
  destruct (scpi_dmm_get_mq sdi) as [[ret q] f]. cbv beta iota.
  case_decide as Hmq; [exact Hmq|].
  assert (ret = SR_OK) as -> by (destruct (decide (ret = SR_OK)); tauto).
  destruct (fixed_range _ q f) as [l0|] eqn:Hfixed.
  { exists l0. eexists. split; [reflexivity|]. split; [reflexivity|].
    now apply fixed_range_listed. }
  destruct (scpi_dmm_get_range_auto sdi q f) as [r1 auto_reply] eqn:Hauto.
  case_decide as Hr1; [exact Hr1|].
  assert (r1 = SR_OK) as -> by (destruct (decide (r1 = SR_OK)); tauto).
  destruct auto_reply as [a|].
  - case_decide; [congruence|].
    destruct (match_range _ q f (Some a)) as [l0|] eqn:Hmatch.
    + exists l0. eexists. split; [reflexivity|]. split; [reflexivity|].
      now apply (match_range_listed _ _ _ (Some a)).
    + exists q, f. eexists. exists (Some a).
      split; [reflexivity|]. split; [reflexivity|].
      split; [left; split; [exact Hauto|discriminate]|].
      now apply match_range_none.
  - destruct (scpi_dmm_get_range sdi q f) as [r2 reply] eqn:Hrange.
    case_decide as Hr2; [exact Hr2|].
    assert (r2 = SR_OK) as -> by (destruct (decide (r2 = SR_OK)); tauto).
    destruct (match_range _ q f reply) as [l0|] eqn:Hmatch.
    + exists l0. eexists. split; [reflexivity|]. split; [reflexivity|].
      now apply (match_range_listed _ _ _ reply).
    + exists q, f. eexists. exists reply.
      split; [reflexivity|]. split; [reflexivity|].
      split; [right; split; [exact Hauto|exact Hrange]|].
      now apply match_range_none.
Qed.

(** X20.  Every label that listing the ranges offers can be set: the set
    either asks for auto-range, for the label "Auto", or sends the wire
    token of a row of the current quantity that carries the label, and
    its status is the status of that protocol call.  A label that is not
    listed and is not "Auto" is refused with [SR_ERR_NA] without any
    protocol call. *)
Theorem listed_range_is_settable (sdi : sr_dev_inst) (q : sr_mq)
    (f : sr_mqflag) (l : string) :
  scpi_dmm_get_mq sdi = (SR_OK, q, f) ->
  config_list SR_CONF_RANGE (Some sdi)
  = list_range (range_labels (rangeopts (devc_model (priv sdi))) q f) /\
  (l ∈ range_labels (rangeopts (devc_model (priv sdi))) q f ->
     (l = "Auto" /\
      config_set_range l sdi = scpi_dmm_set_range_auto sdi q f) \/
     (exists o, o ∈ rangeopts (devc_model (priv sdi)) /\
        range_mq o = q /\ range_mqflag o = f /\ range_str o = l /\
        config_set_range l sdi = scpi_dmm_set_range sdi q f (scpi_range o))) /\
  (l ∉ range_labels (rangeopts (devc_model (priv sdi))) q f ->
     l <> "Auto" -> config_set_range l sdi = SR_ERR_NA).
Proof.
  intros Hmq.
  destruct (range_token_spec (rangeopts (devc_model (priv sdi))) q f l)
    as [Hin Hout].
  unfold config_list, config_set_range, range_request_of. rewrite Hmq.
  cbv beta iota. case_decide; [congruence|].
  split; [reflexivity|]. split.
  - intros Hl. case_decide as Hauto; [left; auto|].
    right. destruct (Hin Hl) as (o & Ho & Hq & Hf & Hstr & Htok).
    exists o. rewrite Htok. auto.
  - intros Hl Hauto. case_decide; [contradiction|].
    now rewrite (Hout Hl).
Qed.

(** X21.  Range round trip on the model table.  For every row of a
    model's range table and the row's quantity as the current one:
    setting the row's label, unless it is "Auto", sends the row's wire
    token; and when the meter reports that token, from the auto-range
    query or, with no answer there, from the range query, reading the
    range returns the row's label.  For a row without wire token the
    label is returned without consulting the meter's range at all. *)
Theorem range_round_trip (sdi : sr_dev_inst) (o : scpi_dmm_rangeopts) :
  devc_model (priv sdi) ∈ models ->
  o ∈ rangeopts (devc_model (priv sdi)) ->
  scpi_dmm_get_mq sdi = (SR_OK, range_mq o, range_mqflag o) ->
  (range_str o <> "Auto" ->
     config_set_range (range_str o) sdi
     = scpi_dmm_set_range sdi (range_mq o) (range_mqflag o) (scpi_range o)) /\
  (scpi_range o <> "" ->
     scpi_dmm_get_range_auto sdi (range_mq o) (range_mqflag o)
       = (SR_OK, Some (scpi_range o)) \/
     (scpi_dmm_get_range_auto sdi (range_mq o) (range_mqflag o) = (SR_OK, None) /\
      scpi_dmm_get_range sdi (range_mq o) (range_mqflag o)
        = (SR_OK, Some (scpi_range o))) ->
     config_get SR_CONF_RANGE sdi = reply_data (gv_string (range_str o))) /\
  (scpi_range o = "" ->
     config_get SR_CONF_RANGE sdi = reply_data (gv_string (range_str o))).
Proof.
  intros Hm Ho Hmq.
  pose proof models_range_rows as Hall.
  rewrite Forall_forall in Hall. specialize (Hall _ Hm).
  rewrite Forall_forall in Hall. destruct (Hall _ Ho) as (Hset & Hget & Hfix).
  split; [|split].
  - intros Hauto. unfold config_set_range, range_request_of. rewrite Hmq.
    cbv beta iota. case_decide; [congruence|].
    case_decide; [contradiction|]. now rewrite (Hset Hauto).
  - intros Htok Hreply. destruct (Hget Htok) as [Hnofix Hmatch].
    unfold config_get, config_get_range. rewrite Hmq. cbv beta iota.
    case_decide; [congruence|]. rewrite Hnofix.
    destruct Hreply as [-> | [-> ->]]; cbv beta iota;
      repeat (case_decide; [congruence|]); now rewrite Hmatch.
  - intros Htok. unfold config_get, config_get_range. rewrite Hmq.
    cbv beta iota. case_decide; [congruence|]. now rewrite (Hfix Htok).
Qed.

Lemma get_nplc_checked_absent (opts : list scpi_dmm_nplcopts)
    (sdi : sr_dev_inst) (q : sr_mq) (f : sr_mqflag) :
  (forall o, In o opts -> ~ (nplc_mq o = q /\ nplc_mqflag o = f)) ->
  get_nplc_checked opts sdi q f = reply_error SR_ERR_NA.
Proof.
  induction opts as [|o opts IH]; intros Hno; [reflexivity|].
  cbn [get_nplc_checked].
  destruct (bool_decide_reflect (nplc_mq o = q)) as [Hq|Hq];
    destruct (bool_decide_reflect (nplc_mqflag o = f)) as [Hf|Hf]; cbn;
    try (apply IH; intros o' Ho'; apply Hno; now right).
  exfalso. apply (Hno o); [now left|auto].
Qed.

Lemma get_nplc_checked_row (opts : list scpi_dmm_nplcopts)
    (sdi : sr_dev_inst) (q : sr_mq) (f : sr_mqflag) :
  (exists o, In o opts /\ nplc_mq o = q /\ nplc_mqflag o = f) ->
  get_nplc_checked opts sdi q f
  = match (scpi_dmm_get_nplc sdi q f).2 with
    | Some nplc => reply_data (gv_double (double_of_float nplc))
    | None => reply_uninitialised
    end.
Proof.
  induction opts as [|o opts IH]; intros (o' & Hin & Hq' & Hf');
    [destruct Hin|].
  cbn [get_nplc_checked].
  destruct (bool_decide_reflect (nplc_mq o = q)) as [Hq|Hq];
    destruct (bool_decide_reflect (nplc_mqflag o = f)) as [Hf|Hf]; cbn;
    try reflexivity;
    (destruct Hin as [->|Hin]; [congruence|apply IH; eauto]).
Qed.

(** X22.  Reading NPLC is gated by the same table as setting it.  With a
    row for the current quantity the read answers [SR_OK] with whatever
    the protocol call left in the value - the status of that call is not
    looked at, so a failed query is not reported.  Without a row the
    read is refused with [SR_ERR_NA], and so is every set. *)
Theorem config_get_nplc_gate (sdi : sr_dev_inst) (q : sr_mq) (f : sr_mqflag) :
  scpi_dmm_get_mq sdi = (SR_OK, q, f) ->
  ((exists o, In o (nplcopts (devc_model (priv sdi))) /\
      nplc_mq o = q /\ nplc_mqflag o = f) ->
     config_get SR_CONF_ADC_POWERLINE_CYCLES sdi
     = match (scpi_dmm_get_nplc sdi q f).2 with
       | Some nplc => reply_data (gv_double (double_of_float nplc))
       | None => reply_uninitialised
       end) /\
  ((forall o, In o (nplcopts (devc_model (priv sdi))) ->
      ~ (nplc_mq o = q /\ nplc_mqflag o = f)) ->
     config_get SR_CONF_ADC_POWERLINE_CYCLES sdi = reply_error SR_ERR_NA /\
     forall data, config_set_nplc data sdi = SR_ERR_NA).
Proof.
  intros Hmq. unfold config_get, config_set_nplc. rewrite Hmq.
  cbv beta iota. case_decide; [congruence|].
  split.
  - apply get_nplc_checked_row.
  - intros Hno. split; [now apply get_nplc_checked_absent|].
    intros data. now apply DmmProps.set_nplc_checked_absent.
Qed.

End Config.

(** X23.  The tables of every model fit together.  A model offers the
    range key exactly when it has a range table, and the NPLC key
    exactly when it has an NPLC table; with a range table its command
    table has the four range commands, with an NPLC table the two NPLC
    commands, and with the averaging key the four averaging commands
    and averaging bounds with 1 <= min <= max.  Every model's command
    table has the commands to set and query the function and to query a
    value.  Range and NPLC rows only name (quantity, flag) pairs of the
    model's quantity table, and every NPLC row has min <= max. *)
Theorem model_tables_consistent :
  Forall (fun m =>
    (advertises SR_CONF_RANGE (devopts m) = true
     <-> length (rangeopts m) <> 0%nat) /\
    (advertises SR_CONF_ADC_POWERLINE_CYCLES (devopts m) = true
     <-> length (nplcopts m) <> 0%nat) /\
    (length (rangeopts m) <> 0%nat ->
       Forall (fun c => has_command m c = true)
         [DMM_CMD_QUERY_RANGE; DMM_CMD_QUERY_RANGE_AUTO;
          DMM_CMD_SETUP_RANGE; DMM_CMD_SETUP_RANGE_AUTO]) /\
    (length (nplcopts m) <> 0%nat ->
       Forall (fun c => has_command m c = true)
         [DMM_CMD_QUERY_NPLC; DMM_CMD_SETUP_NPLC]) /\
    (advertises SR_CONF_AVERAGING (devopts m) = true ->
       Forall (fun c => has_command m c = true)
         [DMM_CMD_QUERY_AVG; DMM_CMD_SETUP_AVG;
          DMM_CMD_QUERY_AVG_COUNT; DMM_CMD_SETUP_AVG_COUNT] /\
       1 <= avg_min m <= avg_max m) /\
    Forall (fun c => has_command m c = true)
      [DMM_CMD_SETUP_FUNC; DMM_CMD_QUERY_FUNC; DMM_CMD_QUERY_VALUE] /\
    Forall (fun o => (range_mq o, range_mqflag o) ∈ mq_keys (mqopts m))
      (rangeopts m) /\
    Forall (fun o => (nplc_mq o, nplc_mqflag o) ∈ mq_keys (mqopts m) /\
                     float_le (nplc_min o) (nplc_max o) = true)
      (nplcopts m)) models.
Proof. evaluate. Qed.

(** *** Witnesses *)

(** The probe of an Agilent 34405A. *)
Lemma probe_device_instance_witness :
  let agilent := bench (idn "Agilent" "34405A") SR_MQ_VOLTAGE SR_MQFLAG_DC
                   None None in
  exists scpi' sdi,
    probe_device (E := agilent) bench_scpi = (scpi', Some sdi) /\
    model_name (devc_model (priv sdi)) = "34405A" /\
    channels sdi = [(0, "P1")] /\
    dev_close (E := agilent) sdi = (SR_OK, sdi).
Proof.
  intros agilent.
  assert (exists scpi' sdi,
            probe_device (E := agilent) bench_scpi = (scpi', Some sdi))
    as (scpi' & sdi & Hp) by (do 2 eexists; vm_compute; reflexivity).
  exists scpi', sdi. split; [exact Hp|].
  destruct (probe_device_instance (E := agilent) _ _ _ Hp)
    as (_ & _ & _ & Hname & Hid & Hch & _ & _ & Hclose).
  split; [|split; assumption].
  rewrite Hname. apply (f_equal (fun p => hw_model p.2)) in Hid.
  symmetry. exact Hid.
Defined.

(** A start on an HP 34401A whose source registration fails, and one
    where everything succeeds. *)
Lemma dmm_start_registers_on_success_only_witness :
  let sdi := bench_sdi "HP" "34401A" in
  let broken := failing_bench (idn "HP" "34401A") SR_MQ_VOLTAGE SR_MQFLAG_DC
                  true true true true false in
  let sound := bench (idn "HP" "34401A") SR_MQ_VOLTAGE SR_MQFLAG_DC
                 None None in
  (exists sdi', dev_acquisition_start (E := broken) sdi
                = Some (SR_ERR_BUG, sdi') /\
     session sdi' = session sdi) /\
  (exists sdi', dev_acquisition_start (E := sound) sdi = Some (SR_OK, sdi') /\
     session sdi' !! source_key bench_scpi = Some scpi_dmm_receive_data /\
     datafeed sdi' = datafeed sdi ++ [SR_DF_HEADER]).
Proof.
  intros sdi broken sound. split.
  - assert (exists sdi', dev_acquisition_start (E := broken) sdi
                         = Some (SR_ERR_BUG, sdi'))
      as [sdi' Hs] by (eexists; vm_compute; reflexivity).
    exists sdi'. split; [exact Hs|].
    destruct (dmm_start_registers_on_success_only (E := broken)
                sdi bench_scpi SR_ERR_BUG sdi' eq_refl Hs) as [Hfail _].
    apply Hfail. discriminate.
  - assert (exists sdi', dev_acquisition_start (E := sound) sdi
                         = Some (SR_OK, sdi'))
      as [sdi' Hs] by (eexists; vm_compute; reflexivity).
    exists sdi'. split; [exact Hs|].
    destruct (dmm_start_registers_on_success_only (E := sound)
                sdi bench_scpi SR_OK sdi' eq_refl Hs) as [_ Hok].
    destruct (Hok eq_refl) as (Hsrc & _ & Hfeed & _).
    split; assumption.
Defined.

(** A start on an Agilent 34405A, which has a precision query, against
    a meter whose queries fail. *)
Lemma dmm_start_tolerates_precision_failure_witness :
  let sdi := bench_sdi "Agilent" "34405A" in
  let deaf := failing_bench (idn "Agilent" "34405A") SR_MQ_VOLTAGE SR_MQFLAG_DC
                true true true true true in
  exists sdi',
    dev_acquisition_start (E := deaf) sdi = Some (SR_OK, sdi') /\
    start_acq_mq (priv sdi') = Some (SR_MQ_VOLTAGE, SR_MQFLAG_DC) /\
    precision (priv sdi') = precision (priv sdi).
Proof.
  intros sdi deaf.
  destruct (dmm_start_tolerates_precision_failure (E := deaf) sdi bench_scpi
              SR_MQ_VOLTAGE SR_MQFLAG_DC eq_refl eq_refl
              (fun _ _ => eq_refl) (fun _ => eq_refl) (fun _ => eq_refl))
    as (sdi' & Hs & Hmq & Hprec).
  exists sdi'. split; [exact Hs|]. split; [exact Hmq|].
  rewrite Hprec. reflexivity.
Defined.

(** Start and stop on an HP 34401A. *)
Lemma dmm_start_stop_bracket_witness :
  let sdi := bench_sdi "HP" "34401A" in
  let sound := bench (idn "HP" "34401A") SR_MQ_VOLTAGE SR_MQFLAG_DC
                 None None in
  exists sdi1 sdi2,
    dev_acquisition_start (E := sound) sdi = Some (SR_OK, sdi1) /\
    dev_acquisition_stop sdi1 = Some (SR_OK, sdi2) /\
    datafeed sdi2 = datafeed sdi ++ [SR_DF_HEADER; SR_DF_END].
Proof.
  intros sdi sound.
  assert (exists sdi1, dev_acquisition_start (E := sound) sdi
                       = Some (SR_OK, sdi1))
    as [sdi1 Hs] by (eexists; vm_compute; reflexivity).
  destruct (dmm_start_stop_bracket (E := sound) sdi sdi1 bench_scpi
              eq_refl Hs) as (sdi2 & Hstop & _ & _ & Hfeed & _).
  exists sdi1, sdi2. split; [exact Hs|]. split; assumption.
Defined.

(** A DMM6500 that reports the range token "10": measuring DC voltage
    the read returns the listed label "10V"; measuring AC current, whose
    rows do not have that token, the read ends with the unassigned
    label while the listing offers the six AC current labels. *)
Lemma range_read_listed_or_unassigned_witness :
  let sdi := bench_sdi "KEITHLEY INSTRUMENTS" "MODEL DMM6500" in
  let dc := bench (idn "KEITHLEY INSTRUMENTS" "MODEL DMM6500")
              SR_MQ_VOLTAGE SR_MQFLAG_DC None (Some "10") in
  let ac := bench (idn "KEITHLEY INSTRUMENTS" "MODEL DMM6500")
              SR_MQ_CURRENT SR_MQFLAG_AC None (Some "10") in
  (exists ls,
     config_get (E := dc) (C := bench_protocol_c None) SR_CONF_RANGE sdi
     = reply_data (gv_string "10V") /\
     config_list (E := dc) SR_CONF_RANGE (Some sdi) = list_range ls /\
     "10V" ∈ ls) /\
  (config_get (E := ac) (C := bench_protocol_c None) SR_CONF_RANGE sdi
   = reply_uninitialised /\
   config_list (E := ac) SR_CONF_RANGE (Some sdi)
   = list_range ["Auto"; "1mA"; "10mA"; "100mA"; "1A"; "3A"] /\
   forall o, o ∈ rangeopts (devc_model (priv sdi)) ->
     range_mq o = SR_MQ_CURRENT -> range_mqflag o = SR_MQFLAG_AC ->
     scpi_range o <> "10").
Proof.
  intros sdi dc ac. split.
  - pose proof (range_read_listed_or_unassigned (E := dc)
                  (C := bench_protocol_c None) sdi) as Hread.
    assert (config_get (E := dc) (C := bench_protocol_c None)
              SR_CONF_RANGE sdi = reply_data (gv_string "10V")) as Hget
      by (vm_compute; reflexivity).
    rewrite Hget in Hread. destruct Hread as (l & ls & [= <-] & Hlist & Hin).
    exists ls. split; [reflexivity|]. split; assumption.
  - pose proof (range_read_listed_or_unassigned (E := ac)
                  (C := bench_protocol_c None) sdi) as Hread.
    assert (config_get (E := ac) (C := bench_protocol_c None)
              SR_CONF_RANGE sdi = reply_uninitialised) as Hget
      by (vm_compute; reflexivity).
    rewrite Hget in Hread.
    destruct Hread as (q & f & ls & reply & [= <- <-] & Hlist & Hreply & Hno).
    split; [reflexivity|].
    split; [vm_compute; reflexivity|].
    assert (reply = Some "10") as ->.
    { destruct Hreply as [[[= <-] Hsome]|[_ [= <-]]];
        [contradiction|reflexivity]. }
    intros o Hin Hq Hf Htoken. apply (Hno o Hin Hq Hf). now rewrite Htoken.
Defined.

(** On a DMM6500 measuring DC voltage the label "100V" is listed and
    sends the token "100"; the label "750V", of the AC rows, is
    refused. *)
Lemma listed_range_is_settable_witness :
  let sdi := bench_sdi "KEITHLEY INSTRUMENTS" "MODEL DMM6500" in
  let dc := bench (idn "KEITHLEY INSTRUMENTS" "MODEL DMM6500")
              SR_MQ_VOLTAGE SR_MQFLAG_DC None None in
  config_list (E := dc) SR_CONF_RANGE (Some sdi)
  = list_range ["Auto"; "100mV"; "1V"; "10V"; "100V"; "1000V"] /\
  (exists o, range_str o = "100V" /\
     config_set_range (E := dc) (C := bench_protocol_c None) "100V" sdi
     = scpi_dmm_set_range (protocol_c := bench_protocol_c None) sdi
         SR_MQ_VOLTAGE SR_MQFLAG_DC (scpi_range o)) /\
  config_set_range (E := dc) (C := bench_protocol_c None) "750V" sdi
  = SR_ERR_NA.
Proof.
  intros sdi dc.
  destruct (listed_range_is_settable (E := dc) (C := bench_protocol_c None)
              sdi SR_MQ_VOLTAGE SR_MQFLAG_DC "100V" eq_refl)
    as (Hlist & Hin & _).
  destruct (listed_range_is_settable (E := dc) (C := bench_protocol_c None)
              sdi SR_MQ_VOLTAGE SR_MQFLAG_DC "750V" eq_refl)
    as (_ & _ & Hout).
  split; [exact Hlist|]. split.
  - destruct Hin as [[Hauto _]|(o & _ & _ & _ & Hstr & Hset)].
    + vm_compute.
      do 4 apply list_elem_of_further. apply list_elem_of_here.
    + discriminate Hauto.
    + exists o. split; assumption.
  - apply Hout; [|discriminate].
    intros Hin'. vm_compute in Hin'.
    repeat (apply elem_of_cons in Hin' as [Hin'|Hin']; [discriminate Hin'|]).
    apply elem_of_nil in Hin'. exact Hin'.
Defined.

(** The row ("100", "100V") of the DMM6500 for DC voltage, with the
    meter answering the auto-range query with nothing and the range
    query with "100". *)
Lemma range_round_trip_witness :
  let sdi := bench_sdi "KEITHLEY INSTRUMENTS" "MODEL DMM6500" in
  let dc := bench (idn "KEITHLEY INSTRUMENTS" "MODEL DMM6500")
              SR_MQ_VOLTAGE SR_MQFLAG_DC None (Some "100") in
  config_set_range (E := dc) (C := bench_protocol_c None) "100V" sdi
  = scpi_dmm_set_range (protocol_c := bench_protocol_c None) sdi
      SR_MQ_VOLTAGE SR_MQFLAG_DC "100" /\
  config_get (E := dc) (C := bench_protocol_c None) SR_CONF_RANGE sdi
  = reply_data (gv_string "100V").
Proof.
  intros sdi dc.
  assert (devc_model (priv sdi) ∈ models) as Hm
    by (apply list_elem_of_In; do 8 right; left; reflexivity).
  assert (rangeopt SR_MQ_VOLTAGE SR_MQFLAG_DC "100" "100V"
          ∈ rangeopts (devc_model (priv sdi))) as Ho
    by (apply list_elem_of_In; do 4 right; left; reflexivity).
  destruct (range_round_trip (E := dc) (C := bench_protocol_c None)
              sdi _ Hm Ho eq_refl) as (Hset & Hget & _).
  split.
  - apply Hset. discriminate.
  - apply Hget; [discriminate|]. right. split; reflexivity.
Defined.

(** NPLC on a DMM6500: read for DC voltage, with an answer and without,
    and for AC voltage, which has no row. *)
Lemma config_get_nplc_gate_witness :
  let sdi := bench_sdi "KEITHLEY INSTRUMENTS" "MODEL DMM6500" in
  let dc := bench (idn "KEITHLEY INSTRUMENTS" "MODEL DMM6500")
              SR_MQ_VOLTAGE SR_MQFLAG_DC None None in
  let ac := bench (idn "KEITHLEY INSTRUMENTS" "MODEL DMM6500")
              SR_MQ_VOLTAGE SR_MQFLAG_AC None None in
  config_get (E := dc) (C := bench_protocol_c (Some (float_of_Z 1)))
    SR_CONF_ADC_POWERLINE_CYCLES sdi
  = reply_data (gv_double (double_of_float (float_of_Z 1))) /\
  config_get (E := dc) (C := bench_protocol_c None)
    SR_CONF_ADC_POWERLINE_CYCLES sdi = reply_uninitialised /\
  config_get (E := ac) (C := bench_protocol_c (Some (float_of_Z 1)))
    SR_CONF_ADC_POWERLINE_CYCLES sdi = reply_error SR_ERR_NA.
Proof.
  intros sdi dc ac.
  assert (exists o, In o (nplcopts (devc_model (priv sdi))) /\
            nplc_mq o = SR_MQ_VOLTAGE /\ nplc_mqflag o = SR_MQFLAG_DC) as Hrow
    by (eexists; split; [left; reflexivity|split; reflexivity]).
  split; [|split].
  - destruct (config_get_nplc_gate (E := dc)
                (C := bench_protocol_c (Some (float_of_Z 1)))
                sdi SR_MQ_VOLTAGE SR_MQFLAG_DC eq_refl) as [Hget _].
    exact (Hget Hrow).
  - destruct (config_get_nplc_gate (E := dc) (C := bench_protocol_c None)
                sdi SR_MQ_VOLTAGE SR_MQFLAG_DC eq_refl) as [Hget _].
    exact (Hget Hrow).
  - destruct (config_get_nplc_gate (E := ac)
                (C := bench_protocol_c (Some (float_of_Z 1)))
                sdi SR_MQ_VOLTAGE SR_MQFLAG_AC eq_refl) as [_ Hna].
    apply Hna. intros o Ho [Hq Hf]. revert Hq Hf.
    repeat (destruct Ho as [<-|Ho]; [vm_compute; discriminate|]).
    destruct Ho.
Defined.

(** A probe of a device that does not answer the identity query, and
    one of an OWON XDM2041. *)
Lemma probe_device_local_once_witness :
  let mute := failing_bench (idn "Agilent" "34405A") SR_MQ_VOLTAGE
                SR_MQFLAG_DC false true true true true in
  let owon := bench (idn "OWON" "XDM2041") SR_MQ_VOLTAGE SR_MQFLAG_DC
                None None in
  ((probe_device (E := mute) bench_scpi).2 = None /\
   times_sent "SYST:LOC" (probe_device (E := mute) bench_scpi).1 = 0%nat) /\
  times_sent "SYST:LOC" (probe_device (E := owon) bench_scpi).1 = 1%nat /\
  last (sent (probe_device (E := owon) bench_scpi).1) = Some "SYST:LOC".
Proof.
  intros mute owon. split.
  - destruct (probe_device_local_once (E := mute) bench_scpi)
      as (Hiff & Hnone & _).
    assert ((probe_device (E := mute) bench_scpi).2 = None) as Hn.
    { apply Hiff. left. vm_compute. discriminate. }
    split; [exact Hn|]. rewrite (Hnone Hn). reflexivity.
  - destruct (probe_device_local_once (E := owon) bench_scpi)
      as (_ & _ & Hsome & _).
    assert (exists sdi, (probe_device (E := owon) bench_scpi).2 = Some sdi
              /\ usable (sr_scpi_cmd_get (cmdset (devc_model (priv sdi)))
                           DMM_CMD_SETUP_LOCAL) = Some "SYST:LOC")
      as (sdi & Hp & Hcmd)
      by (eexists; split; vm_compute; reflexivity).
    specialize (Hsome sdi Hp). rewrite Hcmd in Hsome.
    destruct Hsome as (_ & Hcount & Hlast).
    split; [rewrite Hcount; reflexivity|exact Hlast].
Defined.

End DmmMore.
